(** * Confound-adjustment meta-estimators of TPOT: [tpot/builtins/meta_estimator.py]

    A shallow embedding of [check_if_any_float], [X_adj_fit],
    [X_adj_predict] and of the [fit]/[predict] methods of [MetaRegressor]
    and [MetaClassifier], followed by the properties of the design
    document that concern them.

    Conventions of the embedding:
    - a float64 entry is an exact rational ([Q]); NaN and the infinities
      are not represented, and an equation between computed entries is
      [Qeq]; where a property depends on the rounding of float64, the
      subtraction and the addition of the outcome adjustment are run on
      binary64 floats ([Float64]);
    - a Python exception is a value of [exn]; a function that may raise
      returns a [result]; a method that may raise after it has already
      assigned attributes of [self] returns the new [self] together with
      the [result];
    - the scikit-learn estimators and the wrapped estimator are outside of
      the file: they are the operations of the classes [LinearModels] and
      [Estimator]. *)

From Stdlib Require Import ZArith QArith Qround Qabs String List Bool Lia Lqa.
From Stdlib Require Floats Uint63.
From stdpp Require Import base list.
Import ListNotations.

Local Open Scope string_scope.
Local Open Scope list_scope.

(* Decimal literals of floats stand for the nearest binary64 float, as in
   Python. *)
Set Warnings "-inexact-float".

(** ** Python values, exceptions and results *)

Module Py.

Inductive exn : Type :=
| ValueError
| TypeError
| KeyError
| IndexError
| AttributeError
| UnboundLocalError.

Inductive result (A : Type) : Type :=
| Ok (a : A)
| Raise (e : exn).
Arguments Ok {A} a.
Arguments Raise {A} e.

#[global] Instance result_ret : MRet result := fun _ a => Ok a.
#[global] Instance result_bind : MBind result :=
  fun _ _ f m => match m with Ok a => f a | Raise e => Raise e end.
#[global] Instance result_fmap : FMap result :=
  fun _ _ f m => match m with Ok a => Ok (f a) | Raise e => Raise e end.

(** The objects that the modelled statements compare, test for truth
    or hand to [raise]. *)
#[warnings="-register-all"] Inductive pyval : Type :=
| PyNone
| PyBool (b : bool)
| PyStr (s : string)
| PyList (l : list pyval)
| PyTuple (l : list pyval)
| PyExcClass (e : exn).

(** [a == b]: objects of different types are unequal. *)
Fixpoint py_eq (a b : pyval) {struct a} : bool :=
  let fix all2 (l1 l2 : list pyval) {struct l1} : bool :=
    match l1, l2 with
    | [], [] => true
    | x :: l1', y :: l2' => py_eq x y && all2 l1' l2'
    | _, _ => false
    end in
  match a, b with
  | PyNone, PyNone => true
  | PyBool x, PyBool y => Bool.eqb x y
  | PyStr s, PyStr t => String.eqb s t
  | PyList l1, PyList l2 => all2 l1 l2
  | PyTuple l1, PyTuple l2 => all2 l1 l2
  | PyExcClass e1, PyExcClass e2 =>
      match e1, e2 with
      | ValueError, ValueError | TypeError, TypeError | KeyError, KeyError
      | IndexError, IndexError | AttributeError, AttributeError
      | UnboundLocalError, UnboundLocalError => true
      | _, _ => false
      end
  | _, _ => false
  end.

(** Truth value of an object in an [if]. *)
Definition truthy (v : pyval) : bool :=
  match v with
  | PyNone => false
  | PyBool b => b
  | PyStr s => negb (String.eqb s "")
  | PyList l | PyTuple l => match l with [] => false | _ => true end
  | PyExcClass _ => true
  end.

(** [raise v] in Python 3: an exception class is raised as itself; any
    other object (a tuple, a string) is not an exception and the
    statement raises [TypeError] ("exceptions must derive from
    BaseException"). *)
Definition raise_stmt {A} (v : pyval) : result A :=
  match v with
  | PyExcClass e => Raise e
  | _ => Raise TypeError
  end.

(** Methods: a computation on [self] that may assign attributes and may
    raise; the attributes assigned before the exception stay assigned. *)
Definition M (S A : Type) : Type := S -> S * result A.

#[global] Instance M_ret {S} : MRet (M S) := fun _ a s => (s, Ok a).
#[global] Instance M_bind {S} : MBind (M S) :=
  fun _ _ f m s =>
    match m s with
    | (s', Ok a) => f a s'
    | (s', Raise e) => (s', Raise e)
    end.

Definition lift {S A} (r : result A) : M S A := fun s => (s, r).
Definition get {S} : M S S := fun s => (s, Ok s).
Definition modify {S} (f : S -> S) : M S unit := fun s => (f s, Ok tt).

(** Reading an attribute that was never assigned. *)
Definition getattr {S A} (proj : S -> option A) : M S A :=
  fun s => match proj s with
           | Some a => (s, Ok a)
           | None => (s, Raise AttributeError)
           end.

End Py.
Import Py.

(** ** numpy: vectors and two-dimensional arrays *)

Module Np.

(** A one-dimensional float array. *)
Abbreviation vec := (list Q).

(** [Arr1 v] has shape [(length v,)]; [Arr2 n cols] has shape
    [(n, length cols)] and is stored by column, every column having [n]
    entries in a well-formed array. *)
Inductive ndarray : Type :=
| Arr1 (v : vec)
| Arr2 (n : nat) (cols : list vec).

Definition size (a : ndarray) : nat :=
  match a with
  | Arr1 v => length v
  | Arr2 n cols => n * length cols
  end.

(** [a.shape[0]] *)
Definition nrows (a : ndarray) : nat :=
  match a with Arr1 v => length v | Arr2 n _ => n end.

(** [np.array([])] *)
Definition empty_array : ndarray := Arr1 [].

(** [np.zeros((n, m))] and [np.zeros((n,))] *)
Definition zeros (n m : nat) : ndarray := Arr2 n (replicate m (replicate n 0%Q)).
Definition zeros1 (n : nat) : vec := replicate n 0%Q.

(** Elementwise binary operation on one-dimensional arrays with numpy's
    broadcasting: equal lengths, or one operand of length one. *)
Definition broadcast2 (f : Q -> Q -> Q) (a b : vec) : result vec :=
  if (length a =? length b)%nat then Ok (zip_with f a b)
  else match a, b with
       | _, [y] => Ok (map (fun x => f x y) a)
       | [x], _ => Ok (map (fun y => f x y) b)
       | _, _ => Raise ValueError
       end.

Definition sub : vec -> vec -> result vec := broadcast2 Qminus.
Definition add : vec -> vec -> result vec := broadcast2 Qplus.

(** [k * v] for a Python scalar [k]. *)
Definition scale (k : Q) (v : vec) : vec := map (Qmult k) v.

(** [a[:, j]] *)
Definition getcol (a : ndarray) (j : nat) : result vec :=
  match a with
  | Arr1 _ => Raise IndexError
  | Arr2 _ cols =>
      match cols !! j with
      | Some c => Ok c
      | None => Raise IndexError
      end
  end.

(** What an assignment stores in a slot of [n] entries: a vector of
    [n] entries as it is, a vector of one entry repeated [n] times. *)
Definition broadcast_to (n : nat) (v : vec) : result vec :=
  if (length v =? n)%nat then Ok v
  else match v with
       | [x] => Ok (replicate n x)
       | _ => Raise ValueError
       end.

(** [a[:, j] = v] *)
Definition setcol (a : ndarray) (j : nat) (v : vec) : result ndarray :=
  match a with
  | Arr1 _ => Raise IndexError
  | Arr2 n cols =>
      if (j <? length cols)%nat then
        v' ← broadcast_to n v; Ok (Arr2 n (<[j := v']> cols))
      else Raise IndexError
  end.

(** [np.hstack((a, b))]: when the first array is one-dimensional the
    arrays are joined along axis 0, otherwise along axis 1; the arrays
    must have the same number of dimensions and, along axis 1, the same
    number of rows. *)
Definition hstack (a b : ndarray) : result ndarray :=
  match a, b with
  | Arr1 u, Arr1 v => Ok (Arr1 (u ++ v))
  | Arr2 n c, Arr2 m d =>
      if (n =? m)%nat then Ok (Arr2 n (c ++ d)) else Raise ValueError
  | _, _ => Raise ValueError
  end.

(** [int(a)] of a float: truncation towards zero. *)
Definition int (a : Q) : Z := Z.quot (Qnum a) (Zpos (Qden a)).

(** Two's-complement value of the low 32 bits. *)
Definition wrap_int32 (z : Z) : Z :=
  ((z + 2 ^ 31) mod 2 ^ 32 - 2 ^ 31)%Z.

(** [v.astype(np.int32)]: truncation towards zero (every value that
    fits in 32 bits is kept). *)
Definition astype_int32 (v : vec) : vec :=
  map (fun a => inject_Z (wrap_int32 (int a))) v.

(** [np.rint]: the nearest integer, a tie going to the even one. *)
Definition rint (a : Q) : Q :=
  let f := Qfloor a in
  let d := (a - inject_Z f)%Q in
  match (d ?= 1 # 2)%Q with
  | Lt => inject_Z f
  | Gt => inject_Z (f + 1)
  | Eq => if Z.even f then inject_Z f else inject_Z (f + 1)
  end.

(** Python's [min] and [max] over a sequence; an empty sequence raises
    [ValueError]. *)
Definition min_ (l : vec) : result Q :=
  match l with
  | [] => Raise ValueError
  | x :: l' => Ok (fold_left (fun m y => if Qle_bool m y then m else y) l' x)
  end.

Definition max_ (l : vec) : result Q :=
  match l with
  | [] => Raise ValueError
  | x :: l' => Ok (fold_left (fun m y => if Qle_bool y m then m else y) l' x)
  end.

(** [a < b] on floats. *)
Definition ltb (a b : Q) : bool := negb (Qle_bool b a).

(** [y_pred[np.where(y < c)] = c] and [y_pred[np.where(y > c)] = c]:
    the entries of [y_pred] at the positions where the test holds on [y]
    are overwritten. *)
Definition assign_where (test : Q -> bool) (y y_pred : vec) (c : Q) : vec :=
  zip_with (fun yi pi => if test yi then c else pi) y y_pred.

End Np.

(** ** numpy on float64 entries

    The elementwise subtraction and addition of one-dimensional arrays
    whose entries are binary64 floats: each entry is computed by the
    IEEE 754 operation, rounded to the nearest float, a tie going to the
    even one, as numpy computes it. *)

Module Float64.
Import PrimFloat.

Abbreviation vec := (list float).

(** Elementwise binary operation with numpy's broadcasting, as
    [Np.broadcast2]. *)
Definition broadcast2 (f : float -> float -> float) (a b : vec) : result vec :=
  if (length a =? length b)%nat then Ok (zip_with f a b)
  else match a, b with
       | _, [y] => Ok (map (fun x => f x y) a)
       | [x], _ => Ok (map (fun y => f x y) b)
       | _, _ => Raise ValueError
       end.

Definition sub : vec -> vec -> result vec := broadcast2 PrimFloat.sub.
Definition add : vec -> vec -> result vec := broadcast2 PrimFloat.add.

(** The mean of the entries, summed from the left: the prediction of a
    regression on which the covariates have no effect. *)
Definition mean (v : vec) : float :=
  (fold_left PrimFloat.add v 0 / of_uint63 (Uint63.of_Z (Z.of_nat (length v))))%float.

(** The arithmetic of [MetaRegressor] on the target, from [fit] to
    [predict] on the training frame, around a wrapped estimator that
    predicts the targets it was fitted on: [y_train_adj = y - pi_train] in
    [fit], [y_test_adj_pred + pi_test] in [predict], the outcome model
    predicting [pi_] both times. *)
Definition fit_then_predict (y pi_ : vec) : result vec :=
  y_train_adj ← sub y pi_;
  let y_test_adj_pred := y_train_adj in
  y_test_adj_pred_pi ← add y_test_adj_pred pi_;
  let y_pred := y_test_adj_pred_pi in
  Ok y_pred.

(** [a == b] on every entry. *)
Definition all_equal (a b : vec) : bool :=
  (length a =? length b)%nat && forallb (fun '(x, y) => PrimFloat.eqb x y) (zip a b).

(** [np.allclose(a, b)] with its default tolerances:
    [|a - b| <= atol + rtol * |b|] on every entry. *)
Definition allclose (a b : vec) : bool :=
  (length a =? length b)%nat &&
  forallb (fun '(x, y) => PrimFloat.leb (abs (x - y)) (1e-8 + 1e-5 * abs y))%float
          (zip a b).

End Float64.

(** ** pandas: data frames with named columns *)

Module Pd.
Import Np.

(** [index_len] rows; the columns in order, each with its label. *)
Record DataFrame : Type := mkDataFrame {
  index_len : nat;
  cols : list (string * vec)
}.

Definition wf_frame (df : DataFrame) : Prop :=
  Forall (fun c => length (snd c) = index_len df) (cols df).

(** [df.columns] *)
Definition columns (df : DataFrame) : list string := map fst (cols df).

(** [a in l] for a list of strings (and [a in df.columns]). *)
Definition contains (l : list string) (a : string) : bool :=
  existsb (String.eqb a) l.

(** [df.shape], [df.size], [df.empty] *)
Definition shape (df : DataFrame) : nat * nat := (index_len df, length (cols df)).
Definition size (df : DataFrame) : nat := (index_len df * length (cols df))%nat.
Definition empty (df : DataFrame) : bool :=
  (index_len df =? 0)%nat || (length (cols df) =? 0)%nat.

(** [df.values] *)
Definition values (df : DataFrame) : ndarray :=
  Arr2 (index_len df) (map snd (cols df)).

(** [df.iloc[:, j].values] *)
Definition iloc_col (df : DataFrame) (j : nat) : result vec :=
  match cols df !! j with
  | Some c => Ok (snd c)
  | None => Raise IndexError
  end.

(** [df.drop(labels, axis=1)]: every label must name a column
    ([errors='raise'] is the default), and every column carrying one of
    the labels is removed. *)
Definition drop (labels : list string) (df : DataFrame) : result DataFrame :=
  if forallb (contains (columns df)) labels then
    Ok (mkDataFrame (index_len df)
          (List.filter (fun c => negb (contains labels (fst c))) (cols df)))
  else Raise KeyError.

(** [df[labels]]: the columns are taken in the order of [labels]; a
    label that names no column raises [KeyError]. *)
Definition getitem (labels : list string) (df : DataFrame) : result DataFrame :=
  if forallb (contains (columns df)) labels then
    Ok (mkDataFrame (index_len df)
          (flat_map (fun a => List.filter (fun c => String.eqb (fst c) a) (cols df))
                    labels))
  else Raise KeyError.

End Pd.

(** ** The estimators outside of the file *)

Import Np Pd.

(** What the estimators accept as a feature matrix: a data frame or an
    array. *)
Inductive arraylike : Type :=
| AFrame (df : DataFrame)
| AArr (a : ndarray).

(** [np.asarray(x)], as [np.hstack] applies it to its arguments. *)
Definition asarray (x : arraylike) : ndarray :=
  match x with
  | AFrame df => Pd.values df
  | AArr a => a
  end.

(** [x.size] *)
Definition size_of (x : arraylike) : nat :=
  match x with
  | AFrame df => Pd.size df
  | AArr a => Np.size a
  end.

(** [sklearn.linear_model]: [LinearRegression()] and
    [LogisticRegression(penalty='none', solver='lbfgs', multi_class='auto')].
    [fit] changes the object it is called on and may raise; [predict],
    [predict_proba] and [classes_] read a fitted object. *)
Class LinearModels : Type := {
  LinearRegression : Type;
  LinearRegression_new : LinearRegression;
  lin_fit : LinearRegression -> ndarray -> vec -> LinearRegression * result unit;
  lin_predict : LinearRegression -> ndarray -> result vec;
  LogisticRegression : Type;
  LogisticRegression_new : LogisticRegression;
  log_fit : LogisticRegression -> ndarray -> vec -> LogisticRegression * result unit;
  log_classes_ : LogisticRegression -> result vec;
  log_predict_proba : LogisticRegression -> ndarray -> result ndarray;
  log_predict : LogisticRegression -> ndarray -> result vec
}.

(** The wrapped estimator: any object with [fit] and [predict]. *)
Class Estimator (E : Type) : Type := {
  est_fit : E -> arraylike -> vec -> E * result unit;
  est_predict : E -> arraylike -> result vec
}.

(** The object after a call of [fit] that returned normally. *)
Definition fitted {T} (r : T * result unit) : result T :=
  match r with
  | (t, Ok _) => Ok t
  | (_, Raise e) => Raise e
  end.

(** [for x in l: s = body x s] *)
Fixpoint for_ {A S} (l : list A) (body : A -> S -> result S) (s : S) : result S :=
  match l with
  | [] => Ok s
  | x :: l' => s' ← body x s; for_ l' body s'
  end.

(** [enumerate(l)] *)
Definition enumerate {A} (l : list A) : list (nat * A) := zip (seq 0 (length l)) l.

(** ** The column-type check *)

(** The loop of [check_if_any_float]: [if_any_float] becomes [True] at the
    first [a] with [int(a) != a], where the loop is left. *)
Fixpoint any_float_loop (snp_array : vec) (if_any_float : bool) : bool :=
  match snp_array with
  | [] => if_any_float
  | a :: rest =>
      if negb (Qeq_bool (inject_Z (Np.int a)) a) then true
      else any_float_loop rest if_any_float
  end.

(** [check_if_any_float]: the loop runs, and the function ends with a bare
    [return], whose value is [None]. *)
Definition check_if_any_float (snp_array : vec) : pyval :=
  let if_any_float := any_float_loop snp_array false in
  PyNone.

(** The [if]/[else] of [X_adj_fit] that sets [value], the type tag of a
    column, from the result of the check. *)
Definition column_value (X_train_col : vec) : string :=
  if truthy (check_if_any_float X_train_col) then "dosage" else "ternary".

(** ** Adjustment of the columns of a feature block *)

Section Adjust.
Context `{LM : LinearModels}.

(** An entry of [col_est]. *)
Inductive col_model : Type :=
| Regr (regr : LinearRegression)
| Clf (clf : LogisticRegression).

(** [est.predict(C)], [est.predict_proba(C)] and [est.classes_] on an
    entry of [col_est]; a [LinearRegression] has neither
    [predict_proba] nor [classes_]. *)
Definition model_predict (est : col_model) (C_ : ndarray) : result vec :=
  match est with
  | Regr regr => lin_predict regr C_
  | Clf clf => log_predict clf C_
  end.

Definition model_predict_proba (est : col_model) (C_ : ndarray) : result ndarray :=
  match est with
  | Regr _ => Raise AttributeError
  | Clf clf => log_predict_proba clf C_
  end.

Definition model_classes_ (est : col_model) : result vec :=
  match est with
  | Regr _ => Raise AttributeError
  | Clf clf => log_classes_ clf
  end.

(** The loop over [enumerate(classes_)]: from the running column the
    probability column of each class, times the class value as an
    integer, is subtracted. *)
Definition subtract_expected (classes : vec) (proba : ndarray) (col : vec) : result vec :=
  for_ (enumerate classes)
       (fun '(gt_idx, gt) col_adj =>
          let gt := Np.int gt in
          p ← Np.getcol proba gt_idx;
          Np.sub col_adj (Np.scale (inject_Z gt) p))
       col.

(** One turn of the loop of [X_adj_fit] over the column numbers. *)
Definition X_adj_fit_col (X_train : DataFrame) (C_train : ndarray) (col : nat)
    (st : ndarray * list col_model * list string)
  : result (ndarray * list col_model * list string) :=
  let '(X_train_adj, col_est, values) := st in
  X_train_col ← Pd.iloc_col X_train col;
  let value := column_value X_train_col in
  let values := values ++ [value] in
  if py_eq (PyList (map PyStr values)) (PyStr "dosage") then
    regr ← fitted (lin_fit LinearRegression_new C_train X_train_col);
    est_pred ← lin_predict regr C_train;
    adj ← Np.sub X_train_col est_pred;
    X_train_adj ← Np.setcol X_train_adj col adj;
    Ok (X_train_adj, col_est ++ [Regr regr], values)
  else
    clf ← fitted (log_fit LogisticRegression_new C_train (Np.astype_int32 X_train_col));
    clf_pred_proba ← log_predict_proba clf C_train;
    classes ← log_classes_ clf;
    X_train_col_adj ← subtract_expected classes clf_pred_proba X_train_col;
    X_train_adj ← Np.setcol X_train_adj col X_train_col_adj;
    Ok (X_train_adj, col_est ++ [Clf clf], values).

(** [X_adj_fit(X_train, C_train)]: the adjusted block, the estimators
    and the type tags of its columns. An empty frame is returned as it
    is. *)
Definition X_adj_fit (X_train : DataFrame) (C_train : ndarray)
  : result (arraylike * list col_model * list string) :=
  let col_est := [] in
  let values := [] in
  if Pd.empty X_train then Ok (AFrame X_train, col_est, values)
  else
    let X_train_adj := Np.zeros (fst (Pd.shape X_train)) (snd (Pd.shape X_train)) in
    '(X_train_adj, col_est, values) ←
      for_ (seq 0 (snd (Pd.shape X_train))) (X_adj_fit_col X_train C_train)
           (X_train_adj, col_est, values);
    Ok (AArr X_train_adj, col_est, values).

(** One turn of the loop of [X_adj_predict] over
    [zip(values, col_est, range(X_test.shape[1]))]. *)
Definition X_adj_predict_col (X_test : DataFrame) (C_test : ndarray)
    (item : string * col_model * nat) (X_test_adj : ndarray) : result ndarray :=
  let '(values, est, col) := item in
  X_test_col ← Pd.iloc_col X_test col;
  if py_eq (PyStr values) (PyStr "dosage") then
    est_pred ← model_predict est C_test;
    adj ← Np.sub X_test_col est_pred;
    Np.setcol X_test_adj col adj
  else
    clf_pred_proba ← model_predict_proba est C_test;
    classes ← model_classes_ est;
    X_test_col_adj ← subtract_expected classes clf_pred_proba X_test_col;
    Np.setcol X_test_adj col X_test_col_adj.

(** [zip(a, b, c)] stops with the shortest of the three. *)
Definition zip3 {A B D} (a : list A) (b : list B) (c : list D) : list (A * B * D) :=
  zip (zip a b) c.

(** [X_adj_predict(X_test, C_test, col_est, values)] *)
Definition X_adj_predict (X_test : DataFrame) (C_test : ndarray)
    (col_est : list col_model) (values : list string) : result arraylike :=
  if Pd.empty X_test then Ok (AFrame X_test)
  else
    let X_test_adj := Np.zeros (fst (Pd.shape X_test)) (snd (Pd.shape X_test)) in
    X_test_adj ←
      for_ (zip3 values col_est (seq 0 (snd (Pd.shape X_test))))
           (X_adj_predict_col X_test C_test) X_test_adj;
    Ok (AArr X_test_adj).

End Adjust.

(** ** The two facades *)

(** The [subset] argument: [None], a list of feature names, or a tuple of
    pairs (names of covariates, names of features). *)
Inductive Subset : Type :=
| SubsetNone
| SubsetList (names : list string)
| SubsetTuple (pairs : list (list string * list string)).

Section Facade.
Context `{LM : LinearModels} {E : Type} `{EST : Estimator E}.

(** The attributes of a facade object. [estimator], [A], [C] and
    [subset] are assigned by [__init__]; the others exist once [fit] has
    assigned them. [B] is the class of the outcome model. *)
Record facade (B : Type) : Type := mkFacade {
  estimator : E;
  A : option (list string);
  C : option (list string);
  subset : Subset;
  col_ests : option (list (list col_model));
  values_list : option (list (list string));
  sel_subset : option (list string);
  B_est : option B
}.
#[global] Arguments mkFacade {B}.
#[global] Arguments estimator {B}.
#[global] Arguments A {B}.
#[global] Arguments C {B}.
#[global] Arguments subset {B}.
#[global] Arguments col_ests {B}.
#[global] Arguments values_list {B}.
#[global] Arguments sel_subset {B}.
#[global] Arguments B_est {B}.

(** [__init__(self, estimator, A=None, C=None, subset=None)] *)
Definition init {B} (estimator : E) (A C : option (list string)) (subset : Subset)
  : facade B :=
  mkFacade estimator A C subset None None None None.

Section Attributes.
Context {B : Type}.
Implicit Type self : facade B.

Definition set_estimator (v : E) self :=
  mkFacade v (A self) (C self) (subset self) (col_ests self)
           (values_list self) (sel_subset self) (B_est self).
Definition set_col_ests (v : list (list col_model)) self :=
  mkFacade (estimator self) (A self) (C self) (subset self) (Some v)
           (values_list self) (sel_subset self) (B_est self).
Definition set_values_list (v : list (list string)) self :=
  mkFacade (estimator self) (A self) (C self) (subset self) (col_ests self)
           (Some v) (sel_subset self) (B_est self).
Definition set_sel_subset (v : list string) self :=
  mkFacade (estimator self) (A self) (C self) (subset self) (col_ests self)
           (values_list self) (Some v) (B_est self).
Definition set_B_est (v : B) self :=
  mkFacade (estimator self) (A self) (C self) (subset self) (col_ests self)
           (values_list self) (sel_subset self) (Some v).

(** [self.col_ests.append(col_est)], [self.values_list.append(values)]
    and [self.sel_subset += comm_features] *)
Definition col_ests_append (col_est : list col_model) : M (facade B) unit :=
  l ← getattr col_ests; modify (set_col_ests (l ++ [col_est])).
Definition values_list_append (values : list string) : M (facade B) unit :=
  l ← getattr values_list; modify (set_values_list (l ++ [values])).
Definition sel_subset_extend (comm_features : list string) : M (facade B) unit :=
  l ← getattr sel_subset; modify (set_sel_subset (l ++ comm_features)).

(** [l[0]] *)
Definition first {T} (l : list T) : result T :=
  match l with
  | x :: _ => Ok x
  | [] => Raise IndexError
  end.

(** [X.drop(self.A, axis=1, inplace=True)] and the same for [self.C],
    on the copy of [X]. *)
Definition drop_covariates self (X : DataFrame) : result DataFrame :=
  X_ ← match A self with Some a => Pd.drop a X | None => Ok X end;
  match C self with Some c => Pd.drop c X_ | None => Ok X_ end.

(** [[a for a in names if a in X.columns]] *)
Definition comm_features_of (names : list string) (X : DataFrame) : list string :=
  List.filter (Pd.contains (Pd.columns X)) names.

(** The statement that joins the adjusted block of a pair to the
    blocks before it. *)
Definition join_block (X_subset_adj tmp_X_subset_adj : arraylike) : result arraylike :=
  if (size_of X_subset_adj =? 0)%nat then Ok tmp_X_subset_adj
  else AArr <$> Np.hstack (asarray X_subset_adj) (asarray tmp_X_subset_adj).

(** One turn of the loop of [fit] over the pairs of a tuple [subset]. *)
Definition fit_pair (X X_train : DataFrame) (pair : list string * list string)
    (X_subset_adj : arraylike) : M (facade B) arraylike :=
  let '(subC, ssubset) := pair in
  let comm_features := comm_features_of ssubset X_train in
  sel_subset_extend comm_features;;
  tmp_C_train ← lift (Pd.values <$> Pd.getitem subC X);
  X_train_subset ← lift (Pd.getitem comm_features X_train);
  '(tmp_X_subset_adj, col_est, values) ← lift (X_adj_fit X_train_subset tmp_C_train);
  X_subset_adj ← lift (join_block X_subset_adj tmp_X_subset_adj);
  col_ests_append col_est;;
  values_list_append values;;
  mret X_subset_adj.

(** [for x in l: acc = body x acc] in a method. *)
Fixpoint forM_ {T S} (l : list T) (body : T -> S -> M (facade B) S) (s : S)
  : M (facade B) S :=
  match l with
  | [] => mret s
  | x :: l' => s' ← body x s; forM_ l' body s'
  end.

(** The first part of [fit], the same in both classes: the feature
    block [X_train_adj] handed to the wrapped estimator, and
    [C_train]. *)
Definition fit_features (X : DataFrame) : M (facade B) (arraylike * option ndarray) :=
  self ← get;
  X_train ← lift (drop_covariates self X);
  match C self with
  | None => mret (AFrame X_train, None)
  | Some c =>
      modify (set_col_ests []);;
      modify (set_values_list []);;
      C_train ← lift (Pd.values <$> Pd.getitem c X);
      match subset self with
      | SubsetNone =>
          '(X_train_adj, col_est, values) ← lift (X_adj_fit X_train C_train);
          col_ests_append col_est;;
          values_list_append values;;
          mret (X_train_adj, Some C_train)
      | SubsetList names =>
          let comm_features := comm_features_of names X_train in
          X_train_subset ← lift (Pd.getitem comm_features X_train);
          '(X_subset_adj, col_est, values) ← lift (X_adj_fit X_train_subset C_train);
          X_train_unsel ← lift (Pd.values <$> Pd.drop comm_features X_train);
          X_train_adj ← lift (Np.hstack (asarray X_subset_adj) X_train_unsel);
          col_ests_append col_est;;
          values_list_append values;;
          mret (AArr X_train_adj, Some C_train)
      | SubsetTuple pairs =>
          modify (set_sel_subset []);;
          X_subset_adj ← forM_ pairs (fit_pair X X_train) (AArr Np.empty_array);
          sel ← getattr sel_subset;
          X_train_unsel ← lift (Pd.values <$> Pd.drop sel X_train);
          X_train_adj ← lift (Np.hstack (asarray X_subset_adj) X_train_unsel);
          mret (AArr X_train_adj, Some C_train)
      end
  end.

(** One turn of the loop of [predict] over
    [zip(self.subset, self.col_ests, self.values_list)]. *)
Definition predict_pair (X X_test : DataFrame)
    (item : (list string * list string) * list col_model * list string)
    (X_subset_adj : arraylike) : result arraylike :=
  let '(sub, col_est, values) := item in
  tmp_C_test ← Pd.values <$> Pd.getitem (fst sub) X;
  let comm_features := comm_features_of (snd sub) X_test in
  X_test_subset ← Pd.getitem comm_features X_test;
  tmp_X_subset_adj ← X_adj_predict X_test_subset tmp_C_test col_est values;
  join_block X_subset_adj tmp_X_subset_adj.

(** The first part of [predict], the same in both classes: the feature
    block [X_test_adj] and [C_test]. *)
Definition predict_features (X : DataFrame) : M (facade B) (arraylike * option ndarray) :=
  self ← get;
  X_test ← lift (drop_covariates self X);
  match C self with
  | None => mret (AFrame X_test, None)
  | Some c =>
      C_test ← lift (Pd.values <$> Pd.getitem c X);
      match subset self with
      | SubsetNone =>
          col_est ← (l ← getattr col_ests; lift (first l));
          values ← (l ← getattr values_list; lift (first l));
          X_test_adj ← lift (X_adj_predict X_test C_test col_est values);
          mret (X_test_adj, Some C_test)
      | SubsetList names =>
          let comm_features := comm_features_of names X_test in
          X_test_subset ← lift (Pd.getitem comm_features X_test);
          X_test_unsel ← lift (Pd.values <$> Pd.drop names X_test);
          col_est ← (l ← getattr col_ests; lift (first l));
          values ← (l ← getattr values_list; lift (first l));
          X_subset_adj ← lift (X_adj_predict X_test_subset C_test col_est values);
          X_test_adj ← lift (Np.hstack (asarray X_subset_adj) X_test_unsel);
          mret (AArr X_test_adj, Some C_test)
      | SubsetTuple pairs =>
          col_ests_ ← getattr col_ests;
          values_list_ ← getattr values_list;
          X_subset_adj ← lift (for_ (zip3 pairs col_ests_ values_list_)
                                    (predict_pair X X_test) (AArr Np.empty_array));
          sel ← getattr sel_subset;
          X_test_unsel ← lift (Pd.values <$> Pd.drop sel X_test);
          X_test_adj ← lift (Np.hstack (asarray X_subset_adj) X_test_unsel);
          mret (AArr X_test_adj, Some C_test)
      end
  end.

(** [A_train = X[self.A].values], when [self.A] is not [None]. *)
Definition covariates_A self (X : DataFrame) : result (option ndarray) :=
  match A self with
  | Some a => Some <$> (Pd.values <$> Pd.getitem a X)
  | None => Ok None
  end.

(** The message of the configuration error. *)
Definition config_error : pyval :=
  PyTuple [PyExcClass ValueError;
           PyStr "At least one of A_train and C_train must be specified"].

(** The choice of [B_train] in [fit]: [A_train], [C_train], or both
    side by side. In the last branch a name that was never assigned
    is read when both are missing. *)
Definition B_train_of (A_train C_train : option ndarray) : result ndarray :=
  match A_train, C_train with
  | Some a, None => Ok a
  | None, Some c => Ok c
  | Some a, Some c => Np.hstack a c
  | None, None => Raise UnboundLocalError
  end.

(** The choice of [B_test] in [predict], whose first branch is the
    [raise] statement. *)
Definition B_test_of (A_test C_test : option ndarray) : result ndarray :=
  match A_test, C_test with
  | None, None => raise_stmt config_error
  | Some a, None => Ok a
  | None, Some c => Ok c
  | Some a, Some c => Np.hstack a c
  end.

(** [self.estimator.fit(X_train_adj, y_train_adj)] *)
Definition estimator_fit (X_train_adj : arraylike) (y_train_adj : vec)
  : M (facade B) unit :=
  fun self =>
    let '(e, r) := est_fit (estimator self) X_train_adj y_train_adj in
    (set_estimator e self, r).

End Attributes.

End Facade.

(** ** [MetaRegressor] *)

Module MetaRegressor.
Section Methods.
Context `{LM : LinearModels} {E : Type} `{EST : Estimator E}.

Definition t : Type := facade (E := E) LinearRegression.

(** [fit(self, X, y)], without estimator-specific [fit_params]. The
    method returns [self]. *)
Definition fit (X : DataFrame) (y : vec) : M t unit :=
  self ← get;
  if match A self, C self with None, None => true | _, _ => false end
  then lift (raise_stmt config_error)
  else
    '(X_train_adj, C_train) ← fit_features X;
    A_train ← lift (covariates_A self X);
    B_train ← lift (B_train_of A_train C_train);
    modify (set_B_est LinearRegression_new);;
    B_est_ ← (fun self' =>
                let '(b, r) := lin_fit LinearRegression_new B_train y in
                (set_B_est b self', (fun _ => b) <$> r));
    (* [.reshape((-1, 1))] and [np.ravel] give back the same entries *)
    pi_train ← lift (lin_predict B_est_ B_train);
    y_train_adj ← lift (Np.sub y pi_train);
    estimator_fit X_train_adj y_train_adj.

(** [predict(self, X)] *)
Definition predict (X : DataFrame) : M t vec :=
  self ← get;
  '(X_test_adj, C_test) ← predict_features X;
  A_test ← lift (covariates_A self X);
  B_test ← lift (B_test_of A_test C_test);
  B_est_ ← getattr B_est;
  pi_test ← lift (lin_predict B_est_ B_test);
  y_test_adj_pred ← lift (est_predict (estimator self) X_test_adj);
  y_test_adj_pred_pi ← lift (Np.add y_test_adj_pred pi_test);
  let y_pred := y_test_adj_pred_pi in
  mret y_pred.

End Methods.
End MetaRegressor.

(** ** [MetaClassifier] *)

Module MetaClassifier.
Section Methods.
Context `{LM : LinearModels} {E : Type} `{EST : Estimator E}.

Definition t : Type := facade (E := E) LogisticRegression.

(** The loop over [enumerate(self.B_est.classes_)] that builds the
    expected outcome: to the running vector the probability column of
    each class, times the class value as an integer, is added. *)
Definition add_expected (classes : vec) (proba : ndarray) (pi_ : vec) : result vec :=
  for_ (enumerate classes)
       (fun '(gt_idx, gt) pi_ =>
          let gt := Np.int gt in
          p ← Np.getcol proba gt_idx;
          Np.add pi_ (Np.scale (inject_Z gt) p))
       pi_.

(** [fit(self, X, y)], without estimator-specific [fit_params]. *)
Definition fit (X : DataFrame) (y : vec) : M t unit :=
  self ← get;
  if match A self, C self with None, None => true | _, _ => false end
  then lift (raise_stmt config_error)
  else
    '(X_train_adj, C_train) ← fit_features X;
    A_train ← lift (covariates_A self X);
    B_train ← lift (B_train_of A_train C_train);
    modify (set_B_est LogisticRegression_new);;
    B_est_ ← (fun self' =>
                let '(b, r) := log_fit LogisticRegression_new B_train y in
                (set_B_est b self', (fun _ => b) <$> r));
    B_est_pred_proba ← lift (log_predict_proba B_est_ B_train);
    let pi_train := Np.zeros1 (length y) in
    classes ← lift (log_classes_ B_est_);
    pi_train ← lift (add_expected classes B_est_pred_proba pi_train);
    y_train_adj ← lift (Np.sub y pi_train);
    estimator_fit X_train_adj y_train_adj.

(** The last four statements of [predict]: [np.rint], then the entries
    whose unrounded value is below [min_c] or above [max_c] are
    overwritten. *)
Definition round_and_clamp (classes y_test_adj_pred_pi : vec) : result vec :=
  min_c ← Np.min_ classes;
  max_c ← Np.max_ classes;
  let y_pred := map Np.rint y_test_adj_pred_pi in
  let y_pred := Np.assign_where (fun v => Np.ltb v min_c) y_test_adj_pred_pi y_pred min_c in
  let y_pred := Np.assign_where (fun v => Np.ltb max_c v) y_test_adj_pred_pi y_pred max_c in
  Ok y_pred.

(** [predict(self, X)] *)
Definition predict (X : DataFrame) : M t vec :=
  self ← get;
  '(X_test_adj, C_test) ← predict_features X;
  A_test ← lift (covariates_A self X);
  B_test ← lift (B_test_of A_test C_test);
  B_est_ ← getattr B_est;
  (* [pi_test = np.ravel(self.B_est.predict_proba(B_test)[:, 1])] *)
  pi_test ← lift (p ← log_predict_proba B_est_ B_test; Np.getcol p 1);
  y_test_adj_pred ← lift (est_predict (estimator self) X_test_adj);
  B_est_pred_proba ← lift (log_predict_proba B_est_ B_test);
  let pi_test := Np.zeros1 (length y_test_adj_pred) in
  classes ← lift (log_classes_ B_est_);
  pi_test ← lift (add_expected classes B_est_pred_proba pi_test);
  y_test_adj_pred_pi ← lift (Np.add y_test_adj_pred pi_test);
  lift (round_and_clamp classes y_test_adj_pred_pi).

End Methods.
End MetaClassifier.

(** ** Small estimators to run the methods on

    Intercept-only models: a regression that predicts the mean of its
    targets, a classifier that predicts the frequency of each class (both
    refuse an empty target and a target that has not one entry per row), and a
    wrapped estimator that remembers what it was fitted on and predicts
    the targets it has seen. *)

Module Toy.

Definition total (v : vec) : Q := fold_right Qplus 0%Q v.

Definition mean (v : vec) : Q :=
  Qred (total v / inject_Z (Z.of_nat (length v))).

(** [np.unique]: the distinct values in increasing order. *)
Fixpoint insert_unique (x : Q) (l : vec) : vec :=
  match l with
  | [] => [x]
  | y :: l' =>
      match (x ?= y)%Q with
      | Lt => x :: y :: l'
      | Eq => y :: l'
      | Gt => y :: insert_unique x l'
      end
  end.

Definition unique (v : vec) : vec := fold_right insert_unique [] v.

Definition frequency (c : Q) (v : vec) : Q :=
  Qred (inject_Z (Z.of_nat (length (List.filter (Qeq_bool c) v)))
        / inject_Z (Z.of_nat (length v))).

#[export] Instance models : LinearModels := {|
  LinearRegression := option Q;
  LinearRegression_new := None;
  lin_fit := fun _ B y =>
    if (nrows B =? length y)%nat && negb (length y =? 0)%nat
    then (Some (mean y), Ok tt)
    else (None, Raise ValueError);
  lin_predict := fun m B =>
    match m with
    | Some c => Ok (replicate (nrows B) c)
    | None => Raise AttributeError
    end;
  LogisticRegression := option (list (Q * Q));
  LogisticRegression_new := None;
  log_fit := fun _ B y =>
    if (nrows B =? length y)%nat && negb (length y =? 0)%nat
    then (Some (map (fun c => (c, frequency c y)) (unique y)), Ok tt)
    else (None, Raise ValueError);
  log_classes_ := fun m =>
    match m with
    | Some cf => Ok (map fst cf)
    | None => Raise AttributeError
    end;
  log_predict_proba := fun m B =>
    match m with
    | Some cf => Ok (Arr2 (nrows B) (map (fun cf => replicate (nrows B) (snd cf)) cf))
    | None => Raise AttributeError
    end;
  log_predict := fun m B =>
    match m with
    | Some ((c, _) :: _) => Ok (replicate (nrows B) c)
    | _ => Raise AttributeError
    end
|}.

(** The wrapped estimator keeps the last training set. *)
Definition memo : Type := option (arraylike * vec).

#[export] Instance memo_estimator : Estimator memo := {|
  est_fit := fun _ X y => (Some (X, y), Ok tt);
  est_predict := fun m _ =>
    match m with
    | Some (_, y) => Ok y
    | None => Raise AttributeError
    end
|}.

(** A frame of five samples: two covariates and three features. *)
Definition frame : DataFrame :=
  mkDataFrame 5
    [("N1", [1; 0; 1; 0; 1]%Q);
     ("N2", [0; 0; 1; 1; 1]%Q);
     ("N6", [0; 1; 2; 1; 0]%Q);
     ("N7", [0; 3 # 2; 2; 1; 1 # 2]%Q);
     ("N8", [2; 2; 1; 0; 0]%Q)].

Definition target : vec := [0; 1; 1; 0; 1]%Q.

(** [frame] without the covariates [N1] and [N2]. *)
Definition features : DataFrame :=
  mkDataFrame 5
    [("N6", [0; 1; 2; 1; 0]%Q);
     ("N7", [0; 3 # 2; 2; 1; 1 # 2]%Q);
     ("N8", [2; 2; 1; 0; 0]%Q)].

(** A [MetaRegressor] after [fit] on [frame] and [target], with the
    covariates [N1] and [N2] as [C] and a list as [subset] that names
    [X9], which is not a column. *)
Definition regressor_flat : facade (E := memo) LinearRegression :=
  Eval vm_compute in
    fst (MetaRegressor.fit frame target
           (init None None (Some ["N1"; "N2"]) (SubsetList ["N6"; "N7"; "X9"]))).

(** A [MetaRegressor] with the covariate [N1] as [A], the covariate [N2]
    as [C] and a tuple of two pairs as [subset], before and after [fit] on
    [frame] and [target]. *)
Definition regressor_pairs_init : facade (E := memo) LinearRegression :=
  init None (Some ["N1"]) (Some ["N2"])
       (SubsetTuple [(["N2"], ["N6"; "N7"]); (["N2"], ["N8"; "N9"])]).

Definition regressor_pairs : facade (E := memo) LinearRegression :=
  Eval vm_compute in fst (MetaRegressor.fit frame target regressor_pairs_init).

(** What the first part of [fit] returns on [frame] and
    [regressor_pairs_init]: the facade, the feature block and the
    covariates. *)
Definition pairs_state : facade (E := memo) LinearRegression :=
  Eval vm_compute in fst (fit_features frame regressor_pairs_init).

Definition pairs_block : arraylike :=
  Eval vm_compute in
    match snd (fit_features frame regressor_pairs_init) with
    | Ok (X_train_adj, _) => X_train_adj
    | Raise _ => AArr Np.empty_array
    end.

Definition pairs_C_train : option ndarray :=
  Eval vm_compute in
    match snd (fit_features frame regressor_pairs_init) with
    | Ok (_, C_train) => C_train
    | Raise _ => None
    end.

(** A [MetaRegressor] with the covariates [N1] and [N2] as [A] and no [C],
    before and after [fit] on [frame] and [target]. *)
Definition regressor_A_init : facade (E := memo) LinearRegression :=
  init None (Some ["N1"; "N2"]) None SubsetNone.

Definition regressor_A : facade (E := memo) LinearRegression :=
  Eval vm_compute in fst (MetaRegressor.fit frame target regressor_A_init).

(** A [MetaRegressor] with the list [["X9"]] as [subset], no name of which
    is a column, before and after [fit] on [frame] and [target]. *)
Definition regressor_X9_init : facade (E := memo) LinearRegression :=
  init None None (Some ["N1"; "N2"]) (SubsetList ["X9"]).

Definition regressor_X9 : facade (E := memo) LinearRegression :=
  Eval vm_compute in fst (MetaRegressor.fit frame target regressor_X9_init).

(** The feature [N7], which has entries that are not integers, alone in a
    frame, and the covariate [N1] as an array. *)
Definition frame_N7 : DataFrame :=
  mkDataFrame 5 [("N7", [0; 3 # 2; 2; 1; 1 # 2]%Q)].

Definition array_N1 : ndarray := Arr2 5 [[1; 0; 1; 0; 1]%Q].

(** The three results of [X_adj_fit frame_N7 array_N1]. *)
Definition adj_N7 : arraylike :=
  AArr (Arr2 5 [[-100 # 125; 175 # 250; 150 # 125; 25 # 125; -75 # 250]%Q]).

Definition est_N7 : list col_model :=
  [Clf (Some [(0, 2 # 5); (1, 2 # 5); (2, 1 # 5)]%Q)].

Definition values_N7 : list string := ["ternary"].

(** The result of [X_adj_predict features array_N1 est_N7 values_N7]: one
    estimator for three columns. *)
Definition adj_features_one : arraylike :=
  AArr (Arr2 5 [[-100 # 125; 25 # 125; 150 # 125; 25 # 125; -100 # 125];
                [0; 0; 0; 0; 0]; [0; 0; 0; 0; 0]]%Q).

(** A [MetaClassifier] after [fit] on [frame] and [target], with the
    covariate [N1] as [A], the covariate [N2] as [C] and no [subset]. *)
Definition classifier : facade (E := memo) LogisticRegression :=
  Eval vm_compute in
    fst (MetaClassifier.fit frame target
           (init None (Some ["N1"]) (Some ["N2"]) SubsetNone)).

(** The same facade around a wrapped estimator whose predictions leave the
    range of the classes. *)
Definition classifier_wide : facade (E := memo) LogisticRegression :=
  set_estimator (Some (AFrame frame, [3; -2; 1 # 2; 0; 6 # 5]%Q)) classifier.

Definition classifier_B_est : LogisticRegression :=
  Some [(0, 2 # 5); (1, 3 # 5)]%Q.

(** [classifier] before [fit]. *)
Definition classifier_init : facade (E := memo) LogisticRegression :=
  init None (Some ["N1"]) (Some ["N2"]) SubsetNone.

(** A target with the classes -1 and 1, a [MetaClassifier] after [fit] on
    [frame] and this target, and the same facade around a wrapped
    estimator that predicts 0, -1, 1, 6/5 and -2. *)
Definition target_gap : vec := [-1; -1; 1; 1; 1]%Q.

Definition classifier_gap : facade (E := memo) LogisticRegression :=
  Eval vm_compute in fst (MetaClassifier.fit frame target_gap classifier_init).

Definition classifier_gap_B_est : LogisticRegression :=
  Some [(-1, 2 # 5); (1, 3 # 5)]%Q.

Definition classifier_gap_wide : facade (E := memo) LogisticRegression :=
  set_estimator (Some (AFrame frame, [0; -1; 1; 6 # 5; -2]%Q)) classifier_gap.

(** The fitted [classifier] after its [C] has been set to name [N3],
    which is not a column of [frame]. *)
Definition classifier_N3 : facade (E := memo) LogisticRegression :=
  mkFacade (estimator classifier) None (Some ["N2"; "N3"]) SubsetNone
           (col_ests classifier) (values_list classifier) (sel_subset classifier)
           (B_est classifier).

End Toy.

(** ** Vocabulary of the statements *)

Section Vocabulary.
Context `{LM : LinearModels}.

(** What a normal turn of the loop of [X_adj_fit] has done for the
    column [x]: the classifier fitted on the covariates and the integer
    labels, its probabilities on the covariates, and the column after the
    subtractions. *)
Definition adjusted_by (C_ : ndarray) (x : vec) (clf : LogisticRegression)
    (proba : ndarray) (classes x_adj : vec) : Prop :=
  fitted (log_fit LogisticRegression_new C_ (Np.astype_int32 x)) = Ok clf /\
  log_predict_proba clf C_ = Ok proba /\
  log_classes_ clf = Ok classes /\
  subtract_expected classes proba x = Ok x_adj.

(** The expected value of a categorical column at row [r]: the sum, over
    the classes in the order of [classes_] starting at position [k], of
    the class value as an integer times the probability of the class. *)
Fixpoint expected_from (k : nat) (classes : vec) (pcols : list vec) (r : nat) : Q :=
  match classes with
  | [] => 0
  | gt :: rest =>
      inject_Z (Np.int gt) * nth r (nth k pcols []) 0
      + expected_from (S k) rest pcols r
  end%Q.

Definition expected (classes : vec) (pcols : list vec) (r : nat) : Q :=
  expected_from 0 classes pcols r.

(** Two vectors with equal entries. *)
Definition veq (u v : vec) : Prop := Forall2 Qeq u v.

(** A float whose value is an integer. *)
Definition is_integer (q : Q) : Prop := exists z : Z, q == inject_Z z.

(** [clamp_and_round] as the design document words it: round to the
    nearest integer, then clip below to [min_class] and above to
    [max_class]. *)
Definition clip (min_class max_class v : Q) : Q :=
  if Np.ltb v min_class then min_class
  else if Np.ltb max_class v then max_class
  else v.

Definition clamp_and_round (y_reconstructed : vec) (min_class max_class : Q) : vec :=
  map (fun v => clip min_class max_class (Np.rint v)) y_reconstructed.

(** The classes fill their range: every integer from the smallest to the
    largest class is a class. *)
Definition classes_fill_range (classes : vec) (min_c max_c : Q) : Prop :=
  forall z : Z, (min_c <= inject_Z z <= max_c)%Q ->
    exists c, c ∈ classes /\ (c == inject_Z z)%Q.

(** What the last statements of [predict] store at one position. *)
Definition clamp_entry (min_c max_c v : Q) : Q :=
  if Np.ltb max_c v then max_c
  else if Np.ltb v min_c then min_c
  else Np.rint v.

(** The contract of [predict_proba] on the covariates [C_]: an array of
    [n] rows, well formed. *)
Definition proba_rows (C_ : ndarray) (n : nat) : Prop :=
  forall clf proba, log_predict_proba clf C_ = Ok proba ->
    exists pcols, proba = Arr2 n pcols /\ Forall (fun c => length c = n) pcols.

(** A method that assigns no attribute: whatever [self] it starts from,
    it ends with the same [self]. *)
Definition readonly {S A} (m : M S A) : Prop := forall self, fst (m self) = self.

End Vocabulary.

Section FacadeVocabulary.
Context `{LM : LinearModels} {E : Type} `{EST : Estimator E}.

(** The facade [self] with the three attributes that [fit] fills for the
    features set to the given values. *)
Definition with_features {B} (ces : list (list col_model)) (vls : list (list string))
    (sel : list string) (self : facade (E := E) B) : facade (E := E) B :=
  mkFacade (estimator self) (A self) (C self) (subset self)
           (Some ces) (Some vls) (Some sel) (B_est self).

(** Two facades with the same configuration and the same fitted state of
    the features. *)
Definition same_features {B B'} (s1 : facade (E := E) B) (s2 : facade (E := E) B') : Prop :=
  A s1 = A s2 /\ C s1 = C s2 /\ subset s1 = subset s2 /\
  col_ests s1 = col_ests s2 /\ values_list s1 = values_list s2 /\
  sel_subset s1 = sel_subset s2.

(** What [fit] computes for one pair of a tuple [subset]: the block of the
    features of the pair that are columns, adjusted by [X_adj_fit] with the
    covariates of the pair, the estimators and the tags. *)
Definition pair_block (X X_train : DataFrame) (pair : list string * list string)
  : result (arraylike * list col_model * list string) :=
  tmp_C_train ← Pd.values <$> Pd.getitem (fst pair) X;
  X_train_subset ← Pd.getitem (comm_features_of (snd pair) X_train) X_train;
  X_adj_fit X_train_subset tmp_C_train.


(** The blocks joined one after the other to the running block. *)
Definition join_blocks (blocks : list arraylike) (X_subset_adj : arraylike)
  : result arraylike :=
  for_ blocks (fun tmp acc => join_block acc tmp) X_subset_adj.



(** The names of a list [subset] are all feature columns of [X]. *)
Definition flat_names_present {B} (self : facade (E := E) B) (X : DataFrame) : Prop :=
  forall names X_train,
    subset self = SubsetList names ->
    drop_covariates self X = Ok X_train ->
    forallb (Pd.contains (Pd.columns X_train)) names = true.

(** A method that leaves the configuration, the wrapped estimator and the
    outcome model of the facade as they are. *)
Definition keeps_config {B T} (m : M (facade (E := E) B) T) : Prop :=
  forall s s' r, m s = (s', r) ->
    A s' = A s /\ C s' = C s /\ subset s' = subset s /\
    estimator s' = estimator s /\ B_est s' = B_est s.

(** The contract of the regression on its training set: when [fit]
    returned, [predict] on the training matrix gives one value for each
    target. *)
Definition predicts_per_target : Prop :=
  forall (b0 b : LinearRegression) (B_ : ndarray) (y p : vec),
    lin_fit b0 B_ y = (b, Ok tt) -> lin_predict b B_ = Ok p -> length p = length y.

(** A wrapped estimator that reproduces its training targets on its
    training matrix. *)
Definition interpolates : Prop :=
  forall (e e' : E) (X_ : arraylike) (y : vec),
    est_fit e X_ y = (e', Ok tt) ->
    exists y', est_predict e' X_ = Ok y' /\ veq y' y.

(** The contract of the classifier on its training set: when [fit] on
    the targets [y] returned, [predict_proba] on the training matrix gives
    a well-formed array with one row for each target. *)
Definition proba_per_target (y : vec) : Prop :=
  forall (b0 b : LogisticRegression) (B_ : ndarray) (p : ndarray),
    log_fit b0 B_ y = (b, Ok tt) -> log_predict_proba b B_ = Ok p ->
    exists pcols, p = Arr2 (length y) pcols /\
                  Forall (fun c => length c = length y) pcols.

(** The classes of a classifier fitted on the targets [y] are integers,
    at least two, every target is one of them, and there is one column of
    probabilities for each class. *)
Definition labels_are_classes (y : vec) : Prop :=
  forall (b0 b : LogisticRegression) (B_ : ndarray) (classes : vec) (p : ndarray),
    log_fit b0 B_ y = (b, Ok tt) ->
    log_classes_ b = Ok classes ->
    log_predict_proba b B_ = Ok p ->
    Forall is_integer classes /\
    Forall (fun yi => exists c, c ∈ classes /\ (yi == c)%Q) y /\
    (2 <= length classes)%nat /\
    exists n pcols, p = Arr2 n pcols /\ length pcols = length classes.

End FacadeVocabulary.

(** * Properties *)

(** ** Results and methods *)

Lemma bind_Ok {A B} (m : result A) (f : A -> result B) (b : B) :
  m ≫= f = Ok b -> exists a, m = Ok a /\ f a = Ok b.
Proof. destruct m as [a|e]; simpl; [eauto | discriminate]. Qed.

Lemma fmap_Ok {A B} (m : result A) (f : A -> B) (b : B) :
  f <$> m = Ok b -> exists a, m = Ok a /\ b = f a.
Proof. destruct m as [a|e]; simpl; [intros [= <-]; eauto | discriminate]. Qed.

Lemma for_app {A S} (l1 l2 : list A) (body : A -> S -> result S) (s : S) :
  for_ (l1 ++ l2) body s = for_ l1 body s ≫= for_ l2 body.
Proof.
  revert s; induction l1 as [|x l1 IH]; intros s; simpl; [reflexivity|].
  destruct (body x s) as [s'|e]; simpl; [apply IH | reflexivity].
Qed.

(** Takes apart a hypothesis [m ≫= f = Ok b]. *)
Ltac bind_inv H :=
  let a := fresh "a" in
  let Ha := fresh "Ha" in
  apply bind_Ok in H as (a & Ha & H).

(** ** The column-type check and the guard of the regression branch *)

Lemma check_if_any_float_None (snp_array : vec) :
  check_if_any_float snp_array = PyNone.
Proof. reflexivity. Qed.

Lemma column_value_ternary (X_train_col : vec) :
  column_value X_train_col = "ternary".
Proof. reflexivity. Qed.

Lemma list_never_equals_str (values : list string) (s : string) :
  py_eq (PyList (map PyStr values)) (PyStr s) = false.
Proof. reflexivity. Qed.

(** ** One column of [X_adj_fit] *)

Section AdjustFacts.
Context `{LM : LinearModels}.

(** Without broadcasting: operands of the same length. *)
Lemma broadcast2_same_length f (a b : vec) :
  length a = length b -> Np.broadcast2 f a b = Ok (zip_with f a b).
Proof. unfold Np.broadcast2. intros ->. rewrite Nat.eqb_refl. reflexivity. Qed.

Lemma enumerate_from_cons {T} k (x : T) (l : list T) :
  zip (seq k (length (x :: l))) (x :: l) = (k, x) :: zip (seq (S k) (length l)) l.
Proof. reflexivity. Qed.

(** The loop of subtractions, when the probabilities have one row per
    entry of the column: every entry is the entry of the column minus its
    expected value. *)
Lemma subtract_expected_from n pcols classes :
  forall k x x_adj,
  Forall (fun c => length c = length x) pcols ->
  for_ (zip (seq k (length classes)) classes)
       (fun '(gt_idx, gt) col_adj =>
          let gt := Np.int gt in
          p ← Np.getcol (Arr2 n pcols) gt_idx;
          Np.sub col_adj (Np.scale (inject_Z gt) p))
       x = Ok x_adj ->
  length x_adj = length x /\
  forall r xr, x !! r = Some xr ->
    exists a, x_adj !! r = Some a /\ (a == xr - expected_from k classes pcols r)%Q.
Proof.
  induction classes as [|gt rest IH]; intros k x x_adj Hwf H.
  - simpl in H. injection H as <-. split; [reflexivity|].
    intros r xr Hr. exists xr. split; [exact Hr|]. simpl. ring.
  - rewrite enumerate_from_cons in H. cbn [for_] in H.
    bind_inv H. rename a into x1. cbn beta iota zeta in Ha.
    bind_inv Ha. rename a into p.
    unfold Np.getcol in Ha0.
    destruct (pcols !! k) as [p'|] eqn:Hp; [|discriminate].
    injection Ha0 as ->.
    assert (Hlen : length p = length x).
    { eapply (proj1 (Forall_lookup _ _) Hwf); eauto. }
    unfold Np.sub in Ha. rewrite broadcast2_same_length in Ha
      by (unfold Np.scale; rewrite length_map; lia).
    injection Ha as <-.
    assert (Hlen1 : length (zip_with Qminus x (Np.scale (inject_Z (Np.int gt)) p))
                    = length x).
    { rewrite length_zip_with, Nat.min_l; [reflexivity|].
      unfold Np.scale. rewrite length_map. lia. }
    apply IH in H as [Hl Hent]; [|rewrite Hlen1; exact Hwf].
    split; [congruence|].
    intros r xr Hr.
    assert (Hpr : exists pr, p !! r = Some pr).
    { apply lookup_lt_is_Some. rewrite Hlen. eapply lookup_lt_Some; eauto. }
    destruct Hpr as [pr Hpr].
    destruct (Hent r (xr - inject_Z (Np.int gt) * pr)%Q) as (a & Ha & Heq).
    { rewrite lookup_zip_with, Hr. simpl.
      unfold Np.scale. rewrite list_lookup_fmap, Hpr. reflexivity. }
    exists a. split; [exact Ha|].
    rewrite Heq. cbn [expected_from].
    rewrite (nth_lookup_Some _ _ _ _ Hp), (nth_lookup_Some _ _ _ _ Hpr). ring.
Qed.

Lemma X_adj_fit_col_Ok X_train C_train col X_train_adj col_est values r :
  X_adj_fit_col X_train C_train col (X_train_adj, col_est, values) = Ok r ->
  exists x clf proba classes x_adj adj',
    Pd.iloc_col X_train col = Ok x /\
    adjusted_by C_train x clf proba classes x_adj /\
    Np.setcol X_train_adj col x_adj = Ok adj' /\
    r = (adj', col_est ++ [Clf clf], values ++ ["ternary"]).
Proof.
  unfold X_adj_fit_col. intros H.
  bind_inv H. rename a into x.
  rewrite list_never_equals_str in H.
  bind_inv H. rename a into clf.
  bind_inv H. rename a into proba.
  bind_inv H. rename a into classes.
  bind_inv H. rename a into x_adj.
  bind_inv H. rename a into adj'.
  injection H as <-.
  exists x, clf, proba, classes, x_adj, adj'.
  rewrite column_value_ternary. unfold adjusted_by. auto 10.
Qed.

Lemma setcol_Ok n cols j v a :
  Np.setcol (Arr2 n cols) j v = Ok a ->
  (j < length cols)%nat /\
  exists v', Np.broadcast_to n v = Ok v' /\ a = Arr2 n (<[j := v']> cols).
Proof.
  unfold Np.setcol. destruct (Nat.ltb_spec j (length cols)); [|discriminate].
  intros H'. bind_inv H'. injection H' as <-. eauto.
Qed.

(** The loop of [X_adj_fit] over the columns [k], ..., [k + m - 1]: each
    of them is overwritten with its adjusted column, one classifier and
    one tag are appended for each, and the columns before [k] are left as
    they were. *)
Lemma X_adj_fit_loop_Ok X_train C_train m :
  forall k n cols col_est values r,
  for_ (seq k m) (X_adj_fit_col X_train C_train) (Arr2 n cols, col_est, values) = Ok r ->
  exists cols' clfs,
    r = (Arr2 n cols', col_est ++ map Clf clfs, values ++ replicate m "ternary") /\
    length clfs = m /\
    length cols' = length cols /\
    (forall j, (j < k)%nat -> cols' !! j = cols !! j) /\
    (forall i, (i < m)%nat ->
       exists x clf proba classes x_adj v,
         Pd.iloc_col X_train (k + i) = Ok x /\
         clfs !! i = Some clf /\
         adjusted_by C_train x clf proba classes x_adj /\
         Np.broadcast_to n x_adj = Ok v /\
         cols' !! (k + i)%nat = Some v).
Proof.
  induction m as [|m IH]; intros k n cols col_est values r H.
  - simpl in H. injection H as <-.
    exists cols, []. simpl. rewrite !app_nil_r.
    repeat split; auto. intros i Hi; lia.
  - cbn [seq for_] in H. bind_inv H.
    apply X_adj_fit_col_Ok in Ha
      as (x & clf & proba & classes & x_adj & adj' & Hx & Hadj & Hset & Hr).
    subst a.
    apply setcol_Ok in Hset as (Hk & v & Hv & ->).
    apply IH in H as (cols' & clfs & -> & Hlen & Hcols & Hbefore & Hcol).
    rewrite length_insert in Hcols.
    exists cols', (clf :: clfs). simpl.
    rewrite <- !app_assoc. simpl.
    split; [reflexivity|]. split; [lia|]. split; [exact Hcols|]. split.
    + intros j Hj. rewrite Hbefore by lia. apply list_lookup_insert_ne. lia.
    + intros [|i] Hi.
      * exists x, clf, proba, classes, x_adj, v.
        rewrite Nat.add_0_r. split; [exact Hx|]. split; [reflexivity|].
        split; [exact Hadj|]. split; [exact Hv|].
        rewrite Hbefore by lia. apply list_lookup_insert_eq. lia.
      * destruct (Hcol i ltac:(lia))
          as (x' & clf' & proba' & classes' & x_adj' & v' & H1 & H2 & H3 & H4 & H5).
        exists x', clf', proba', classes', x_adj', v'.
        replace (k + S i)%nat with (S k + i)%nat by lia. auto 10.
Qed.

(** [X_adj_fit] on a frame that is not empty. *)
Lemma X_adj_fit_Ok X_train C_train r :
  Pd.empty X_train = false ->
  X_adj_fit X_train C_train = Ok r ->
  exists cols' clfs,
    r = (AArr (Arr2 (index_len X_train) cols'), map Clf clfs,
         replicate (length (cols X_train)) "ternary") /\
    length clfs = length (cols X_train) /\
    length cols' = length (cols X_train) /\
    (forall i, (i < length (cols X_train))%nat ->
       exists x clf proba classes x_adj v,
         Pd.iloc_col X_train i = Ok x /\
         clfs !! i = Some clf /\
         adjusted_by C_train x clf proba classes x_adj /\
         Np.broadcast_to (index_len X_train) x_adj = Ok v /\
         cols' !! i = Some v).
Proof.
  unfold X_adj_fit. intros -> H. cbn [fst snd Pd.shape] in H.
  bind_inv H. destruct a as [[adj est] values].
  injection H as <-.
  apply X_adj_fit_loop_Ok in Ha as (cols' & clfs & Hr & Hlen & Hcols & _ & Hcol).
  injection Hr as -> -> ->.
  rewrite length_replicate in Hcols.
  exists cols', clfs. repeat split; auto.
Qed.

Lemma X_adj_fit_empty X_train C_train :
  Pd.empty X_train = true ->
  X_adj_fit X_train C_train = Ok (AFrame X_train, [], []).
Proof. unfold X_adj_fit. intros ->. reflexivity. Qed.

End AdjustFacts.

(** ** The type tags and the estimators of [X_adj_fit] *)

Section TagFacts.
Context `{LM : LinearModels}.

(** C3: whatever the entries of the columns, every tag in the list that
    [X_adj_fit] returns is ['ternary'], one for each column of a frame that
    is not empty: the check returns [None], which is false in the [if]. *)
Theorem X_adj_fit_tags_ternary (X_train : DataFrame) (C_train : ndarray)
    (X_train_adj : arraylike) (col_est : list col_model) (values : list string) :
  X_adj_fit X_train C_train = Ok (X_train_adj, col_est, values) ->
  (forall X_train_col, check_if_any_float X_train_col = PyNone) /\
  values = replicate (if Pd.empty X_train then 0 else length (cols X_train))%nat "ternary".
Proof.
  intros H. split; [exact check_if_any_float_None|].
  destruct (Pd.empty X_train) eqn:Hempty.
  - rewrite X_adj_fit_empty in H by exact Hempty. injection H as _ _ <-. reflexivity.
  - apply X_adj_fit_Ok in H as (cols' & clfs & [= _ _ ->] & _); auto.
Qed.

(** C10: for a frame that is not empty, [X_adj_fit] stores one estimator a
    column and each is the [LogisticRegression] fitted on the covariates and
    on the column as integers; the test that guards the [LinearRegression]
    branch compares a list with a string and is false for every list. *)
Theorem X_adj_fit_models_logistic (X_train : DataFrame) (C_train : ndarray)
    (X_train_adj : arraylike) (col_est : list col_model) (values : list string) :
  Pd.empty X_train = false ->
  X_adj_fit X_train C_train = Ok (X_train_adj, col_est, values) ->
  (forall tags : list string,
      py_eq (PyList (map PyStr tags)) (PyStr "dosage") = false) /\
  length col_est = length (cols X_train) /\
  (forall i est, col_est !! i = Some est ->
     exists x clf,
       Pd.iloc_col X_train i = Ok x /\
       est = Clf clf /\
       fitted (log_fit LogisticRegression_new C_train (Np.astype_int32 x)) = Ok clf).
Proof.
  intros Hne H. split; [intros tags; apply list_never_equals_str|].
  apply X_adj_fit_Ok in H as (cols' & clfs & [= _ -> _] & Hlen & _ & Hcol); auto.
  split; [rewrite length_map; exact Hlen|].
  intros i est Hi.
  apply list_lookup_fmap_Some_1 in Hi as (clf & -> & Hclf).
  destruct (Hcol i) as (x & clf' & proba & classes & x_adj & v & Hx & Hc & Hadj & _).
  { rewrite <- Hlen. eapply lookup_lt_Some; eauto. }
  exists x, clf. rewrite Hclf in Hc. injection Hc as <-.
  repeat split; auto. apply Hadj.
Qed.

End TagFacts.

(** C3 at the frame of the single column [N7]. *)
Lemma X_adj_fit_tags_ternary_N7 :
  X_adj_fit Toy.frame_N7 Toy.array_N1 = Ok (Toy.adj_N7, Toy.est_N7, Toy.values_N7) /\
  Toy.values_N7 = replicate 1 "ternary".
Proof.
  split; [vm_compute; reflexivity|].
  apply (X_adj_fit_tags_ternary Toy.frame_N7 Toy.array_N1 Toy.adj_N7 Toy.est_N7).
  vm_compute; reflexivity.
Defined.

(** C10 at the frame of the single column [N7]. *)
Lemma X_adj_fit_models_logistic_N7 :
  Pd.empty Toy.frame_N7 = false /\
  X_adj_fit Toy.frame_N7 Toy.array_N1 = Ok (Toy.adj_N7, Toy.est_N7, Toy.values_N7) /\
  length Toy.est_N7 = 1%nat.
Proof.
  split; [reflexivity|]. split; [vm_compute; reflexivity|].
  apply (X_adj_fit_models_logistic Toy.frame_N7 Toy.array_N1
           Toy.adj_N7 Toy.est_N7 Toy.values_N7);
    vm_compute; reflexivity.
Defined.

(** C2: on the column [[0.0, 1.5, 2.0]] the loop of the check finds an
    entry that is not an integer, but [check_if_any_float] returns [None]
    and the column is tagged ['ternary'], as is the column
    [[0, 1, 2, 1, 0]]. *)
Theorem check_if_any_float_returns_None :
  any_float_loop [0; 3 # 2; 2]%Q false = true /\
  check_if_any_float [0; 3 # 2; 2]%Q = PyNone /\
  column_value [0; 3 # 2; 2]%Q = "ternary" /\
  any_float_loop [0; 1; 2; 1; 0]%Q false = false /\
  column_value [0; 1; 2; 1; 0]%Q = "ternary".
Proof. repeat split. Qed.

(** ** The configuration error *)

(** C1: [fit] called on a facade whose [A] and [C] are both [None] stops
    at its first statement and leaves every attribute as it was, but the
    exception is a [TypeError], not the [ValueError] that the statement
    names: it hands a tuple to [raise]. [raise ValueError] itself would
    raise [ValueError]. *)
Theorem fit_without_covariates_raises_TypeError
    `{LM : LinearModels} {E : Type} `{EST : Estimator E}
    (X : DataFrame) (y : vec) (e : E) (sub : Subset)
    (ce : option (list (list col_model))) (vl : option (list (list string)))
    (ss : option (list string))
    (b1 : option LinearRegression) (b2 : option LogisticRegression) :
  MetaRegressor.fit X y (mkFacade e None None sub ce vl ss b1)
    = (mkFacade e None None sub ce vl ss b1, Raise TypeError) /\
  MetaClassifier.fit X y (mkFacade e None None sub ce vl ss b2)
    = (mkFacade e None None sub ce vl ss b2, Raise TypeError) /\
  raise_stmt (A := unit) (PyExcClass ValueError) = Raise ValueError.
Proof. repeat split. Qed.

(** ** Rounding and clamping *)

Section Rounding.
Local Open Scope Q_scope.

Lemma ltb_lt (a b : Q) : Np.ltb a b = true <-> a < b.
Proof.
  unfold Np.ltb. rewrite negb_true_iff.
  destruct (Qle_bool b a) eqn:H.
  - apply Qle_bool_iff in H. split; [discriminate | intros; lra].
  - split; [intros _ | reflexivity].
    destruct (Qlt_le_dec a b) as [|Hle]; [assumption|].
    apply Qle_bool_iff in Hle. congruence.
Qed.

Lemma ltb_ge (a b : Q) : Np.ltb a b = false <-> b <= a.
Proof.
  unfold Np.ltb. rewrite negb_false_iff. apply Qle_bool_iff.
Qed.

Lemma rint_cases (a : Q) :
  Np.rint a = inject_Z (Qfloor a) \/ Np.rint a = inject_Z (Qfloor a + 1).
Proof.
  unfold Np.rint.
  destruct (a - inject_Z (Qfloor a) ?= 1 # 2); auto.
  destruct (Z.even (Qfloor a)); auto.
Qed.

Lemma rint_is_integer (a : Q) : is_integer (Np.rint a).
Proof.
  destruct (rint_cases a) as [-> | ->]; eexists; reflexivity.
Qed.

(** [np.rint] is within one half of its argument. *)
Lemma rint_nearest (a : Q) : Qabs (Np.rint a - a) <= 1 # 2.
Proof.
  pose proof (Qfloor_le a) as Hlo. pose proof (Qlt_floor a) as Hhi.
  rewrite inject_Z_plus in Hhi.
  apply Qabs_Qle_condition.
  unfold Np.rint.
  destruct (Qcompare_spec (a - inject_Z (Qfloor a)) (1 # 2)) as [He | Hl | Hg].
  - destruct (Z.even (Qfloor a)); [|rewrite inject_Z_plus];
      change (inject_Z 1) with 1 in *; split; lra.
  - split; lra.
  - rewrite inject_Z_plus. change (inject_Z 1) with 1 in *. split; lra.
Qed.

(** An integer below the argument is below its rounding, and the same
    above. *)
Lemma rint_ge_integer (a : Q) (z : Z) : inject_Z z <= a -> inject_Z z <= Np.rint a.
Proof.
  intros H. apply Qfloor_resp_le in H. rewrite Qfloor_Z in H.
  destruct (rint_cases a) as [-> | ->]; rewrite <- Zle_Qle; lia.
Qed.

Lemma rint_le_integer (a : Q) (z : Z) : a <= inject_Z z -> Np.rint a <= inject_Z z.
Proof.
  intros H. pose proof (Qfloor_le a) as Hlo.
  unfold Np.rint.
  destruct (Qcompare_spec (a - inject_Z (Qfloor a)) (1 # 2)) as [He | Hl | Hg].
  - assert (Hlt : inject_Z (Qfloor a) < inject_Z z) by lra.
    rewrite <- Zlt_Qlt in Hlt.
    destruct (Z.even (Qfloor a)); rewrite <- Zle_Qle; lia.
  - lra.
  - assert (Hlt : inject_Z (Qfloor a) < inject_Z z) by lra.
    rewrite <- Zlt_Qlt in Hlt. rewrite <- Zle_Qle. lia.
Qed.

Lemma min_spec (l : vec) (x : Q) :
  let m := fold_left (fun m y => if Qle_bool m y then m else y) l x in
  (m = x \/ m ∈ l) /\ m <= x /\ Forall (fun c => m <= c) l.
Proof.
  revert x; induction l as [|y l IH]; intros x; simpl.
  - repeat split; [auto | lra | constructor].
  - destruct (Qle_bool x y) eqn:Hxy.
    + apply Qle_bool_iff in Hxy.
      destruct (IH x) as (Hin & Hle & Hall). repeat split.
      * destruct Hin as [-> | Hin]; [left; reflexivity | right; right; exact Hin].
      * exact Hle.
      * constructor; [lra | exact Hall].
    + assert (Hyx : y <= x).
      { destruct (Qlt_le_dec y x) as [|H']; [lra|].
        apply Qle_bool_iff in H'. congruence. }
      destruct (IH y) as (Hin & Hle & Hall). repeat split.
      * right. destruct Hin as [-> | Hin]; [left | right; exact Hin].
      * lra.
      * constructor; [exact Hle | exact Hall].
Qed.

Lemma max_spec (l : vec) (x : Q) :
  let m := fold_left (fun m y => if Qle_bool y m then m else y) l x in
  (m = x \/ m ∈ l) /\ x <= m /\ Forall (fun c => c <= m) l.
Proof.
  revert x; induction l as [|y l IH]; intros x; simpl.
  - repeat split; [auto | lra | constructor].
  - destruct (Qle_bool y x) eqn:Hxy.
    + apply Qle_bool_iff in Hxy.
      destruct (IH x) as (Hin & Hle & Hall). repeat split.
      * destruct Hin as [-> | Hin]; [left; reflexivity | right; right; exact Hin].
      * exact Hle.
      * constructor; [lra | exact Hall].
    + assert (Hyx : x <= y).
      { destruct (Qlt_le_dec x y) as [|H']; [lra|].
        apply Qle_bool_iff in H'. congruence. }
      destruct (IH y) as (Hin & Hle & Hall). repeat split.
      * right. destruct Hin as [-> | Hin]; [left | right; exact Hin].
      * lra.
      * constructor; [exact Hle | exact Hall].
Qed.

(** [min] and [max] of the classes are classes and bound every class. *)
Lemma min_max_classes (classes : vec) (min_c max_c : Q) :
  Np.min_ classes = Ok min_c ->
  Np.max_ classes = Ok max_c ->
  min_c ∈ classes /\ max_c ∈ classes /\
  Forall (fun c => min_c <= c <= max_c) classes.
Proof.
  destruct classes as [|x l]; [discriminate|].
  simpl. intros [= <-] [= <-].
  destruct (min_spec l x) as (Hin1 & Hle1 & Hall1).
  destruct (max_spec l x) as (Hin2 & Hle2 & Hall2).
  split; [|split].
  - destruct Hin1 as [-> | Hin1]; [left | right; exact Hin1].
  - destruct Hin2 as [-> | Hin2]; [left | right; exact Hin2].
  - constructor; [split; assumption|].
    rewrite Forall_forall in *. intros c Hc. split; auto.
Qed.

Lemma round_and_clamp_entries (classes y : vec) (min_c max_c : Q) :
  Np.min_ classes = Ok min_c ->
  Np.max_ classes = Ok max_c ->
  MetaClassifier.round_and_clamp classes y = Ok (map (clamp_entry min_c max_c) y).
Proof.
  intros Hmin Hmax. unfold MetaClassifier.round_and_clamp.
  rewrite Hmin, Hmax. simpl. f_equal.
  unfold Np.assign_where, clamp_entry.
  induction y as [|v y IH]; simpl; [reflexivity | f_equal; exact IH].
Qed.

(** On integer bounds the stored entry is the rounded value clipped to
    the bounds. *)
Lemma clamp_entry_clip (min_c max_c v : Q) :
  is_integer min_c -> is_integer max_c -> min_c <= max_c ->
  clamp_entry min_c max_c v == clip min_c max_c (Np.rint v).
Proof.
  intros [lo Hlo] [hi Hhi] Hle. unfold clamp_entry, clip.
  destruct (Np.ltb max_c v) eqn:H1; [apply ltb_lt in H1 | apply ltb_ge in H1].
  - assert (Hr : max_c <= Np.rint v).
    { rewrite Hhi. apply rint_ge_integer. lra. }
    destruct (Np.ltb (Np.rint v) min_c) eqn:H2;
      [apply ltb_lt in H2; lra | apply ltb_ge in H2].
    destruct (Np.ltb max_c (Np.rint v)) eqn:H3;
      [reflexivity | apply ltb_ge in H3; lra].
  - destruct (Np.ltb v min_c) eqn:H2; [apply ltb_lt in H2 | apply ltb_ge in H2].
    + assert (Hr : Np.rint v <= min_c).
      { rewrite Hlo. apply rint_le_integer. lra. }
      destruct (Np.ltb (Np.rint v) min_c) eqn:H3;
        [reflexivity | apply ltb_ge in H3].
      destruct (Np.ltb max_c (Np.rint v)) eqn:H4;
        [apply ltb_lt in H4; lra | lra].
    + assert (Hr1 : min_c <= Np.rint v).
      { rewrite Hlo. apply rint_ge_integer. lra. }
      assert (Hr2 : Np.rint v <= max_c).
      { rewrite Hhi. apply rint_le_integer. lra. }
      destruct (Np.ltb (Np.rint v) min_c) eqn:H3;
        [apply ltb_lt in H3; lra|].
      destruct (Np.ltb max_c (Np.rint v)) eqn:H4;
        [apply ltb_lt in H4; lra | reflexivity].
Qed.

(** The three cases of an entry. *)
Lemma clamp_entry_cases (min_c max_c v : Q) :
  is_integer min_c -> is_integer max_c -> min_c <= max_c ->
  (max_c < v -> clamp_entry min_c max_c v = max_c) /\
  (v < min_c -> clamp_entry min_c max_c v = min_c) /\
  (min_c <= v <= max_c ->
     clamp_entry min_c max_c v = Np.rint v /\
     Qabs (Np.rint v - v) <= 1 # 2 /\
     is_integer (Np.rint v) /\
     min_c <= Np.rint v <= max_c).
Proof.
  intros [lo Hlo] [hi Hhi] Hle. unfold clamp_entry. split; [|split].
  - intros H. apply ltb_lt in H. rewrite H. reflexivity.
  - intros H. assert (H1 : Np.ltb max_c v = false) by (apply ltb_ge; lra).
    apply ltb_lt in H. rewrite H1, H. reflexivity.
  - intros [H1 H2].
    assert (H3 : Np.ltb max_c v = false) by (apply ltb_ge; lra).
    assert (H4 : Np.ltb v min_c = false) by (apply ltb_ge; lra).
    rewrite H3, H4. split; [reflexivity|].
    split; [apply rint_nearest|]. split; [apply rint_is_integer|].
    split.
    + rewrite Hlo. apply rint_ge_integer. lra.
    + rewrite Hhi. apply rint_le_integer. lra.
Qed.

End Rounding.

(** ** Methods that only read *)

Lemma M_bind_Ok {S A B} (m : M S A) (f : A -> M S B) (s s' : S) (b : B) :
  (m ≫= f) s = (s', Ok b) ->
  exists a s1, m s = (s1, Ok a) /\ f a s1 = (s', Ok b).
Proof.
  unfold mbind, M_bind. destruct (m s) as [s1 [a|e]]; [eauto | discriminate].
Qed.

Lemma readonly_ret {S A} (a : A) : readonly (S := S) (mret a).
Proof. intros s. reflexivity. Qed.

Lemma readonly_lift {S A} (r : result A) : readonly (S := S) (lift r).
Proof. intros s. reflexivity. Qed.

Lemma readonly_get {S} : readonly (S := S) get.
Proof. intros s. reflexivity. Qed.

Lemma readonly_getattr {S A} (proj : S -> option A) : readonly (getattr proj).
Proof. intros s. unfold getattr. destruct (proj s); reflexivity. Qed.

Lemma readonly_bind {S A B} (m : M S A) (f : A -> M S B) :
  readonly m -> (forall a, readonly (f a)) -> readonly (m ≫= f).
Proof.
  intros Hm Hf s. unfold mbind, M_bind.
  specialize (Hm s). destruct (m s) as [s1 [a|e]]; simpl in Hm; subst s1.
  - apply Hf.
  - reflexivity.
Qed.

(** A read-only method returns the [self] it was called on. *)
Lemma readonly_run {S A} (m : M S A) (s s' : S) (r : result A) :
  readonly m -> m s = (s', r) -> s' = s.
Proof. intros H Hr. specialize (H s). rewrite Hr in H. exact H. Qed.

(** Proves that a method built from reads and pure steps is read-only. *)
Ltac readonly_steps :=
  repeat first
    [ apply readonly_ret | apply readonly_lift | apply readonly_get
    | apply readonly_getattr
    | apply readonly_bind; [| intros ?]
    | match goal with
      | |- readonly (match ?x with _ => _ end) => destruct x
      | |- readonly (let '(_, _) := ?x in _) => destruct x
      end ].

Section PredictReads.
Context `{LM : LinearModels} {E : Type} `{EST : Estimator E}.

Lemma predict_features_readonly {B} (X : DataFrame) :
  readonly (predict_features (E := E) (B := B) X).
Proof. unfold predict_features. readonly_steps. Qed.

Lemma MetaRegressor_predict_readonly (X : DataFrame) :
  readonly (MetaRegressor.predict X).
Proof.
  unfold MetaRegressor.predict.
  apply readonly_bind; [apply readonly_get | intros self].
  apply readonly_bind; [apply predict_features_readonly | intros [X_test_adj C_test]].
  readonly_steps.
Qed.

Lemma MetaClassifier_predict_readonly (X : DataFrame) :
  readonly (MetaClassifier.predict X).
Proof.
  unfold MetaClassifier.predict.
  apply readonly_bind; [apply readonly_get | intros self].
  apply readonly_bind; [apply predict_features_readonly | intros [X_test_adj C_test]].
  readonly_steps.
Qed.

(** C9: [predict] of either class, on any facade and any frame, whether it
    returns or raises, ends with every attribute of the facade
    ([estimator], [col_ests], [values_list], [sel_subset], [B_est] and the
    configuration) as it was. *)
Theorem predict_leaves_self_unchanged (X : DataFrame)
    (self1 : MetaRegressor.t) (self2 : MetaClassifier.t) :
  fst (MetaRegressor.predict X self1) = self1 /\
  fst (MetaClassifier.predict X self2) = self2.
Proof.
  split; [apply MetaRegressor_predict_readonly | apply MetaClassifier_predict_readonly].
Qed.

End PredictReads.
Section ClassifierPredict.
Context `{LM : LinearModels} {E : Type} `{EST : Estimator E}.
Local Open Scope Q_scope.

Lemma lift_run {S A} (r : result A) (s s' : S) (a : A) :
  lift r s = (s', Ok a) -> s' = s /\ r = Ok a.
Proof. unfold lift. intros [= -> ->]. auto. Qed.

Lemma getattr_run {S A} (proj : S -> option A) (s s' : S) (a : A) :
  getattr proj s = (s', Ok a) -> s' = s /\ proj s = Some a.
Proof. unfold getattr. destruct (proj s); intros [= -> ->]; auto. Qed.

Lemma get_run {S} (s s' a : S) : get s = (s', Ok a) -> s' = s /\ a = s.
Proof. unfold get. intros [= -> ->]. auto. Qed.

(** [predict] of [MetaClassifier], when it returns: every intermediate
    value with the statement that computes it. *)
Lemma MetaClassifier_predict_run (X : DataFrame) (self self' : MetaClassifier.t)
    (y_pred : vec) :
  MetaClassifier.predict X self = (self', Ok y_pred) ->
  exists X_test_adj C_test A_test B_test b proba classes y_test_adj_pred pi_test
         y_test_adj_pred_pi,
    predict_features X self = (self, Ok (X_test_adj, C_test)) /\
    covariates_A self X = Ok A_test /\
    B_test_of A_test C_test = Ok B_test /\
    B_est self = Some b /\
    log_predict_proba b B_test = Ok proba /\
    log_classes_ b = Ok classes /\
    est_predict (estimator self) X_test_adj = Ok y_test_adj_pred /\
    MetaClassifier.add_expected classes proba (Np.zeros1 (length y_test_adj_pred))
      = Ok pi_test /\
    Np.add y_test_adj_pred pi_test = Ok y_test_adj_pred_pi /\
    MetaClassifier.round_and_clamp classes y_test_adj_pred_pi = Ok y_pred.
Proof.
  unfold MetaClassifier.predict. intros H.
  apply M_bind_Ok in H as (s0 & s1 & H0 & H). apply get_run in H0 as [-> ->].
  apply M_bind_Ok in H as ([X_test_adj C_test] & s1 & H0 & H).
  pose proof (readonly_run _ _ _ _ (predict_features_readonly X) H0) as ->.
  apply M_bind_Ok in H as (A_test & s1 & H1 & H). apply lift_run in H1 as [-> H1].
  apply M_bind_Ok in H as (B_test & s1 & H2 & H). apply lift_run in H2 as [-> H2].
  apply M_bind_Ok in H as (b & s1 & H3 & H). apply getattr_run in H3 as [-> H3].
  apply M_bind_Ok in H as (p1 & s1 & H4 & H). apply lift_run in H4 as [-> H4].
  apply M_bind_Ok in H as (y_test_adj_pred & s1 & H5 & H). apply lift_run in H5 as [-> H5].
  apply M_bind_Ok in H as (proba & s1 & H6 & H). apply lift_run in H6 as [-> H6].
  apply M_bind_Ok in H as (classes & s1 & H7 & H). apply lift_run in H7 as [-> H7].
  apply M_bind_Ok in H as (pi_test & s1 & H8 & H). apply lift_run in H8 as [-> H8].
  apply M_bind_Ok in H as (y_pi & s1 & H9 & H). apply lift_run in H9 as [-> H9].
  apply lift_run in H as [-> H].
  exists X_test_adj, C_test, A_test, B_test, b, proba, classes, y_test_adj_pred,
         pi_test, y_pi.
  repeat (split; [assumption|]). exact H.
Qed.

(** C8: when [predict] of [MetaClassifier] returns, and the classes of the
    outcome model are integers, every entry of the result is the
    reconstructed prediction rounded by [np.rint] and clipped to the
    smallest and the largest class. The reconstructed prediction is the
    prediction of the wrapped estimator on the adjusted features plus the
    expected outcome, which is accumulated from zeros over [classes_] from
    the probabilities of the outcome model on the covariates of the frame.
    An entry above the largest class becomes that class, an entry below
    the smallest class becomes that class, and an entry in between becomes
    its nearest integer, which is in the range; it is a class when the
    classes fill their range, and need not be one otherwise. *)
Theorem MetaClassifier_predict_rounds_and_clamps (X : DataFrame)
    (self self' : MetaClassifier.t) (b : LogisticRegression)
    (classes y_pred : vec) :
  B_est self = Some b ->
  log_classes_ b = Ok classes ->
  Forall is_integer classes ->
  MetaClassifier.predict X self = (self', Ok y_pred) ->
  exists min_c max_c X_test_adj C_test A_test B_test proba
         y_test_adj_pred pi_test y_reconstructed,
    predict_features X self = (self, Ok (X_test_adj, C_test)) /\
    covariates_A self X = Ok A_test /\
    B_test_of A_test C_test = Ok B_test /\
    log_predict_proba b B_test = Ok proba /\
    est_predict (estimator self) X_test_adj = Ok y_test_adj_pred /\
    MetaClassifier.add_expected classes proba (Np.zeros1 (length y_test_adj_pred))
      = Ok pi_test /\
    Np.add y_test_adj_pred pi_test = Ok y_reconstructed /\
    Np.min_ classes = Ok min_c /\
    Np.max_ classes = Ok max_c /\
    min_c ∈ classes /\ max_c ∈ classes /\
    Forall (fun c => min_c <= c <= max_c) classes /\
    veq y_pred (clamp_and_round y_reconstructed min_c max_c) /\
    Forall2 (fun v p =>
               (max_c < v -> p = max_c) /\
               (v < min_c -> p = min_c) /\
               (min_c <= v <= max_c ->
                  p = Np.rint v /\ Qabs (p - v) <= 1 # 2 /\
                  is_integer p /\ min_c <= p <= max_c /\
                  (classes_fill_range classes min_c max_c ->
                   exists c, c ∈ classes /\ c == p)))
            y_reconstructed y_pred.
Proof.
  intros Hb Hclasses Hint H.
  apply MetaClassifier_predict_run in H
    as (X_test_adj & C_test & A_test & B_test & b' & proba & classes' & y_adj
        & pi_test & y_rec & Hpf & HA & HB & Hb' & Hproba & Hc' & Hest & Hexp
        & Hadd & Hrc).
  rewrite Hb in Hb'. injection Hb' as <-.
  rewrite Hclasses in Hc'. injection Hc' as <-.
  assert (Hmm : exists min_c max_c,
             Np.min_ classes = Ok min_c /\ Np.max_ classes = Ok max_c).
  { unfold MetaClassifier.round_and_clamp in Hrc.
    destruct (Np.min_ classes) as [min_c|]; [|discriminate].
    destruct (Np.max_ classes) as [max_c|]; [|discriminate]. eauto. }
  destruct Hmm as (min_c & max_c & Hmin & Hmax).
  destruct (min_max_classes _ _ _ Hmin Hmax) as (Hin1 & Hin2 & Hall).
  assert (Hi1 : is_integer min_c) by (eapply (proj1 (Forall_forall _ _)); eauto).
  assert (Hi2 : is_integer max_c) by (eapply (proj1 (Forall_forall _ _)); eauto).
  assert (Hle : min_c <= max_c).
  { apply (proj1 (Forall_forall _ _) Hall) in Hin1. lra. }
  rewrite (round_and_clamp_entries _ _ _ _ Hmin Hmax) in Hrc. injection Hrc as <-.
  exists min_c, max_c, X_test_adj, C_test, A_test, B_test, proba, y_adj, pi_test, y_rec.
  repeat (split; [assumption|]). split.
  - unfold veq, clamp_and_round. apply Forall2_fmap, Forall_Forall2_diag, Forall_forall.
    intros v _. apply clamp_entry_clip; assumption.
  - apply Forall2_fmap_r, Forall_Forall2_diag, Forall_forall.
    intros v _.
    destruct (clamp_entry_cases min_c max_c v Hi1 Hi2 Hle) as (H1 & H2 & H3).
    split; [exact H1|]. split; [exact H2|].
    intros Hv. destruct (H3 Hv) as (-> & Hn & [z Hz] & Hr).
    repeat (split; [first [reflexivity | assumption | exists z; exact Hz]|]).
    intros Hfill. destruct (Hfill z) as (c & Hc & Hcz).
    { rewrite <- Hz. exact Hr. }
    exists c. split; [exact Hc|]. rewrite Hcz, Hz. reflexivity.
Qed.
End ClassifierPredict.

Section ClassifierPredictToy.
Import Toy.
Local Open Scope Q_scope.

(** Rounding and clamping to the classes 0, 1, 2: a tie goes to the even
    integer. *)
Example round_and_clamp_012 :
  MetaClassifier.round_and_clamp [0; 1; 2] [27 # 10; -1 # 2; 6 # 5; 3 # 2; 5 # 2; 1 # 2]
  = Ok [2; 0; 1; 2; 2; 0].
Proof. reflexivity. Qed.

(** C8 on [Toy.classifier_wide]: the reconstructed predictions are 3.6,
    -1.4, 1.1, 0.6 and 1.8, the classes 0 and 1, which fill their range:
    every entry of the result is a class. *)
Lemma MetaClassifier_predict_rounds_and_clamps_toy :
  B_est Toy.classifier_wide = Some Toy.classifier_B_est /\
  log_classes_ Toy.classifier_B_est = Ok [0; 1] /\
  Forall is_integer [0; 1] /\
  MetaClassifier.predict Toy.frame Toy.classifier_wide
    = (Toy.classifier_wide, Ok [1; 0; 1; 1; 1]) /\
  exists min_c max_c y_reconstructed,
    Np.min_ [0; 1] = Ok min_c /\ Np.max_ [0; 1] = Ok max_c /\
    min_c ∈ [0; 1] /\ max_c ∈ [0; 1] /\
    veq [1; 0; 1; 1; 1] (clamp_and_round y_reconstructed min_c max_c).
Proof.
  assert (Hint : Forall is_integer [0; 1]).
  { repeat constructor; [exists 0%Z | exists 1%Z]; reflexivity. }
  assert (Hrun : MetaClassifier.predict Toy.frame Toy.classifier_wide
                 = (Toy.classifier_wide, Ok [1; 0; 1; 1; 1])).
  { vm_compute. reflexivity. }
  split; [reflexivity|]. split; [reflexivity|]. split; [exact Hint|].
  split; [exact Hrun|].
  destruct (MetaClassifier_predict_rounds_and_clamps
              Toy.frame Toy.classifier_wide Toy.classifier_wide
              Toy.classifier_B_est [0; 1] [1; 0; 1; 1; 1]
              eq_refl eq_refl Hint Hrun)
    as (min_c & max_c & _ & _ & _ & _ & _ & _ & _ & y_rec
        & _ & _ & _ & _ & _ & _ & _ & Hmin & Hmax & Hin1 & Hin2 & _ & Hveq & _).
  exists min_c, max_c, y_rec. auto.
Defined.

(** C8, the classes -1 and 1: after [fit] on [Toy.frame] and
    [Toy.target_gap] the expected outcome is 1/5 on every row. Around a
    wrapped estimator that predicts 0, -1, 1, 6/5 and -2 the reconstructed
    predictions are 1/5, -4/5, 6/5, 7/5 and -9/5; the first one is between
    the classes and [predict] returns 0 for it, which is its nearest
    integer and not a class. *)
Lemma MetaClassifier_predict_returns_no_class :
  MetaClassifier.fit Toy.frame Toy.target_gap Toy.classifier_init
    = (Toy.classifier_gap, Ok tt) /\
  B_est Toy.classifier_gap_wide = Some Toy.classifier_gap_B_est /\
  log_classes_ Toy.classifier_gap_B_est = Ok [-1; 1] /\
  (exists pi_test y_reconstructed,
     MetaClassifier.add_expected [-1; 1]
       (Arr2 5 [[2 # 5; 2 # 5; 2 # 5; 2 # 5; 2 # 5];
                [3 # 5; 3 # 5; 3 # 5; 3 # 5; 3 # 5]])
       (Np.zeros1 5) = Ok pi_test /\
     veq pi_test [1 # 5; 1 # 5; 1 # 5; 1 # 5; 1 # 5] /\
     Np.add [0; -1; 1; 6 # 5; -2] pi_test = Ok y_reconstructed /\
     veq y_reconstructed [1 # 5; -4 # 5; 6 # 5; 7 # 5; -9 # 5] /\
     MetaClassifier.round_and_clamp [-1; 1] y_reconstructed = Ok [0; -1; 1; 1; -1]) /\
  MetaClassifier.predict Toy.frame Toy.classifier_gap_wide
    = (Toy.classifier_gap_wide, Ok [0; -1; 1; 1; -1]) /\
  -1 <= 1 # 5 <= 1 /\
  ~ (exists c, c ∈ [-1; 1] /\ c == 0) /\
  ~ classes_fill_range [-1; 1] (-1) 1.
Proof.
  split; [vm_compute; reflexivity|].
  split; [reflexivity|]. split; [reflexivity|].
  split.
  { eexists _, _. split; [vm_compute; reflexivity|].
    split; [repeat constructor|].
    split; [vm_compute; reflexivity|].
    split; [repeat constructor | vm_compute; reflexivity]. }
  split; [vm_compute; reflexivity|].
  split; [split; discriminate|].
  assert (Hno : ~ (exists c, c ∈ [-1; 1] /\ c == 0)).
  { intros (c & Hc & H0).
    apply elem_of_cons in Hc as [-> | Hc]; [discriminate H0|].
    apply elem_of_cons in Hc as [-> | Hc]; [discriminate H0|].
    inversion Hc. }
  split; [exact Hno|].
  intros Hfill. apply Hno. apply (Hfill 0%Z). split; discriminate.
Qed.

End ClassifierPredictToy.

(** ** The expected value that is subtracted from a column *)

Section ExpectedValue.
Context `{LM : LinearModels}.
Local Open Scope Q_scope.

Lemma broadcast_to_same (n : nat) (v : vec) :
  length v = n -> Np.broadcast_to n v = Ok v.
Proof. unfold Np.broadcast_to. intros ->. rewrite Nat.eqb_refl. reflexivity. Qed.

Lemma iloc_col_lookup (X : DataFrame) (i : nat) (x : vec) :
  Pd.iloc_col X i = Ok x <-> exists name, cols X !! i = Some (name, x).
Proof.
  unfold Pd.iloc_col. destruct (cols X !! i) as [[name x']|]; split.
  - intros [= <-]. eauto.
  - intros [name' [= _ <-]]. reflexivity.
  - discriminate.
  - intros [? ?]. discriminate.
Qed.

(** One column adjusted with a classifier whose probabilities have one row
    per sample. *)
Lemma subtract_expected_rows (n : nat) (pcols : list vec) (classes x x_adj : vec) :
  length x = n ->
  Forall (fun c => length c = n) pcols ->
  subtract_expected classes (Arr2 n pcols) x = Ok x_adj ->
  Np.broadcast_to n x_adj = Ok x_adj /\
  length x_adj = length x /\
  forall r xr, x !! r = Some xr ->
    exists a, x_adj !! r = Some a /\ a == xr - expected classes pcols r.
Proof.
  intros Hx Hwf H. unfold subtract_expected, enumerate in H.
  apply subtract_expected_from in H as [Hlen Hent]; [|rewrite Hx; exact Hwf].
  split; [apply broadcast_to_same; congruence|]. split; [exact Hlen|exact Hent].
Qed.

Lemma X_adj_predict_col_Ok X_test C_test tag est col n cols a :
  X_adj_predict_col X_test C_test (tag, est, col) (Arr2 n cols) = Ok a ->
  exists x x_adj v,
    Pd.iloc_col X_test col = Ok x /\
    (if py_eq (PyStr tag) (PyStr "dosage")
     then exists est_pred, model_predict est C_test = Ok est_pred /\
                           Np.sub x est_pred = Ok x_adj
     else exists proba classes,
            model_predict_proba est C_test = Ok proba /\
            model_classes_ est = Ok classes /\
            subtract_expected classes proba x = Ok x_adj) /\
    (col < length cols)%nat /\
    Np.broadcast_to n x_adj = Ok v /\
    a = Arr2 n (<[col := v]> cols).
Proof.
  unfold X_adj_predict_col. intros H.
  bind_inv H. rename a0 into x.
  destruct (py_eq (PyStr tag) (PyStr "dosage")).
  - bind_inv H. rename a0 into est_pred. bind_inv H. rename a0 into x_adj.
    apply setcol_Ok in H as (Hlt & v & Hv & ->).
    exists x, x_adj, v. eauto 10.
  - bind_inv H. rename a0 into proba. bind_inv H. rename a0 into classes.
    bind_inv H. rename a0 into x_adj.
    apply setcol_Ok in H as (Hlt & v & Hv & ->).
    exists x, x_adj, v. eauto 10.
Qed.

(** The loop of [X_adj_predict] over the columns [k], [k + 1], ...: each
    column that has a tag and an estimator is overwritten with its
    adjusted column, and the columns before [k] are left as they were. *)
Lemma X_adj_predict_loop_Ok X_test C_test :
  forall tags ests m k n cols a,
  for_ (zip3 tags ests (seq k m)) (X_adj_predict_col X_test C_test) (Arr2 n cols) = Ok a ->
  exists cols',
    a = Arr2 n cols' /\
    length cols' = length cols /\
    (forall j, (j < k)%nat -> cols' !! j = cols !! j) /\
    (forall i tag est, tags !! i = Some tag -> ests !! i = Some est -> (i < m)%nat ->
       exists x x_adj v,
         Pd.iloc_col X_test (k + i) = Ok x /\
         (if py_eq (PyStr tag) (PyStr "dosage")
          then exists est_pred, model_predict est C_test = Ok est_pred /\
                                Np.sub x est_pred = Ok x_adj
          else exists proba classes,
                 model_predict_proba est C_test = Ok proba /\
                 model_classes_ est = Ok classes /\
                 subtract_expected classes proba x = Ok x_adj) /\
         Np.broadcast_to n x_adj = Ok v /\
         cols' !! (k + i)%nat = Some v).
Proof.
  assert (Hnil : forall n cols a, Ok (Arr2 n cols) = Ok a ->
            exists cols', a = Arr2 n cols' /\ length cols' = length cols /\
              (forall j, (j < 0 + j + 1)%nat -> cols' !! j = cols !! j)).
  { intros n cols a [= <-]. eauto. }
  induction tags as [|tag tags IH]; intros ests m k n cols a H.
  - injection H as <-. exists cols. repeat split; auto.
    intros i tag est Hi. rewrite lookup_nil in Hi. discriminate.
  - destruct ests as [|est ests].
    { injection H as <-. exists cols. repeat split; auto.
      intros i tag' est' _ Hi. rewrite lookup_nil in Hi. discriminate. }
    destruct m as [|m].
    { injection H as <-. exists cols. repeat split; auto.
      intros i tag' est' _ _ Hi. lia. }
    change (zip3 (tag :: tags) (est :: ests) (seq k (S m)))
      with ((tag, est, k) :: zip3 tags ests (seq (S k) m)) in H.
    cbn [for_] in H. bind_inv H.
    apply X_adj_predict_col_Ok in Ha as (x & x_adj & v & Hx & Hadj & Hlt & Hv & ->).
    apply IH in H as (cols' & -> & Hlen & Hbefore & Hcol).
    rewrite length_insert in Hlen.
    exists cols'. split; [reflexivity|]. split; [exact Hlen|]. split.
    + intros j Hj. rewrite Hbefore by lia. apply list_lookup_insert_ne. lia.
    + intros [|i] tag' est' Ht He Hi.
      * injection Ht as <-. injection He as <-.
        exists x, x_adj, v. rewrite Nat.add_0_r.
        split; [exact Hx|]. split; [exact Hadj|]. split; [exact Hv|].
        rewrite Hbefore by lia. apply list_lookup_insert_eq. lia.
      * replace (k + S i)%nat with (S k + i)%nat by lia.
        apply (Hcol i tag' est'); [exact Ht | exact He | lia].
Qed.

End ExpectedValue.

(** ** The adjusted columns *)

Section ExpectedValueClaim.
Context `{LM : LinearModels}.
Local Open Scope Q_scope.

Lemma X_adj_predict_Ok X_test C_test ests tags blk :
  Pd.empty X_test = false ->
  X_adj_predict X_test C_test ests tags = Ok blk ->
  exists cols',
    blk = AArr (Arr2 (index_len X_test) cols') /\
    length cols' = length (cols X_test) /\
    (forall i tag est, tags !! i = Some tag -> ests !! i = Some est ->
       (i < length (cols X_test))%nat ->
       exists x x_adj v,
         Pd.iloc_col X_test i = Ok x /\
         (if py_eq (PyStr tag) (PyStr "dosage")
          then exists est_pred, model_predict est C_test = Ok est_pred /\
                                Np.sub x est_pred = Ok x_adj
          else exists proba classes,
                 model_predict_proba est C_test = Ok proba /\
                 model_classes_ est = Ok classes /\
                 subtract_expected classes proba x = Ok x_adj) /\
         Np.broadcast_to (index_len X_test) x_adj = Ok v /\
         cols' !! i = Some v).
Proof.
  unfold X_adj_predict. intros -> H. cbn [fst snd Pd.shape] in H.
  bind_inv H. injection H as <-.
  apply X_adj_predict_loop_Ok in Ha as (cols' & -> & Hlen & _ & Hcol).
  rewrite length_replicate in Hlen.
  exists cols'. repeat split; auto.
Qed.

(** C6: [X_adj_fit] fits, for the column at position [i], a
    [LogisticRegression] on the covariates and on the column cast to
    integers, and stores it; when [predict_proba] gives one row of
    probabilities per sample, every entry of the adjusted column is the
    entry of the column minus the sum, over the classes of this classifier
    in the order of [classes_], of the class as an integer times its
    probability. [X_adj_predict] with the stored estimators and tags
    subtracts the same sum over the same classes, with the probabilities
    that the stored classifier gives on the new covariates. *)
Theorem X_adj_fit_subtracts_expected_value
    (X_train : DataFrame) (C_train : ndarray)
    (X_train_adj : arraylike) (col_est : list col_model) (values : list string)
    (i : nat) (name : string) (x : vec) :
  Pd.wf_frame X_train ->
  Pd.empty X_train = false ->
  proba_rows C_train (index_len X_train) ->
  X_adj_fit X_train C_train = Ok (X_train_adj, col_est, values) ->
  cols X_train !! i = Some (name, x) ->
  exists clf classes pcols x_adj,
    col_est !! i = Some (Clf clf) /\
    fitted (log_fit LogisticRegression_new C_train (Np.astype_int32 x)) = Ok clf /\
    log_classes_ clf = Ok classes /\
    log_predict_proba clf C_train = Ok (Arr2 (index_len X_train) pcols) /\
    Np.getcol (asarray X_train_adj) i = Ok x_adj /\
    (forall r xr, x !! r = Some xr ->
       exists a, x_adj !! r = Some a /\ a == xr - expected classes pcols r) /\
    (forall X_test C_test X_test_adj name' x',
       Pd.wf_frame X_test ->
       Pd.empty X_test = false ->
       proba_rows C_test (index_len X_test) ->
       X_adj_predict X_test C_test col_est values = Ok X_test_adj ->
       cols X_test !! i = Some (name', x') ->
       exists pcols' x_adj',
         log_predict_proba clf C_test = Ok (Arr2 (index_len X_test) pcols') /\
         Np.getcol (asarray X_test_adj) i = Ok x_adj' /\
         (forall r xr, x' !! r = Some xr ->
            exists a, x_adj' !! r = Some a /\ a == xr - expected classes pcols' r)).
Proof.
  intros Hwf Hne Hrows Hfit Hi.
  assert (Hlt : (i < length (cols X_train))%nat) by (eapply lookup_lt_Some; eauto).
  apply X_adj_fit_Ok in Hfit as (cols' & clfs & [= -> -> ->] & Hlen & Hcols & Hcol); auto.
  destruct (Hcol i Hlt)
    as (x0 & clf & proba & classes & x_adj & v & Hx & Hclf & Hadj & Hv & Hv').
  apply iloc_col_lookup in Hx as [name0 Hx]. rewrite Hi in Hx. injection Hx as _ <-.
  destruct Hadj as (Hfitted & Hproba & Hclasses & Hsub).
  destruct (Hrows _ _ Hproba) as (pcols & -> & Hpcols).
  assert (Hxlen : length x = index_len X_train).
  { apply (proj1 (Forall_lookup _ _) Hwf _ _ Hi). }
  destruct (subtract_expected_rows _ _ _ _ _ Hxlen Hpcols Hsub) as (Hb & _ & Hent).
  rewrite Hb in Hv. injection Hv as <-.
  exists clf, classes, pcols, x_adj.
  split; [apply list_lookup_fmap_Some_2; exact Hclf|].
  split; [exact Hfitted|]. split; [exact Hclasses|]. split; [exact Hproba|].
  split; [simpl; rewrite Hv'; reflexivity|]. split; [exact Hent|].
  intros X_test C_test X_test_adj name' x' Hwf' Hne' Hrows' Hpred Hi'.
  assert (Hlt' : (i < length (cols X_test))%nat) by (eapply lookup_lt_Some; eauto).
  apply X_adj_predict_Ok in Hpred as (cols2 & -> & Hlen2 & Hcol2); auto.
  destruct (Hcol2 i "ternary" (Clf clf))
    as (x0 & x_adj' & v' & Hx0 & Hbranch & Hv2 & Hv2'); auto.
  { apply lookup_replicate_2. exact Hlt. }
  { apply list_lookup_fmap_Some_2. exact Hclf. }
  apply iloc_col_lookup in Hx0 as [name1 Hx0]. rewrite Hi' in Hx0. injection Hx0 as _ <-.
  cbn in Hbranch. destruct Hbranch as (proba' & classes' & Hp' & Hc' & Hsub').
  rewrite Hclasses in Hc'. injection Hc' as <-.
  destruct (Hrows' _ _ Hp') as (pcols' & -> & Hpcols').
  assert (Hxlen' : length x' = index_len X_test).
  { apply (proj1 (Forall_lookup _ _) Hwf' _ _ Hi'). }
  destruct (subtract_expected_rows _ _ _ _ _ Hxlen' Hpcols' Hsub') as (Hb' & _ & Hent').
  rewrite Hb' in Hv2. injection Hv2 as <-.
  exists pcols', x_adj'. split; [exact Hp'|].
  split; [simpl; rewrite Hv2'; reflexivity | exact Hent'].
Qed.

End ExpectedValueClaim.

Section ExpectedValueToy.
Import Toy.
Local Open Scope Q_scope.

(** The intercept-only classifier gives one row of probabilities per row
    of the covariates. *)
Lemma toy_proba_rows (n : nat) (cs : list vec) : proba_rows (Arr2 n cs) n.
Proof.
  intros [cf|] proba; [|discriminate]. intros [= <-].
  eexists. split; [reflexivity|].
  apply Forall_fmap, Forall_forall. intros c _. apply length_replicate.
Qed.

Lemma wf_frame_N7 : Pd.wf_frame frame_N7.
Proof. repeat constructor. Qed.

(** C6 at the column [N7]: its classes are 0, 1 and 2 with frequencies
    2/5, 2/5 and 1/5, the expected value is 4/5 in every row, and the
    second entry 3/2 becomes 7/10. *)
Lemma X_adj_fit_subtracts_expected_value_N7 :
  Pd.wf_frame frame_N7 /\
  Pd.empty frame_N7 = false /\
  proba_rows array_N1 (index_len frame_N7) /\
  X_adj_fit frame_N7 array_N1 = Ok (adj_N7, est_N7, values_N7) /\
  cols frame_N7 !! 0%nat = Some ("N7", [0; 3 # 2; 2; 1; 1 # 2]) /\
  exists x_adj a,
    Np.getcol (asarray adj_N7) 0 = Ok x_adj /\
    x_adj !! 1%nat = Some a /\ a == (3 # 2) - (4 # 5).
Proof.
  assert (Hfit : X_adj_fit frame_N7 array_N1 = Ok (adj_N7, est_N7, values_N7))
    by (vm_compute; reflexivity).
  split; [exact wf_frame_N7|]. split; [reflexivity|].
  split; [apply toy_proba_rows|]. split; [exact Hfit|]. split; [reflexivity|].
  destruct (X_adj_fit_subtracts_expected_value
              frame_N7 array_N1 adj_N7 est_N7 values_N7 0 "N7" [0; 3 # 2; 2; 1; 1 # 2]
              wf_frame_N7 eq_refl (toy_proba_rows _ _) Hfit eq_refl)
    as (clf & classes & pcols & x_adj & Hclf & _ & Hclasses & Hproba & Hcol & Hent & _).
  injection Hclf as <-. injection Hclasses as <-. injection Hproba as <-.
  destruct (Hent 1%nat (3 # 2) eq_refl) as (a & Ha & Heq).
  exists x_adj, a. split; [exact Hcol|]. split; [exact Ha|].
  rewrite Heq. reflexivity.
Defined.

End ExpectedValueToy.

(** ** A flat [subset] with a name that is not a column *)

Section FlatSubset.
Context `{LM : LinearModels} {E : Type} `{EST : Estimator E}.

Lemma drop_Ok (labels : list string) (df df' : DataFrame) :
  Pd.drop labels df = Ok df' ->
  forallb (Pd.contains (Pd.columns df)) labels = true /\
  df' = mkDataFrame (index_len df)
          (List.filter (fun c => negb (Pd.contains labels (fst c))) (cols df)).
Proof.
  unfold Pd.drop. destruct (forallb _ labels); [|discriminate].
  intros [= <-]. auto.
Qed.

Lemma drop_raises (labels : list string) (df : DataFrame) :
  forallb (Pd.contains (Pd.columns df)) labels = false ->
  Pd.drop labels df = Raise KeyError.
Proof. unfold Pd.drop. intros ->. reflexivity. Qed.

Lemma contains_In (l : list string) (a : string) :
  Pd.contains l a = true <-> In a l.
Proof.
  unfold Pd.contains. rewrite existsb_exists. split.
  - intros (x & Hx & Heq). apply String.eqb_eq in Heq. subst. exact Hx.
  - intros H. exists a. split; [exact H | apply String.eqb_refl].
Qed.

(** The columns that are left by [drop] are columns of the frame. *)
Lemma drop_columns (labels : list string) (df df' : DataFrame) (a : string) :
  Pd.drop labels df = Ok df' ->
  In a (Pd.columns df') <-> In a (Pd.columns df) /\ ~ In a labels.
Proof.
  intros H. apply drop_Ok in H as [_ ->]. unfold Pd.columns. simpl.
  rewrite !in_map_iff. split.
  - intros (c & <- & Hc). apply filter_In in Hc as [Hc Hn].
    split; [eauto|]. apply negb_true_iff in Hn.
    intros Hin. apply contains_In in Hin. congruence.
  - intros [(c & <- & Hc) Hn]. exists c. split; [reflexivity|].
    apply filter_In. split; [exact Hc|]. apply negb_true_iff.
    destruct (Pd.contains labels (fst c)) eqn:Hcon; [|reflexivity].
    apply contains_In in Hcon. contradiction.
Qed.

Lemma getitem_Ok (labels : list string) (df : DataFrame) :
  forallb (Pd.contains (Pd.columns df)) labels = true ->
  Pd.getitem labels df
  = Ok (mkDataFrame (index_len df)
          (flat_map (fun a => List.filter (fun c => String.eqb (fst c) a) (cols df))
                    labels)).
Proof. unfold Pd.getitem. intros ->. reflexivity. Qed.

(** The names of [comm_features] are columns, so selecting them does not
    raise. *)
Lemma comm_features_present (names : list string) (df : DataFrame) :
  forallb (Pd.contains (Pd.columns df)) (comm_features_of names df) = true.
Proof.
  apply forallb_forall. intros a Ha.
  apply filter_In in Ha as [_ Ha]. exact Ha.
Qed.

(** The covariates [C] are columns of [X] when [X.drop(self.C)] returned. *)
Lemma drop_covariates_C {B} (self : facade (E := E) B) (X X_ : DataFrame) (c : list string) :
  C self = Some c ->
  drop_covariates self X = Ok X_ ->
  forallb (Pd.contains (Pd.columns X)) c = true.
Proof.
  unfold drop_covariates. intros -> H. bind_inv H.
  apply drop_Ok in H as [Hc _].
  apply forallb_forall. intros x Hx.
  apply (proj1 (forallb_forall _ _) Hc) in Hx. apply contains_In in Hx.
  apply contains_In.
  destruct (A self) as [a'|].
  - apply (drop_columns _ _ _ _ Ha) in Hx. tauto.
  - injection Ha as <-. exact Hx.
Qed.

(** With a list as [subset], [predict] drops [self.subset] itself from
    the features: a name of the list that is not a feature ends the call
    with [KeyError], before any estimator is used. *)
Lemma predict_features_absent_name {B} (self : facade (E := E) B)
    (X X_test : DataFrame) (c names : list string) :
  C self = Some c ->
  subset self = SubsetList names ->
  drop_covariates self X = Ok X_test ->
  forallb (Pd.contains (Pd.columns X_test)) names = false ->
  predict_features X self = (self, Raise KeyError).
Proof.
  intros HC Hsub Hdrop Hmiss.
  pose proof (drop_covariates_C _ _ _ _ HC Hdrop) as Hc.
  unfold predict_features, mbind, M_bind, get, lift.
  rewrite Hdrop, HC, (getitem_Ok _ _ Hc). cbn [fmap result_fmap].
  rewrite Hsub.
  rewrite (getitem_Ok _ _ (comm_features_present names X_test)).
  rewrite (drop_raises _ _ Hmiss). reflexivity.
Qed.

(** C4: with a list as [subset] and a name of the list that is not among
    the feature columns, [predict] of both classes raises [KeyError] and
    returns no prediction: it drops [self.subset], where [fit] drops the
    names that are present. *)
Theorem predict_flat_subset_absent_name_raises
    (X X_test : DataFrame) (e : E) (a : option (list string)) (c names : list string)
    (ce : option (list (list col_model))) (vl : option (list (list string)))
    (ss : option (list string))
    (b1 : option LinearRegression) (b2 : option LogisticRegression) :
  (X_ ← match a with Some a' => Pd.drop a' X | None => Ok X end; Pd.drop c X_) = Ok X_test ->
  forallb (Pd.contains (Pd.columns X_test)) names = false ->
  MetaRegressor.predict X (mkFacade e a (Some c) (SubsetList names) ce vl ss b1)
    = (mkFacade e a (Some c) (SubsetList names) ce vl ss b1, Raise KeyError) /\
  MetaClassifier.predict X (mkFacade e a (Some c) (SubsetList names) ce vl ss b2)
    = (mkFacade e a (Some c) (SubsetList names) ce vl ss b2, Raise KeyError).
Proof.
  intros Hdrop Hmiss. split.
  - unfold MetaRegressor.predict, mbind at 1, M_bind at 1, get.
    unfold mbind at 1, M_bind at 1.
    rewrite (predict_features_absent_name _ X X_test c names); auto.
  - unfold MetaClassifier.predict, mbind at 1, M_bind at 1, get.
    unfold mbind at 1, M_bind at 1.
    rewrite (predict_features_absent_name _ X X_test c names); auto.
Qed.

End FlatSubset.

Section FlatSubsetToy.
Import Toy.
Local Open Scope Q_scope.

(** C4 at the features [N6], [N7], [N8] and [subset = ["N6", "N7", "X9"]]:
    [fit] returns and has handed the adjusted [N6], the adjusted [N7] and
    [N8] as it is to the wrapped estimator; [predict] on the same frame
    raises [KeyError]. *)
Lemma predict_flat_subset_absent_name_raises_toy :
  (X_ ← Ok frame; Pd.drop ["N1"; "N2"] X_) = Ok features /\
  forallb (Pd.contains (Pd.columns features)) ["N6"; "N7"; "X9"] = false /\
  MetaRegressor.fit frame target
    (init None None (Some ["N1"; "N2"]) (SubsetList ["N6"; "N7"; "X9"]))
    = (regressor_flat, Ok tt) /\
  estimator regressor_flat
    = Some (AArr (Arr2 5 [[-100 # 125; 25 # 125; 150 # 125; 25 # 125; -100 # 125];
                          [-100 # 125; 175 # 250; 150 # 125; 25 # 125; -75 # 250];
                          [2; 2; 1; 0; 0]]),
            [-3 # 5; 2 # 5; 2 # 5; -3 # 5; 2 # 5]) /\
  MetaRegressor.predict frame regressor_flat = (regressor_flat, Raise KeyError).
Proof.
  split; [reflexivity|]. split; [reflexivity|].
  split; [vm_compute; reflexivity|]. split; [reflexivity|].
  exact (proj1 (predict_flat_subset_absent_name_raises
                  frame features (estimator regressor_flat) None
                  ["N1"; "N2"] ["N6"; "N7"; "X9"]
                  (col_ests regressor_flat) (values_list regressor_flat)
                  (sel_subset regressor_flat) (B_est regressor_flat) None
                  eq_refl eq_refl)).
Defined.

End FlatSubsetToy.

(** ** [X_adj_predict] on the training frame *)

Section Replay.
Context `{LM : LinearModels}.

Lemma X_adj_predict_col_ternary X_test C_test clf col adj x proba classes x_adj adj' :
  Pd.iloc_col X_test col = Ok x ->
  log_predict_proba clf C_test = Ok proba ->
  log_classes_ clf = Ok classes ->
  subtract_expected classes proba x = Ok x_adj ->
  Np.setcol adj col x_adj = Ok adj' ->
  X_adj_predict_col X_test C_test ("ternary", Clf clf, col) adj = Ok adj'.
Proof.
  intros Hx Hproba Hclasses Hsub Hset. unfold X_adj_predict_col.
  rewrite Hx. cbn. rewrite Hproba. cbn. rewrite Hclasses. cbn.
  rewrite Hsub. cbn. exact Hset.
Qed.

(** The turns of [X_adj_predict] with the estimators and tags that the
    turns of [X_adj_fit] have appended write the same columns. *)
Lemma X_adj_replay_loop X_train C_train m :
  forall k adj col_est values adj' col_est' values',
  for_ (seq k m) (X_adj_fit_col X_train C_train) (adj, col_est, values)
    = Ok (adj', col_est', values') ->
  exists ests tags,
    col_est' = col_est ++ ests /\
    values' = values ++ tags /\
    for_ (zip3 tags ests (seq k m)) (X_adj_predict_col X_train C_train) adj = Ok adj'.
Proof.
  induction m as [|m IH]; intros k adj col_est values adj' col_est' values' H.
  - injection H as <- <- <-. exists [], []. rewrite !app_nil_r. auto.
  - cbn [seq for_] in H. bind_inv H.
    apply X_adj_fit_col_Ok in Ha
      as (x & clf & proba & classes & x_adj & adj1 & Hx & Hadj & Hset & ->).
    apply IH in H as (ests & tags & -> & -> & Hloop).
    exists (Clf clf :: ests), ("ternary" :: tags).
    rewrite <- !app_assoc. split; [reflexivity|]. split; [reflexivity|].
    change (zip3 ("ternary" :: tags) (Clf clf :: ests) (seq k (S m)))
      with (("ternary", Clf clf, k) :: zip3 tags ests (seq (S k) m)).
    cbn [for_].
    destruct Hadj as (_ & Hproba & Hclasses & Hsub).
    rewrite (X_adj_predict_col_ternary _ _ _ _ _ _ _ _ _ _ Hx Hproba Hclasses Hsub Hset).
    exact Hloop.
Qed.

(** [X_adj_predict] on the frame and the covariates of [X_adj_fit], with
    the estimators and tags that [X_adj_fit] returned, returns the block
    that [X_adj_fit] returned. *)
Lemma X_adj_replay X_train C_train X_train_adj col_est values :
  X_adj_fit X_train C_train = Ok (X_train_adj, col_est, values) ->
  X_adj_predict X_train C_train col_est values = Ok X_train_adj.
Proof.
  unfold X_adj_fit, X_adj_predict. destruct (Pd.empty X_train).
  - intros [= <- <- <-]. reflexivity.
  - intros H. bind_inv H. destruct a as [[adj ests] tags].
    injection H as <- <- <-.
    apply X_adj_replay_loop in Ha as (ests' & tags' & -> & -> & Hloop).
    cbn [app]. rewrite Hloop. reflexivity.
Qed.

End Replay.

(** ** The loop over the pairs of a tuple [subset] *)

Section Pairs.
Context `{LM : LinearModels} {E : Type} `{EST : Estimator E}.

Lemma modify_run {S} (f : S -> S) (s s' : S) (u : unit) :
  modify f s = (s', Ok u) -> s' = f s.
Proof. unfold modify. intros [= <-]. reflexivity. Qed.

(** One turn of the loop of [fit]: the block of the pair is joined, and
    its names, estimators and tags are appended to the attributes. *)
Lemma fit_pair_Ok {B} (X X_train : DataFrame) (pair : list string * list string)
    (acc acc' : arraylike) ces vls sel (s0 s' : facade (E := E) B) :
  fit_pair X X_train pair acc (with_features ces vls sel s0) = (s', Ok acc') ->
  exists blk ce vl,
    pair_block X X_train pair = Ok (blk, ce, vl) /\
    join_block acc blk = Ok acc' /\
    s' = with_features (ces ++ [ce]) (vls ++ [vl])
           (sel ++ comm_features_of (snd pair) X_train) s0.
Proof.
  unfold fit_pair. destruct pair as [subC ssubset]. intros H.
  apply M_bind_Ok in H as (u & s1 & H0 & H).
  unfold sel_subset_extend in H0.
  apply M_bind_Ok in H0 as (l & s2 & H1 & H0).
  apply getattr_run in H1 as [-> H1]. injection H1 as <-.
  apply modify_run in H0. subst s1.
  apply M_bind_Ok in H as (tmp_C & s1 & H0 & H). apply lift_run in H0 as [-> HC].
  apply M_bind_Ok in H as (X_sub & s1 & H0 & H). apply lift_run in H0 as [-> Hsub].
  apply M_bind_Ok in H as ([[blk ce] vl] & s1 & H0 & H). apply lift_run in H0 as [-> Hfit].
  apply M_bind_Ok in H as (acc1 & s1 & H0 & H). apply lift_run in H0 as [-> Hjoin].
  apply M_bind_Ok in H as (u1 & s1 & H0 & H).
  unfold col_ests_append in H0.
  apply M_bind_Ok in H0 as (l & s2 & H1 & H0).
  apply getattr_run in H1 as [-> H1]. injection H1 as <-.
  apply modify_run in H0. subst s1.
  apply M_bind_Ok in H as (u2 & s1 & H0 & H).
  unfold values_list_append in H0.
  apply M_bind_Ok in H0 as (l & s2 & H1 & H0).
  apply getattr_run in H1 as [-> H1]. injection H1 as <-.
  apply modify_run in H0. subst s1.
  injection H as <- <-.
  exists blk, ce, vl. split; [|split; [exact Hjoin | reflexivity]].
  unfold pair_block. cbn [fst snd]. rewrite HC. cbn. rewrite Hsub. cbn. exact Hfit.
Qed.

(** The loop of [fit] over the pairs. *)
Lemma fit_pairs_Ok {B} (X X_train : DataFrame) (pairs : list (list string * list string)) :
  forall (acc acc' : arraylike) ces vls sel (s0 s' : facade (E := E) B),
  forM_ pairs (fit_pair X X_train) acc (with_features ces vls sel s0) = (s', Ok acc') ->
  exists blocks,
    Forall2 (fun pair blk => pair_block X X_train pair = Ok blk) pairs blocks /\
    join_blocks (map (fun blk => fst (fst blk)) blocks) acc = Ok acc' /\
    s' = with_features
           (ces ++ map (fun blk => snd (fst blk)) blocks)
           (vls ++ map snd blocks)
           (sel ++ concat (map (fun pair => comm_features_of (snd pair) X_train) pairs))
           s0.
Proof.
  induction pairs as [|pair pairs IH]; intros acc acc' ces vls sel s0 s' H.
  - injection H as <- <-. exists []. rewrite !app_nil_r.
    split; [constructor|]. split; reflexivity.
  - cbn [forM_] in H. apply M_bind_Ok in H as (acc1 & s1 & H0 & H).
    apply fit_pair_Ok in H0 as (blk & ce & vl & Hblk & Hjoin & ->).
    apply IH in H as (blocks & Hall & Hjoins & ->).
    exists ((blk, ce, vl) :: blocks).
    split; [constructor; assumption|]. split.
    + unfold join_blocks. cbn [map for_ fst]. rewrite Hjoin. exact Hjoins.
    + cbn [map concat fst snd]. rewrite <- !app_assoc. reflexivity.
Qed.

(** The loop of [predict] over the pairs, on the frame of [fit] and with
    the estimators and tags that [fit] stored, joins the blocks of [fit]. *)
Lemma predict_pairs_replay (X X_train : DataFrame) pairs blocks :
  Forall2 (fun pair blk => pair_block X X_train pair = Ok blk) pairs blocks ->
  forall acc,
  for_ (zip3 pairs (map (fun blk => snd (fst blk)) blocks) (map snd blocks))
       (predict_pair X X_train) acc
  = join_blocks (map (fun blk => fst (fst blk)) blocks) acc.
Proof.
  induction 1 as [|pair [[blk ce] vl] pairs blocks Hblk _ IH]; intros acc;
    [reflexivity|].
  change (zip3 (pair :: pairs) _ _)
    with ((pair, ce, vl)
          :: zip3 pairs (map (fun blk => snd (fst blk)) blocks) (map snd blocks)).
  unfold join_blocks. cbn [map for_ fst].
  assert (Hstep : predict_pair X X_train (pair, ce, vl) acc = join_block acc blk).
  { unfold predict_pair. unfold pair_block in Hblk.
    bind_inv Hblk. bind_inv Hblk.
    rewrite Ha. cbn. rewrite Ha0. cbn.
    rewrite (X_adj_replay _ _ _ _ _ Hblk). reflexivity. }
  rewrite Hstep. destruct (join_block acc blk) as [acc1|e]; [|reflexivity].
  cbn. apply IH.
Qed.

End Pairs.

(** ** [predict] on the training frame *)

Section FitThenPredict.
Context `{LM : LinearModels} {E : Type} `{EST : Estimator E}.

Lemma drop_covariates_ext {B} (s1 s2 : facade (E := E) B) (X : DataFrame) :
  A s1 = A s2 -> C s1 = C s2 -> drop_covariates s1 X = drop_covariates s2 X.
Proof. unfold drop_covariates. intros -> ->. reflexivity. Qed.

(** When every name of a list is a column, [comm_features] is the list. *)
Lemma comm_features_all (names : list string) (X : DataFrame) :
  forallb (Pd.contains (Pd.columns X)) names = true ->
  comm_features_of names X = names.
Proof.
  unfold comm_features_of. induction names as [|a names IH]; [reflexivity|].
  simpl. intros H. apply andb_prop in H as [-> H]. rewrite IH by exact H. reflexivity.
Qed.

(** After the first part of [fit] has returned, the first part of
    [predict] on the same frame returns the same feature block and the
    same covariates, on any facade that carries the fitted state. *)
Lemma fit_features_replay {B} (X : DataFrame) (self self1 self2 : facade (E := E) B)
    (X_adj : arraylike) (C_train : option ndarray) :
  fit_features X self = (self1, Ok (X_adj, C_train)) ->
  flat_names_present self X ->
  same_features self1 self2 ->
  predict_features X self2 = (self2, Ok (X_adj, C_train)).
Proof.
  unfold fit_features. intros H Hflat Hsame.
  apply M_bind_Ok in H as (s & s1 & H0 & H). apply get_run in H0 as [-> ->].
  apply M_bind_Ok in H as (X_train & s1 & H0 & H). apply lift_run in H0 as [-> Hdrop].
  destruct (C self) as [c|] eqn:HC.
  2:{ injection H as <- <- <-.
      destruct Hsame as (HA & HC' & _).
      unfold predict_features, mbind, M_bind, get, lift.
      rewrite <- (drop_covariates_ext self self2) by assumption.
      rewrite Hdrop, <- HC', HC. reflexivity. }
  apply M_bind_Ok in H as (u & s1 & H0 & H). apply modify_run in H0. subst s1.
  apply M_bind_Ok in H as (u' & s1 & H0 & H). apply modify_run in H0. subst s1.
  apply M_bind_Ok in H as (C_tr & s1 & H0 & H). apply lift_run in H0 as [-> HCtr].
  destruct (subset self) as [|names|pairs] eqn:Hsub.
  - (* subset is None *)
    apply M_bind_Ok in H as ([[adj ce] vl] & s1 & H0 & H). apply lift_run in H0 as [-> Hfit].
    apply M_bind_Ok in H as (u1 & s1 & H0 & H).
    unfold col_ests_append in H0.
    apply M_bind_Ok in H0 as (l & s2 & H1 & H0).
    apply getattr_run in H1 as [-> H1]. injection H1 as <-.
    apply modify_run in H0. subst s1.
    apply M_bind_Ok in H as (u2 & s1 & H0 & H).
    unfold values_list_append in H0.
    apply M_bind_Ok in H0 as (l & s2 & H1 & H0).
    apply getattr_run in H1 as [-> H1]. injection H1 as <-.
    apply modify_run in H0. subst s1.
    injection H as <- <- <-.
    destruct Hsame as (HA & HC' & Hsub' & Hce & Hvl & _). cbn in *.
    unfold predict_features, mbind, M_bind, get, lift, getattr.
    rewrite <- (drop_covariates_ext self self2) by assumption.
    rewrite Hdrop, <- HC', HC, HCtr, <- Hsub', Hsub, <- Hce, <- Hvl. cbn.
    rewrite (X_adj_replay _ _ _ _ _ Hfit). reflexivity.
  - (* subset is a list *)
    apply M_bind_Ok in H as (X_sub & s1 & H0 & H). apply lift_run in H0 as [-> Hsel].
    apply M_bind_Ok in H as ([[adj ce] vl] & s1 & H0 & H). apply lift_run in H0 as [-> Hfit].
    apply M_bind_Ok in H as (unsel & s1 & H0 & H). apply lift_run in H0 as [-> Hunsel].
    apply M_bind_Ok in H as (X_tr_adj & s1 & H0 & H). apply lift_run in H0 as [-> Hstack].
    apply M_bind_Ok in H as (u1 & s1 & H0 & H).
    unfold col_ests_append in H0.
    apply M_bind_Ok in H0 as (l & s2 & H1 & H0).
    apply getattr_run in H1 as [-> H1]. injection H1 as <-.
    apply modify_run in H0. subst s1.
    apply M_bind_Ok in H as (u2 & s1 & H0 & H).
    unfold values_list_append in H0.
    apply M_bind_Ok in H0 as (l & s2 & H1 & H0).
    apply getattr_run in H1 as [-> H1]. injection H1 as <-.
    apply modify_run in H0. subst s1.
    injection H as <- <- <-.
    rewrite (comm_features_all names X_train) in Hsel, Hunsel
      by (eapply Hflat; eauto).
    destruct Hsame as (HA & HC' & Hsub' & Hce & Hvl & _). cbn in *.
    unfold predict_features, mbind, M_bind, get, lift, getattr.
    rewrite <- (drop_covariates_ext self self2) by assumption.
    rewrite Hdrop, <- HC', HC, HCtr, <- Hsub', Hsub.
    rewrite (comm_features_all names X_train) by (eapply Hflat; eauto).
    rewrite Hsel, Hunsel, <- Hce, <- Hvl. cbn.
    rewrite (X_adj_replay _ _ _ _ _ Hfit). rewrite Hstack. reflexivity.
  - (* subset is a tuple *)
    apply M_bind_Ok in H as (u1 & s1 & H0 & H). apply modify_run in H0. subst s1.
    apply M_bind_Ok in H as (acc & s1 & H0 & H).
    change (set_sel_subset [] (set_values_list [] (set_col_ests [] self)))
      with (with_features [] [] [] self) in H0.
    apply fit_pairs_Ok in H0 as (blocks & Hall & Hjoin & ->).
    apply M_bind_Ok in H as (sel & s1 & H0 & H).
    apply getattr_run in H0 as [-> H0]. injection H0 as <-.
    apply M_bind_Ok in H as (unsel & s1 & H0 & H). apply lift_run in H0 as [-> Hunsel].
    apply M_bind_Ok in H as (X_tr_adj & s1 & H0 & H). apply lift_run in H0 as [-> Hstack].
    injection H as <- <- <-.
    destruct Hsame as (HA & HC' & Hsub' & Hce & Hvl & Hss). cbn in *.
    unfold predict_features, mbind, M_bind, get, lift, getattr.
    rewrite <- (drop_covariates_ext self self2) by assumption.
    rewrite Hdrop, <- HC', HC, HCtr, <- Hsub', Hsub, <- Hce, <- Hvl, <- Hss. cbn.
    rewrite (predict_pairs_replay _ _ _ _ Hall), Hjoin. cbn.
    rewrite Hunsel. cbn. rewrite Hstack. reflexivity.
Qed.

End FitThenPredict.

(** ** What [fit] leaves as it is *)

Section KeepsConfig.
Context `{LM : LinearModels} {E : Type} `{EST : Estimator E}.

Lemma keeps_readonly {B T} (m : M (facade (E := E) B) T) :
  readonly m -> keeps_config m.
Proof.
  intros Hm s s' r H. apply (readonly_run _ _ _ _ Hm) in H. subst s'. auto.
Qed.

Lemma keeps_bind {B T U} (m : M (facade (E := E) B) T) (f : T -> M (facade (E := E) B) U) :
  keeps_config m -> (forall a, keeps_config (f a)) -> keeps_config (m ≫= f).
Proof.
  intros Hm Hf s s' r H. unfold mbind, M_bind in H.
  destruct (m s) as [s1 [a|e]] eqn:Hms.
  - destruct (Hm _ _ _ Hms) as (H1 & H2 & H3 & H4 & H5).
    destruct (Hf a _ _ _ H) as (H1' & H2' & H3' & H4' & H5').
    repeat split; congruence.
  - injection H as <- <-. apply (Hm _ _ _ Hms).
Qed.

Lemma keeps_modify {B} (f : facade (E := E) B -> facade (E := E) B) :
  (forall s, A (f s) = A s /\ C (f s) = C s /\ subset (f s) = subset s /\
             estimator (f s) = estimator s /\ B_est (f s) = B_est s) ->
  keeps_config (modify f).
Proof. intros Hf s s' r [= <- _]. apply Hf. Qed.

Lemma keeps_forM_ {B T S} (l : list T) (body : T -> S -> M (facade (E := E) B) S) :
  (forall x acc, keeps_config (body x acc)) ->
  forall acc, keeps_config (forM_ l body acc).
Proof.
  intros Hbody. induction l as [|x l IH]; intros acc.
  - apply keeps_readonly, readonly_ret.
  - cbn [forM_]. apply keeps_bind; [apply Hbody | exact IH].
Qed.

(** Proves that a method built from reads, pure steps and assignments of
    [col_ests], [values_list] and [sel_subset] keeps the configuration. *)
Ltac keeps_steps :=
  repeat first
    [ apply keeps_readonly;
      first [ apply readonly_ret | apply readonly_lift | apply readonly_get
            | apply readonly_getattr ]
    | apply keeps_modify; intros ?; repeat split
    | apply keeps_forM_; intros ? ?
    | apply keeps_bind; [| intros ?]
    | match goal with
      | |- keeps_config (match ?x with _ => _ end) => destruct x
      | |- keeps_config (let '(_, _) := ?x in _) => destruct x
      end ].

Lemma fit_pair_keeps_config {B} (X X_train : DataFrame) pair acc :
  keeps_config (fit_pair (E := E) (B := B) X X_train pair acc).
Proof.
  unfold fit_pair, sel_subset_extend, col_ests_append, values_list_append.
  keeps_steps.
Qed.

Lemma fit_features_keeps_config {B} (X : DataFrame) :
  keeps_config (fit_features (E := E) (B := B) X).
Proof.
  unfold fit_features, col_ests_append, values_list_append.
  apply keeps_bind; [apply keeps_readonly, readonly_get | intros self].
  apply keeps_bind; [apply keeps_readonly, readonly_lift | intros X_train].
  destruct (C self); [|apply keeps_readonly, readonly_ret].
  apply keeps_bind; [apply keeps_modify; intros ?; repeat split | intros ?].
  apply keeps_bind; [apply keeps_modify; intros ?; repeat split | intros ?].
  apply keeps_bind; [apply keeps_readonly, readonly_lift | intros C_train].
  destruct (subset self).
  - keeps_steps.
  - keeps_steps.
  - apply keeps_bind; [apply keeps_modify; intros ?; repeat split | intros ?].
    apply keeps_bind; [apply keeps_forM_; intros ? ?; apply fit_pair_keeps_config
                      | intros ?].
    keeps_steps.
Qed.

End KeepsConfig.

(** ** Residual target and reconstruction *)

Section RoundTrip.
Context `{LM : LinearModels} {E : Type} `{EST : Estimator E}.
Local Open Scope Q_scope.

(** [(y - pi) + pi] is [y], for vectors of the same length; so is
    [y' + pi] for any [y'] with the entries of [y - pi]. *)
Lemma sub_then_add (y pi_ : vec) :
  length y = length pi_ ->
  exists y_adj,
    Np.sub y pi_ = Ok y_adj /\
    forall y', veq y' y_adj ->
      exists y_rec, Np.add y' pi_ = Ok y_rec /\ veq y_rec y.
Proof.
  intros Hlen. exists (zip_with Qminus y pi_).
  split; [apply broadcast2_same_length; exact Hlen|].
  intros y' Hy'.
  assert (Hlen' : length y' = length pi_).
  { apply Forall2_length in Hy'. rewrite Hy', length_zip_with. lia. }
  exists (zip_with Qplus y' pi_).
  split; [apply broadcast2_same_length; exact Hlen'|].
  clear Hlen'. revert pi_ y' Hlen Hy'.
  induction y as [|a y IH]; intros [|p pi_] y' Hlen Hy'; try discriminate.
  - inversion Hy'. constructor.
  - cbn in Hy'. inversion Hy' as [|a' b' y'' l' Hab Hrest]; subst.
    cbn. constructor.
    + rewrite Hab. ring.
    + apply IH; [simpl in Hlen; lia | exact Hrest].
Qed.

Lemma B_train_then_test (A_train C_train : option ndarray) (B_ : ndarray) :
  B_train_of A_train C_train = Ok B_ -> B_test_of A_train C_train = Ok B_.
Proof. destruct A_train, C_train; simpl; auto; discriminate. Qed.

(** [fit] of [MetaRegressor], when it returns. *)
Lemma MetaRegressor_fit_Ok (X : DataFrame) (y : vec) (self self1 : MetaRegressor.t) :
  MetaRegressor.fit X y self = (self1, Ok tt) ->
  exists s1 X_train_adj C_train A_train B_train b pi_train y_train_adj e',
    fit_features X self = (s1, Ok (X_train_adj, C_train)) /\
    covariates_A self X = Ok A_train /\
    B_train_of A_train C_train = Ok B_train /\
    lin_fit LinearRegression_new B_train y = (b, Ok tt) /\
    lin_predict b B_train = Ok pi_train /\
    Np.sub y pi_train = Ok y_train_adj /\
    est_fit (estimator s1) X_train_adj y_train_adj = (e', Ok tt) /\
    self1 = set_estimator e' (set_B_est b s1).
Proof.
  unfold MetaRegressor.fit. intros H.
  apply M_bind_Ok in H as (s & s0 & H0 & H). apply get_run in H0 as [-> ->].
  destruct (match A self, C self with None, None => true | _, _ => false end);
    [discriminate|].
  apply M_bind_Ok in H as ([X_adj C_train] & s1 & Hff & H).
  apply M_bind_Ok in H as (A_train & s2 & H0 & H). apply lift_run in H0 as [-> HA].
  apply M_bind_Ok in H as (B_train & s2 & H0 & H). apply lift_run in H0 as [-> HB].
  apply M_bind_Ok in H as (u & s2 & H0 & H). apply modify_run in H0. subst s2.
  apply M_bind_Ok in H as (b & s2 & H0 & H).
  destruct (lin_fit LinearRegression_new B_train y) as [b' [[]|e]] eqn:Hlin;
    [|discriminate].
  injection H0 as <- <-.
  apply M_bind_Ok in H as (pi_train & s2 & H0 & H). apply lift_run in H0 as [-> Hpi].
  apply M_bind_Ok in H as (y_adj & s2 & H0 & H). apply lift_run in H0 as [-> Hsub].
  unfold estimator_fit in H. cbn [estimator set_B_est] in H.
  destruct (est_fit (estimator s1) X_adj y_adj) as [e' r] eqn:Hest.
  injection H as <- ->.
  exists s1, X_adj, C_train, A_train, B_train, b', pi_train, y_adj, e'.
  repeat (split; [assumption|]). reflexivity.
Qed.

(** C7, in exact arithmetic: subtracting the expected outcome and adding
    it back gives the target. When the regression gives one prediction for
    each training target and the wrapped estimator reproduces its training
    targets, [predict] of [MetaRegressor] on the frame that [fit] has just
    returned from (every name of a list [subset] being a feature) leaves
    the facade as it is and returns [y_test_adj_pred + pi_train], where
    [pi_train] is the prediction of the outcome model that [fit] has
    subtracted from the target and [y_test_adj_pred] has the entries of
    [y - pi_train]; the entries of this sum are those of the target [y]. *)
Theorem fit_then_predict_reproduces_y (X : DataFrame) (y : vec)
    (self self1 : MetaRegressor.t) :
  predicts_per_target ->
  interpolates (E := E) ->
  flat_names_present self X ->
  MetaRegressor.fit X y self = (self1, Ok tt) ->
  (forall y0 pi0 : vec, length y0 = length pi0 ->
     exists y_adj y_rec,
       Np.sub y0 pi0 = Ok y_adj /\ Np.add y_adj pi0 = Ok y_rec /\ veq y_rec y0) /\
  exists b B_train pi_train y_train_adj X_train_adj y_test_adj_pred y_pred,
    B_est self1 = Some b /\
    lin_fit LinearRegression_new B_train y = (b, Ok tt) /\
    lin_predict b B_train = Ok pi_train /\
    Np.sub y pi_train = Ok y_train_adj /\
    est_fit (estimator self) X_train_adj y_train_adj = (estimator self1, Ok tt) /\
    est_predict (estimator self1) X_train_adj = Ok y_test_adj_pred /\
    veq y_test_adj_pred y_train_adj /\
    Np.add y_test_adj_pred pi_train = Ok y_pred /\
    MetaRegressor.predict X self1 = (self1, Ok y_pred) /\
    veq y_pred y.
Proof.
  intros Hlin Hest Hflat Hfit. split.
  - intros y0 pi0 Hlen.
    destruct (sub_then_add y0 pi0 Hlen) as (y_adj & Hsub & Hadd).
    destruct (Hadd y_adj) as (y_rec & Hrec & Hveq).
    { apply Forall_Forall2_diag, Forall_forall. intros; reflexivity. }
    eauto.
  - apply MetaRegressor_fit_Ok in Hfit
      as (s1 & X_adj & C_train & A_train & B_train & b & pi_train & y_adj & e'
          & Hff & HA & HB & Hbfit & Hpi & Hsub & Hefit & ->).
    destruct (fit_features_keeps_config X _ _ _ Hff) as (HA1 & HC1 & Hs1 & He1 & Hb1).
    pose proof (Hlin _ _ _ _ _ Hbfit Hpi) as Hlen.
    destruct (sub_then_add y pi_train (eq_sym Hlen)) as (y_adj' & Hsub' & Hadd).
    rewrite Hsub in Hsub'. injection Hsub' as <-.
    destruct (Hest _ _ _ _ Hefit) as (y' & Hpred & Hveq).
    destruct (Hadd y' Hveq) as (y_rec & Hrec & Hveq').
    exists b, B_train, pi_train, y_adj, X_adj, y', y_rec.
    split; [reflexivity|]. split; [exact Hbfit|]. split; [exact Hpi|].
    split; [exact Hsub|]. split; [rewrite <- He1; exact Hefit|].
    split; [exact Hpred|]. split; [exact Hveq|]. split; [exact Hrec|].
    split; [|exact Hveq'].
    assert (Hrep : predict_features X (set_estimator e' (set_B_est b s1))
                   = (set_estimator e' (set_B_est b s1), Ok (X_adj, C_train))).
    { apply (fit_features_replay X self s1); [exact Hff | exact Hflat|].
      repeat split. }
    unfold MetaRegressor.predict, mbind, M_bind, get, lift, getattr.
    rewrite Hrep.
    assert (HA' : covariates_A (set_estimator e' (set_B_est b s1)) X = Ok A_train).
    { rewrite <- HA. unfold covariates_A. cbn. rewrite HA1. reflexivity. }
    rewrite HA', (B_train_then_test _ _ _ HB). cbn.
    rewrite Hpi, Hpred, Hrec. reflexivity.
Qed.

End RoundTrip.

Section RoundTripToy.
Import Toy.
Local Open Scope Q_scope.

Lemma toy_predicts_per_target : predicts_per_target.
Proof.
  intros b0 b B_ y p Hfit Hpred. cbn in Hfit.
  destruct (Nat.eqb_spec (Np.nrows B_) (length y)) as [Hn|]; [|discriminate].
  destruct (negb (length y =? 0)%nat); [|discriminate].
  injection Hfit as <-. cbn in Hpred. injection Hpred as <-.
  rewrite length_replicate. exact Hn.
Qed.

Lemma toy_interpolates : interpolates (E := memo).
Proof.
  intros e e' X_ y [= <-]. exists y. split; [reflexivity|].
  apply Forall_Forall2_diag, Forall_forall. intros; reflexivity.
Qed.

Lemma toy_pairs_flat_names : flat_names_present regressor_pairs_init frame.
Proof. intros names X_train Hsub. discriminate. Qed.

(** C7 on [Toy.regressor_pairs_init]: after [fit] on [Toy.frame] and
    [Toy.target], [predict] on [Toy.frame] returns the entries of the
    target. *)
Lemma fit_then_predict_reproduces_y_toy :
  predicts_per_target /\
  interpolates (E := memo) /\
  flat_names_present regressor_pairs_init frame /\
  MetaRegressor.fit frame target regressor_pairs_init = (regressor_pairs, Ok tt) /\
  exists pi_train y_test_adj_pred y_pred,
    Np.add y_test_adj_pred pi_train = Ok y_pred /\
    MetaRegressor.predict frame regressor_pairs = (regressor_pairs, Ok y_pred) /\
    veq y_pred target.
Proof.
  assert (Hfit : MetaRegressor.fit frame target regressor_pairs_init
                 = (regressor_pairs, Ok tt)) by (vm_compute; reflexivity).
  split; [exact toy_predicts_per_target|]. split; [exact toy_interpolates|].
  split; [exact toy_pairs_flat_names|]. split; [exact Hfit|].
  destruct (proj2 (fit_then_predict_reproduces_y
                     frame target regressor_pairs_init regressor_pairs
                     toy_predicts_per_target toy_interpolates
                     toy_pairs_flat_names Hfit))
    as (_ & _ & pi_train & _ & _ & y' & y_pred & _ & _ & _ & _ & _ & _ & _
        & Hadd & Hpred & Hveq).
  exists pi_train, y', y_pred. auto.
Defined.

End RoundTripToy.

(** ** The same round trip on float64 entries *)

Section RoundTripFloat64.
Import PrimFloat.
Local Open Scope float_scope.

(** C7 on float64 entries: [(0.1 - 0.4) + 0.4] is not [0.1]; and for the
    target [[0.1, 2e16]] and an outcome model without covariate effect,
    which predicts the mean [1e16], the residual of the first entry is
    rounded to [-1e16] and [predict] returns [0.0] for the target [0.1]:
    the results do not equal the targets and are not within the default
    tolerance of [np.allclose] of them. *)
Lemma float64_fit_then_predict_loses_y :
  Float64.fit_then_predict [0.1] [0.4] = Ok [0.09999999999999998] /\
  Float64.all_equal [0.09999999999999998] [0.1] = false /\
  Float64.mean [0.1; 2e16] = 1e16 /\
  Float64.sub [0.1; 2e16] [1e16; 1e16] = Ok [-1e16; 1e16] /\
  Float64.fit_then_predict [0.1; 2e16] [1e16; 1e16] = Ok [0; 2e16] /\
  Float64.all_equal [0; 2e16] [0.1; 2e16] = false /\
  Float64.allclose [0; 2e16] [0.1; 2e16] = false.
Proof. repeat split; vm_compute; reflexivity. Qed.

End RoundTripFloat64.

(** ** A tuple [subset]: the blocks of the pairs side by side *)

Section PartitionedSubset.
Context `{LM : LinearModels} {E : Type} `{EST : Estimator E}.




Lemma getitem_index_len (labels : list string) (df df' : DataFrame) :
  Pd.getitem labels df = Ok df' -> index_len df' = index_len df.
Proof.
  unfold Pd.getitem. destruct (forallb _ labels); [|discriminate].
  intros [= <-]. reflexivity.
Qed.







End PartitionedSubset.

Section PartitionedSubsetClaim.
Context `{LM : LinearModels} {E : Type} `{EST : Estimator E}.





End PartitionedSubsetClaim.

Section PartitionedSubsetTheorem.
Context `{LM : LinearModels} {E : Type} `{EST : Estimator E}.

(** [predict] of [MetaRegressor], when it returns. *)
Lemma MetaRegressor_predict_Ok (X : DataFrame) (self self' : MetaRegressor.t)
    (y_pred : vec) :
  MetaRegressor.predict X self = (self', Ok y_pred) ->
  exists X_test_adj C_test y_test_adj_pred pi_test,
    predict_features X self = (self, Ok (X_test_adj, C_test)) /\
    est_predict (estimator self) X_test_adj = Ok y_test_adj_pred /\
    Np.add y_test_adj_pred pi_test = Ok y_pred.
Proof.
  unfold MetaRegressor.predict. intros H.
  apply M_bind_Ok in H as (s0 & s1 & H0 & H). apply get_run in H0 as [-> ->].
  apply M_bind_Ok in H as ([X_test_adj C_test] & s1 & H0 & H).
  pose proof (readonly_run _ _ _ _ (predict_features_readonly X) H0) as ->.
  apply M_bind_Ok in H as (A_test & s1 & H1 & H). apply lift_run in H1 as [-> H1].
  apply M_bind_Ok in H as (B_test & s1 & H2 & H). apply lift_run in H2 as [-> H2].
  apply M_bind_Ok in H as (b & s1 & H3 & H). apply getattr_run in H3 as [-> H3].
  apply M_bind_Ok in H as (pi_test & s1 & H4 & H). apply lift_run in H4 as [-> H4].
  apply M_bind_Ok in H as (y_adj & s1 & H5 & H). apply lift_run in H5 as [-> H5].
  apply M_bind_Ok in H as (y_pi & s1 & H6 & H). apply lift_run in H6 as [-> H6].
  injection H as _ <-.
  exists X_test_adj, C_test, y_adj, pi_test. auto.
Qed.


End PartitionedSubsetTheorem.

Section PartitionedSubsetToy.
Import Toy.
Local Open Scope Q_scope.

(** On a frame without rows every block has size zero, and the statement
    that joins the blocks keeps the last one only. *)
Example join_blocks_without_rows :
  join_blocks [AFrame (mkDataFrame 0 [("N6", []); ("N7", [])]);
               AFrame (mkDataFrame 0 [("N8", [])])]
              (AArr Np.empty_array)
  = Ok (AFrame (mkDataFrame 0 [("N8", [])])).
Proof. reflexivity. Qed.


End PartitionedSubsetToy.

(** * Further properties of the methods *)

(** ** Configuration errors of [predict] and of the covariates *)

Section CovariateErrors.
Context `{LM : LinearModels} {E : Type} `{EST : Estimator E}.

(** X1: [predict] of either class on a facade whose [A] and [C] are both
    [None], fitted or not, reaches the [raise] statement that hands a tuple
    to [raise]: it raises [TypeError], uses no estimator and assigns
    nothing. *)
Theorem predict_without_covariates_raises_TypeError
    (X : DataFrame) (e : E) (sub : Subset)
    (ce : option (list (list col_model))) (vl : option (list (list string)))
    (ss : option (list string))
    (b1 : option LinearRegression) (b2 : option LogisticRegression) :
  MetaRegressor.predict X (mkFacade e None None sub ce vl ss b1)
    = (mkFacade e None None sub ce vl ss b1, Raise TypeError) /\
  MetaClassifier.predict X (mkFacade e None None sub ce vl ss b2)
    = (mkFacade e None None sub ce vl ss b2, Raise TypeError).
Proof. split; reflexivity. Qed.

(** [drop] raises nothing but [KeyError]. *)
Lemma drop_Ok_or_KeyError (labels : list string) (df : DataFrame) :
  (exists df', Pd.drop labels df = Ok df') \/ Pd.drop labels df = Raise KeyError.
Proof. unfold Pd.drop. destruct (forallb _ labels); eauto. Qed.

(** When the covariates cannot be dropped, [fit] and [predict] stop
    there. *)
Lemma fit_features_drop_raises {B} (X : DataFrame) (self : facade (E := E) B) (err : exn) :
  drop_covariates self X = Raise err ->
  fit_features X self = (self, Raise err) /\
  predict_features X self = (self, Raise err).
Proof.
  intros H. unfold fit_features, predict_features, mbind, M_bind, get, lift.
  rewrite H. split; reflexivity.
Qed.

Lemma methods_drop_raises (X : DataFrame) (y : vec)
    (self1 : MetaRegressor.t) (self2 : MetaClassifier.t) (err : exn) :
  (A self1 <> None \/ C self1 <> None) ->
  (A self2 <> None \/ C self2 <> None) ->
  drop_covariates self1 X = Raise err ->
  drop_covariates self2 X = Raise err ->
  MetaRegressor.fit X y self1 = (self1, Raise err) /\
  MetaRegressor.predict X self1 = (self1, Raise err) /\
  MetaClassifier.fit X y self2 = (self2, Raise err) /\
  MetaClassifier.predict X self2 = (self2, Raise err).
Proof.
  intros Hc1 Hc2 H1 H2.
  destruct (fit_features_drop_raises X self1 err H1) as [Hf1 Hp1].
  destruct (fit_features_drop_raises X self2 err H2) as [Hf2 Hp2].
  assert (Hg1 : match A self1, C self1 with None, None => true | _, _ => false end = false).
  { destruct (A self1), (C self1); auto. destruct Hc1; congruence. }
  assert (Hg2 : match A self2, C self2 with None, None => true | _, _ => false end = false).
  { destruct (A self2), (C self2); auto. destruct Hc2; congruence. }
  repeat split.
  - unfold MetaRegressor.fit, mbind at 1, M_bind at 1, get. rewrite Hg1.
    unfold mbind at 1, M_bind at 1. rewrite Hf1. reflexivity.
  - unfold MetaRegressor.predict, mbind at 1, M_bind at 1, get.
    unfold mbind at 1, M_bind at 1. rewrite Hp1. reflexivity.
  - unfold MetaClassifier.fit, mbind at 1, M_bind at 1, get. rewrite Hg2.
    unfold mbind at 1, M_bind at 1. rewrite Hf2. reflexivity.
  - unfold MetaClassifier.predict, mbind at 1, M_bind at 1, get.
    unfold mbind at 1, M_bind at 1. rewrite Hp2. reflexivity.
Qed.

(** X2: A name that is in [A] and in [C]: the columns of [A] are dropped
    first, so the name is no column any more when [C] is dropped, and
    [fit] and [predict] of both classes raise [KeyError] without having
    assigned anything. *)
Theorem covariate_in_A_and_C_raises_KeyError
    (X : DataFrame) (y : vec) (e : E) (a c : list string) (name : string) (sub : Subset)
    (ce : option (list (list col_model))) (vl : option (list (list string)))
    (ss : option (list string))
    (b1 : option LinearRegression) (b2 : option LogisticRegression) :
  In name a ->
  In name c ->
  MetaRegressor.fit X y (mkFacade e (Some a) (Some c) sub ce vl ss b1)
    = (mkFacade e (Some a) (Some c) sub ce vl ss b1, Raise KeyError) /\
  MetaRegressor.predict X (mkFacade e (Some a) (Some c) sub ce vl ss b1)
    = (mkFacade e (Some a) (Some c) sub ce vl ss b1, Raise KeyError) /\
  MetaClassifier.fit X y (mkFacade e (Some a) (Some c) sub ce vl ss b2)
    = (mkFacade e (Some a) (Some c) sub ce vl ss b2, Raise KeyError) /\
  MetaClassifier.predict X (mkFacade e (Some a) (Some c) sub ce vl ss b2)
    = (mkFacade e (Some a) (Some c) sub ce vl ss b2, Raise KeyError).
Proof.
  intros Ha Hc.
  assert (Hdrop : forall B (s : facade (E := E) B),
             A s = Some a -> C s = Some c -> drop_covariates s X = Raise KeyError).
  { intros B s HA HC. unfold drop_covariates. rewrite HA, HC.
    destruct (drop_Ok_or_KeyError a X) as [[X_ HX] | HX]; rewrite HX; [|reflexivity].
    cbn. apply drop_raises.
    apply not_true_is_false. intros Hall.
    apply (proj1 (forallb_forall _ _) Hall) in Hc. apply contains_In in Hc.
    apply (drop_columns _ _ _ _ HX) in Hc. tauto. }
  apply methods_drop_raises; try (left; discriminate); apply Hdrop; reflexivity.
Qed.

(** X3: A name of [A] or of [C] that is not a column of the frame: [fit] and
    [predict] of both classes raise [KeyError] without having assigned
    anything. *)
Theorem covariate_not_a_column_raises_KeyError
    (X : DataFrame) (y : vec) (e : E) (a c : option (list string)) (name : string)
    (sub : Subset)
    (ce : option (list (list col_model))) (vl : option (list (list string)))
    (ss : option (list string))
    (b1 : option LinearRegression) (b2 : option LogisticRegression) :
  ~ In name (Pd.columns X) ->
  (exists l, (a = Some l \/ c = Some l) /\ In name l) ->
  MetaRegressor.fit X y (mkFacade e a c sub ce vl ss b1)
    = (mkFacade e a c sub ce vl ss b1, Raise KeyError) /\
  MetaRegressor.predict X (mkFacade e a c sub ce vl ss b1)
    = (mkFacade e a c sub ce vl ss b1, Raise KeyError) /\
  MetaClassifier.fit X y (mkFacade e a c sub ce vl ss b2)
    = (mkFacade e a c sub ce vl ss b2, Raise KeyError) /\
  MetaClassifier.predict X (mkFacade e a c sub ce vl ss b2)
    = (mkFacade e a c sub ce vl ss b2, Raise KeyError).
Proof.
  intros Hnot (l & Hl & Hin).
  assert (Hmiss : forall df, (forall x, In x (Pd.columns df) -> In x (Pd.columns X)) ->
                             Pd.drop l df = Raise KeyError).
  { intros df Hsub. apply drop_raises, not_true_is_false. intros Hall.
    apply (proj1 (forallb_forall _ _) Hall) in Hin. apply contains_In in Hin. auto. }
  assert (Hdrop : forall B (s : facade (E := E) B),
             A s = a -> C s = c -> drop_covariates s X = Raise KeyError).
  { intros B s HA HC. unfold drop_covariates. rewrite HA, HC.
    destruct a as [a'|].
    - destruct (drop_Ok_or_KeyError a' X) as [[X_ HX] | HX]; rewrite HX; [|reflexivity].
      cbn. destruct Hl as [[= ->] | ->].
      + rewrite Hmiss in HX by auto. discriminate.
      + apply Hmiss. intros x Hx. apply (drop_columns _ _ _ _ HX) in Hx. tauto.
    - cbn. destruct Hl as [[=] | ->]. apply Hmiss. auto. }
  assert (Hcfg : a <> None \/ c <> None).
  { destruct Hl as [-> | ->]; [left | right]; discriminate. }
  apply methods_drop_raises;
    [exact Hcfg | exact Hcfg | apply Hdrop; reflexivity | apply Hdrop; reflexivity].
Qed.

End CovariateErrors.

Section CovariateErrorsToy.
Import Toy.

(** The covariate [N1] in [A] and in [C]. *)
Lemma covariate_in_A_and_C_raises_KeyError_toy :
  In "N1" ["N1"] /\
  In "N1" ["N1"; "N2"] /\
  MetaRegressor.fit frame target
    (init (B := LinearRegression) (None : memo) (Some ["N1"]) (Some ["N1"; "N2"]) SubsetNone)
  = (init None (Some ["N1"]) (Some ["N1"; "N2"]) SubsetNone, Raise KeyError).
Proof.
  assert (H1 : In "N1" ["N1"]) by (left; reflexivity).
  assert (H2 : In "N1" ["N1"; "N2"]) by (left; reflexivity).
  split; [exact H1|]. split; [exact H2|].
  exact (proj1 (covariate_in_A_and_C_raises_KeyError
                  frame target (None : memo) ["N1"] ["N1"; "N2"] "N1" SubsetNone
                  None None None None None H1 H2)).
Defined.

(** The covariate [N3] of [C] is not a column of [Toy.frame]. *)
Lemma covariate_not_a_column_raises_KeyError_toy :
  ~ In "N3" (Pd.columns frame) /\
  (exists l, (None = Some l \/ Some ["N2"; "N3"] = Some l) /\ In "N3" l) /\
  MetaClassifier.predict frame classifier_N3 = (classifier_N3, Raise KeyError).
Proof.
  assert (H1 : ~ In "N3" (Pd.columns frame)).
  { cbn. intros H. repeat (destruct H as [H | H]; [discriminate|]). exact H. }
  assert (H2 : exists l, (None = Some l \/ Some ["N2"; "N3"] = Some l) /\ In "N3" l).
  { exists ["N2"; "N3"]. split; [right; reflexivity | right; left; reflexivity]. }
  split; [exact H1|]. split; [exact H2|].
  exact (proj2 (proj2 (proj2 (covariate_not_a_column_raises_KeyError
                  frame target (estimator classifier_N3) None (Some ["N2"; "N3"]) "N3"
                  SubsetNone (col_ests classifier_N3) (values_list classifier_N3)
                  (sel_subset classifier_N3) None (B_est classifier_N3) H1 H2)))).
Defined.

End CovariateErrorsToy.

(** ** [predict] before [fit], and an empty tuple as [subset] *)

Section Unfitted.
Context `{LM : LinearModels} {E : Type} `{EST : Estimator E}.

Lemma drop_succeeds (labels : list string) (df : DataFrame) :
  forallb (Pd.contains (Pd.columns df)) labels = true ->
  exists df', Pd.drop labels df = Ok df'.
Proof. unfold Pd.drop. intros ->. eauto. Qed.

(** The covariates [A] are columns of [X] when [X.drop(self.A)] returned. *)
Lemma drop_covariates_A {B} (self : facade (E := E) B) (X X_ : DataFrame) (a : list string) :
  A self = Some a ->
  drop_covariates self X = Ok X_ ->
  forallb (Pd.contains (Pd.columns X)) a = true.
Proof.
  unfold drop_covariates. intros -> H. bind_inv H.
  apply drop_Ok in Ha as [Ha _]. exact Ha.
Qed.

(** The first part of [predict] on a facade without [col_ests]. *)
Lemma predict_features_unfitted {B} (X X_test : DataFrame) (self : facade (E := E) B)
    (c : list string) :
  C self = Some c ->
  col_ests self = None ->
  drop_covariates self X = Ok X_test ->
  (forall names, subset self = SubsetList names ->
                 forallb (Pd.contains (Pd.columns X_test)) names = true) ->
  predict_features X self = (self, Raise AttributeError).
Proof.
  intros HC Hce Hdrop Hflat.
  pose proof (drop_covariates_C _ _ _ _ HC Hdrop) as Hc.
  unfold predict_features, mbind, M_bind, get, lift, getattr.
  rewrite Hdrop, HC, (getitem_Ok _ _ Hc). cbn [fmap result_fmap].
  destruct (subset self) as [|names|pairs] eqn:Hsub.
  - rewrite Hce. reflexivity.
  - rewrite (getitem_Ok _ _ (comm_features_present names X_test)).
    destruct (drop_succeeds names X_test (Hflat names eq_refl)) as [df' ->].
    cbn. rewrite Hce. reflexivity.
  - rewrite Hce. reflexivity.
Qed.

(** X4: [predict] on a facade that [fit] has never been called on (the
    attributes of [__init__] only), with [A] or [C] given, covariates that
    can be dropped from the frame and, for a list as [subset], names that
    are all features: it raises [AttributeError], since [col_ests] (or
    [B_est], when there is no [C]) does not exist, and assigns nothing. *)
Theorem predict_before_fit_raises_AttributeError
    (X X_test : DataFrame) (e : E) (a c : option (list string)) (sub : Subset) :
  (a <> None \/ c <> None) ->
  drop_covariates (init (B := LinearRegression) e a c sub) X = Ok X_test ->
  (forall names, sub = SubsetList names ->
                 forallb (Pd.contains (Pd.columns X_test)) names = true) ->
  MetaRegressor.predict X (init e a c sub) = (init e a c sub, Raise AttributeError) /\
  MetaClassifier.predict X (init e a c sub) = (init e a c sub, Raise AttributeError).
Proof.
  intros Hcfg Hdrop Hflat.
  destruct c as [c'|].
  - split.
    + unfold MetaRegressor.predict, mbind at 1, M_bind at 1, get.
      unfold mbind at 1, M_bind at 1.
      rewrite (predict_features_unfitted X X_test _ c'); auto.
    + unfold MetaClassifier.predict, mbind at 1, M_bind at 1, get.
      unfold mbind at 1, M_bind at 1.
      rewrite (predict_features_unfitted X X_test _ c'); auto.
  - destruct a as [a'|]; [|destruct Hcfg; congruence].
    pose proof (drop_covariates_A (init (B := LinearRegression) e (Some a') None sub)
                  X X_test a' eq_refl Hdrop) as Ha.
    assert (Hfeat : forall B, predict_features X (init (B := B) e (Some a') None sub)
                              = (init e (Some a') None sub, Ok (AFrame X_test, None))).
    { intros B. unfold predict_features, mbind, M_bind, get, lift.
      change (drop_covariates (init (B := B) e (Some a') None sub) X)
        with (drop_covariates (init (B := LinearRegression) e (Some a') None sub) X).
      rewrite Hdrop. reflexivity. }
    split.
    + unfold MetaRegressor.predict, mbind, M_bind, get, lift, getattr.
      rewrite Hfeat. unfold covariates_A. cbn [A C init].
      rewrite (getitem_Ok _ _ Ha). reflexivity.
    + unfold MetaClassifier.predict, mbind, M_bind, get, lift, getattr.
      rewrite Hfeat. unfold covariates_A. cbn [A C init].
      rewrite (getitem_Ok _ _ Ha). reflexivity.
Qed.

(** X5: [fit] with the empty tuple as [subset]: no block is adjusted, the
    running block is still the one-dimensional empty array when it is
    joined to the two-dimensional features, and [np.hstack] raises
    [ValueError]. By then [col_ests], [values_list] and [sel_subset] have
    been assigned empty lists; no estimator has been fitted. *)
Theorem fit_empty_tuple_raises_ValueError
    (X X_train : DataFrame) (y : vec) (c : list string)
    (self1 : MetaRegressor.t) (self2 : MetaClassifier.t) :
  C self1 = Some c -> subset self1 = SubsetTuple [] ->
  C self2 = Some c -> subset self2 = SubsetTuple [] ->
  drop_covariates self1 X = Ok X_train ->
  drop_covariates self2 X = Ok X_train ->
  MetaRegressor.fit X y self1 = (with_features [] [] [] self1, Raise ValueError) /\
  MetaClassifier.fit X y self2 = (with_features [] [] [] self2, Raise ValueError).
Proof.
  intros HC1 Hs1 HC2 Hs2 Hd1 Hd2.
  assert (Hff : forall B (s : facade (E := E) B),
             C s = Some c -> subset s = SubsetTuple [] ->
             drop_covariates s X = Ok X_train ->
             fit_features X s = (with_features [] [] [] s, Raise ValueError)).
  { intros B s HC Hs Hd.
    pose proof (drop_covariates_C _ _ _ _ HC Hd) as Hc.
    unfold fit_features, mbind, M_bind, get, lift, modify, getattr.
    rewrite Hd, HC, (getitem_Ok _ _ Hc), Hs. reflexivity. }
  split.
  - unfold MetaRegressor.fit, mbind at 1, M_bind at 1, get. rewrite HC1.
    replace (match A self1 with Some _ | _ => false end) with false
      by (destruct (A self1); reflexivity).
    unfold mbind at 1, M_bind at 1. rewrite (Hff _ self1); auto.
  - unfold MetaClassifier.fit, mbind at 1, M_bind at 1, get. rewrite HC2.
    replace (match A self2 with Some _ | _ => false end) with false
      by (destruct (A self2); reflexivity).
    unfold mbind at 1, M_bind at 1. rewrite (Hff _ self2); auto.
Qed.

End Unfitted.

Section UnfittedToy.
Import Toy.

(** A [MetaRegressor] and a [MetaClassifier] with [C = ["N1", "N2"]] and
    the list [["N6"]] as [subset], straight after [__init__]. *)
Lemma predict_before_fit_raises_AttributeError_toy :
  ((None : option (list string)) <> None \/ Some ["N1"; "N2"] <> None) /\
  drop_covariates
    (init (B := LinearRegression) (None : memo) None (Some ["N1"; "N2"]) (SubsetList ["N6"]))
    frame = Ok features /\
  (forall names, SubsetList ["N6"] = SubsetList names ->
                 forallb (Pd.contains (Pd.columns features)) names = true) /\
  MetaRegressor.predict frame
    (init (None : memo) None (Some ["N1"; "N2"]) (SubsetList ["N6"]))
  = (init None None (Some ["N1"; "N2"]) (SubsetList ["N6"]), Raise AttributeError).
Proof.
  assert (H1 : (None : option (list string)) <> None \/ Some ["N1"; "N2"] <> None)
    by (right; discriminate).
  assert (H3 : forall names, SubsetList ["N6"] = SubsetList names ->
                 forallb (Pd.contains (Pd.columns features)) names = true).
  { intros names [= <-]. reflexivity. }
  split; [exact H1|]. split; [reflexivity|]. split; [exact H3|].
  exact (proj1 (predict_before_fit_raises_AttributeError
                  frame features (None : memo) None (Some ["N1"; "N2"])
                  (SubsetList ["N6"]) H1 eq_refl H3)).
Defined.

(** [C = ["N1", "N2"]] and the empty tuple as [subset]. *)
Lemma fit_empty_tuple_raises_ValueError_toy :
  drop_covariates
    (init (B := LinearRegression) (None : memo) None (Some ["N1"; "N2"]) (SubsetTuple []))
    frame = Ok features /\
  MetaRegressor.fit frame target
    (init (None : memo) None (Some ["N1"; "N2"]) (SubsetTuple []))
  = (with_features [] [] [] (init None None (Some ["N1"; "N2"]) (SubsetTuple [])),
     Raise ValueError).
Proof.
  split; [reflexivity|].
  exact (proj1 (fit_empty_tuple_raises_ValueError
                  frame features target ["N1"; "N2"]
                  (init (None : memo) None (Some ["N1"; "N2"]) (SubsetTuple []))
                  (init (None : memo) None (Some ["N1"; "N2"]) (SubsetTuple []))
                  eq_refl eq_refl eq_refl eq_refl eq_refl eq_refl)).
Defined.

End UnfittedToy.

(** ** The shape of the adjusted block *)

Section BlockShape.
Context `{LM : LinearModels}.

Lemma broadcast_to_length (n : nat) (v v' : vec) :
  Np.broadcast_to n v = Ok v' -> length v' = n.
Proof.
  unfold Np.broadcast_to. destruct (Nat.eqb_spec (length v) n) as [Hn|_].
  - intros [= <-]. exact Hn.
  - destruct v as [|x [|? ?]]; try discriminate.
    intros [= <-]. apply length_replicate.
Qed.

(** X6: [X_adj_fit] on a frame that is not empty returns an array of the shape
    of the frame, whatever the classifiers return: every column has one
    entry for each row, and there is one estimator and one tag for each
    column. *)
Theorem X_adj_fit_shape (X_train : DataFrame) (C_train : ndarray)
    (X_train_adj : arraylike) (col_est : list col_model) (values : list string) :
  Pd.empty X_train = false ->
  X_adj_fit X_train C_train = Ok (X_train_adj, col_est, values) ->
  exists cols',
    X_train_adj = AArr (Arr2 (index_len X_train) cols') /\
    length cols' = length (cols X_train) /\
    Forall (fun c => length c = index_len X_train) cols' /\
    length col_est = length (cols X_train) /\
    length values = length (cols X_train).
Proof.
  intros Hne H.
  apply X_adj_fit_Ok in H as (cols' & clfs & [= -> -> ->] & Hlen & Hcols & Hcol); auto.
  exists cols'. split; [reflexivity|]. split; [exact Hcols|]. split.
  - apply Forall_lookup. intros i c Hi.
    destruct (Hcol i) as (x & clf & proba & classes & x_adj & v & _ & _ & _ & Hv & Hv').
    { rewrite <- Hcols. eapply lookup_lt_Some; eauto. }
    rewrite Hi in Hv'. injection Hv' as ->. eapply broadcast_to_length; eauto.
  - rewrite length_map, length_replicate. auto.
Qed.

Lemma zip3_length {T U V} (a : list T) (b : list U) (c : list V) :
  length (zip3 a b c) = Nat.min (Nat.min (length a) (length b)) (length c).
Proof. unfold zip3. rewrite !length_zip_with. reflexivity. Qed.

(** The loop of [X_adj_predict] writes the columns [k], ..., up to the
    shortest of the tags, the estimators and the column numbers; the other
    columns stay as they were, and every written column has [n] entries. *)
Lemma X_adj_predict_loop_rest X_test C_test :
  forall tags ests m k n cols a,
  for_ (zip3 tags ests (seq k m)) (X_adj_predict_col X_test C_test) (Arr2 n cols) = Ok a ->
  exists cols',
    a = Arr2 n cols' /\
    length cols' = length cols /\
    (forall j, (k + length (zip3 tags ests (seq k m)) <= j)%nat -> cols' !! j = cols !! j) /\
    (Forall (fun c => length c = n) cols -> Forall (fun c => length c = n) cols').
Proof.
  induction tags as [|tag tags IH]; intros ests m k n cols a H.
  - injection H as <-. exists cols. auto.
  - destruct ests as [|est ests]; [injection H as <-; exists cols; auto|].
    destruct m as [|m]; [injection H as <-; exists cols; auto|].
    change (zip3 (tag :: tags) (est :: ests) (seq k (S m)))
      with ((tag, est, k) :: zip3 tags ests (seq (S k) m)) in *.
    cbn [for_] in H. bind_inv H.
    apply X_adj_predict_col_Ok in Ha as (x & x_adj & v & _ & _ & Hlt & Hv & ->).
    apply IH in H as (cols' & -> & Hlen & Hrest & Hwf).
    rewrite length_insert in Hlen.
    exists cols'. split; [reflexivity|]. split; [exact Hlen|]. split.
    + intros j Hj. cbn [length] in Hj. rewrite Hrest by lia.
      apply list_lookup_insert_ne. lia.
    + intros Hall. apply Hwf. apply Forall_insert; [exact Hall|].
      eapply broadcast_to_length; eauto.
Qed.

(** X7: [X_adj_predict] on a frame that is not empty returns an array of the
    shape of the frame; the loop runs over [zip(values, col_est, ...)], so
    a column that has no stored tag or no stored estimator is not adjusted:
    it is returned filled with zeros, not as it is in the frame. *)
Theorem X_adj_predict_shape_and_zero_columns (X_test : DataFrame) (C_test : ndarray)
    (col_est : list col_model) (values : list string) (X_test_adj : arraylike) :
  Pd.empty X_test = false ->
  X_adj_predict X_test C_test col_est values = Ok X_test_adj ->
  exists cols',
    X_test_adj = AArr (Arr2 (index_len X_test) cols') /\
    length cols' = length (cols X_test) /\
    Forall (fun c => length c = index_len X_test) cols' /\
    (forall j, (Nat.min (length values) (length col_est) <= j)%nat ->
               (j < length (cols X_test))%nat ->
               cols' !! j = Some (replicate (index_len X_test) 0%Q)).
Proof.
  unfold X_adj_predict. intros -> H. cbn [fst snd Pd.shape] in H.
  bind_inv H. injection H as <-.
  apply X_adj_predict_loop_rest in Ha as (cols' & -> & Hlen & Hrest & Hwf).
  rewrite length_replicate in Hlen.
  exists cols'. split; [reflexivity|]. split; [exact Hlen|]. split.
  - apply Hwf. apply Forall_replicate. apply length_replicate.
  - intros j Hj Hlt. rewrite Hrest.
    + apply lookup_replicate_2. exact Hlt.
    + rewrite zip3_length, length_seq. lia.
Qed.

End BlockShape.

Section BlockShapeToy.
Import Toy.

(** The shape of the block of the single column [N7]. *)
Lemma X_adj_fit_shape_N7 :
  Pd.empty frame_N7 = false /\
  X_adj_fit frame_N7 array_N1 = Ok (adj_N7, est_N7, values_N7) /\
  exists cols',
    adj_N7 = AArr (Arr2 5 cols') /\ length cols' = 1%nat /\
    Forall (fun c => length c = 5%nat) cols'.
Proof.
  assert (Hfit : X_adj_fit frame_N7 array_N1 = Ok (adj_N7, est_N7, values_N7))
    by (vm_compute; reflexivity).
  split; [reflexivity|]. split; [exact Hfit|].
  destruct (X_adj_fit_shape frame_N7 array_N1 adj_N7 est_N7 values_N7 eq_refl Hfit)
    as (cols' & H1 & H2 & H3 & _).
  exists cols'. auto.
Defined.

(** Three features and the estimator and the tag of one column: the
    second and the third column come back as zeros. *)
Lemma X_adj_predict_shape_and_zero_columns_toy :
  Pd.empty features = false /\
  X_adj_predict features array_N1 est_N7 values_N7 = Ok adj_features_one /\
  exists cols',
    adj_features_one = AArr (Arr2 5 cols') /\
    cols' !! 2%nat = Some (replicate 5 0%Q).
Proof.
  assert (Hrun : X_adj_predict features array_N1 est_N7 values_N7 = Ok adj_features_one)
    by (vm_compute; reflexivity).
  split; [reflexivity|]. split; [exact Hrun|].
  destruct (X_adj_predict_shape_and_zero_columns
              features array_N1 est_N7 values_N7 adj_features_one eq_refl Hrun)
    as (cols' & H1 & _ & _ & Hzero).
  exists cols'. split; [exact H1|]. apply Hzero; cbn; lia.
Defined.

End BlockShapeToy.

(** ** The outcome model of [MetaClassifier] *)

Section ClassifierOutcome.
Context `{LM : LinearModels} {E : Type} `{EST : Estimator E}.
Local Open Scope Q_scope.

(** The loop of additions, when the probabilities have one row per entry
    of the running vector: every entry grows by the expected value. *)
Lemma add_expected_from n pcols classes :
  forall k x x',
  Forall (fun c => length c = length x) pcols ->
  for_ (zip (seq k (length classes)) classes)
       (fun '(gt_idx, gt) pi_ =>
          let gt := Np.int gt in
          p ← Np.getcol (Arr2 n pcols) gt_idx;
          Np.add pi_ (Np.scale (inject_Z gt) p))
       x = Ok x' ->
  length x' = length x /\
  forall r xr, x !! r = Some xr ->
    exists a, x' !! r = Some a /\ a == xr + expected_from k classes pcols r.
Proof.
  induction classes as [|gt rest IH]; intros k x x' Hwf H.
  - simpl in H. injection H as <-. split; [reflexivity|].
    intros r xr Hr. exists xr. split; [exact Hr|]. simpl. ring.
  - rewrite enumerate_from_cons in H. cbn [for_] in H.
    bind_inv H. rename a into x1. cbn beta iota zeta in Ha.
    bind_inv Ha. rename a into p.
    unfold Np.getcol in Ha0.
    destruct (pcols !! k) as [p'|] eqn:Hp; [|discriminate].
    injection Ha0 as ->.
    assert (Hlen : length p = length x).
    { eapply (proj1 (Forall_lookup _ _) Hwf); eauto. }
    unfold Np.add in Ha. rewrite broadcast2_same_length in Ha
      by (unfold Np.scale; rewrite length_map; lia).
    injection Ha as <-.
    assert (Hlen1 : length (zip_with Qplus x (Np.scale (inject_Z (Np.int gt)) p))
                    = length x).
    { rewrite length_zip_with, Nat.min_l; [reflexivity|].
      unfold Np.scale. rewrite length_map. lia. }
    apply IH in H as [Hl Hent]; [|rewrite Hlen1; exact Hwf].
    split; [congruence|].
    intros r xr Hr.
    assert (Hpr : exists pr, p !! r = Some pr).
    { apply lookup_lt_is_Some. rewrite Hlen. eapply lookup_lt_Some; eauto. }
    destruct Hpr as [pr Hpr].
    destruct (Hent r (xr + inject_Z (Np.int gt) * pr)%Q) as (a & Ha & Heq).
    { rewrite lookup_zip_with, Hr. simpl.
      unfold Np.scale. rewrite list_lookup_fmap, Hpr. reflexivity. }
    exists a. split; [exact Ha|].
    rewrite Heq. cbn [expected_from].
    rewrite (nth_lookup_Some _ _ _ _ Hp), (nth_lookup_Some _ _ _ _ Hpr). ring.
Qed.

(** The expected outcome built from zeros. *)
Lemma add_expected_zeros (n : nat) (pcols : list vec) (classes pi_ : vec) :
  Forall (fun c => length c = n) pcols ->
  MetaClassifier.add_expected classes (Arr2 n pcols) (Np.zeros1 n) = Ok pi_ ->
  length pi_ = n /\
  forall r, (r < n)%nat ->
    exists a, pi_ !! r = Some a /\ a == expected classes pcols r.
Proof.
  intros Hwf H. unfold MetaClassifier.add_expected, enumerate in H.
  apply add_expected_from in H as [Hlen Hent];
    [|unfold Np.zeros1; rewrite length_replicate; exact Hwf].
  unfold Np.zeros1 in *. rewrite length_replicate in Hlen.
  split; [exact Hlen|]. intros r Hr.
  destruct (Hent r 0) as (a & Ha & Heq); [apply lookup_replicate_2; exact Hr|].
  exists a. split; [exact Ha|]. rewrite Heq. unfold expected. ring.
Qed.

(** [fit] of [MetaClassifier], when it returns. *)
Lemma MetaClassifier_fit_Ok (X : DataFrame) (y : vec) (self self1 : MetaClassifier.t) :
  MetaClassifier.fit X y self = (self1, Ok tt) ->
  exists s1 X_train_adj C_train A_train B_train b proba classes pi_train y_train_adj e',
    fit_features X self = (s1, Ok (X_train_adj, C_train)) /\
    covariates_A self X = Ok A_train /\
    B_train_of A_train C_train = Ok B_train /\
    log_fit LogisticRegression_new B_train y = (b, Ok tt) /\
    log_predict_proba b B_train = Ok proba /\
    log_classes_ b = Ok classes /\
    MetaClassifier.add_expected classes proba (Np.zeros1 (length y)) = Ok pi_train /\
    Np.sub y pi_train = Ok y_train_adj /\
    est_fit (estimator s1) X_train_adj y_train_adj = (e', Ok tt) /\
    self1 = set_estimator e' (set_B_est b s1).
Proof.
  unfold MetaClassifier.fit. intros H.
  apply M_bind_Ok in H as (s & s0 & H0 & H). apply get_run in H0 as [-> ->].
  destruct (match A self, C self with None, None => true | _, _ => false end);
    [discriminate|].
  apply M_bind_Ok in H as ([X_adj C_train] & s1 & Hff & H).
  apply M_bind_Ok in H as (A_train & s2 & H0 & H). apply lift_run in H0 as [-> HA].
  apply M_bind_Ok in H as (B_train & s2 & H0 & H). apply lift_run in H0 as [-> HB].
  apply M_bind_Ok in H as (u & s2 & H0 & H). apply modify_run in H0. subst s2.
  apply M_bind_Ok in H as (b & s2 & H0 & H).
  destruct (log_fit LogisticRegression_new B_train y) as [b' [[]|e]] eqn:Hlog;
    [|discriminate].
  injection H0 as <- <-.
  apply M_bind_Ok in H as (proba & s2 & H0 & H). apply lift_run in H0 as [-> Hproba].
  apply M_bind_Ok in H as (classes & s2 & H0 & H). apply lift_run in H0 as [-> Hcl].
  apply M_bind_Ok in H as (pi_train & s2 & H0 & H). apply lift_run in H0 as [-> Hpi].
  apply M_bind_Ok in H as (y_adj & s2 & H0 & H). apply lift_run in H0 as [-> Hsub].
  unfold estimator_fit in H. cbn [estimator set_B_est] in H.
  destruct (est_fit (estimator s1) X_adj y_adj) as [e' r] eqn:Hest.
  injection H as <- ->.
  exists s1, X_adj, C_train, A_train, B_train, b', proba, classes, pi_train, y_adj, e'.
  repeat (split; [assumption|]). reflexivity.
Qed.

End ClassifierOutcome.

Section ClassifierOutcomeTheorems.
Context `{LM : LinearModels} {E : Type} `{EST : Estimator E}.
Local Open Scope Q_scope.

(** X8: [fit] of [MetaClassifier] trains the wrapped estimator on the target
    minus the expected outcome: for a classifier that gives one row of
    probabilities for each target, the entry of a sample is its target
    minus the sum, over the classes of the outcome model in the order of
    [classes_], of the class as an integer times its probability for the
    sample. The outcome model is stored in [B_est]. *)
Theorem MetaClassifier_fit_residual_target (X : DataFrame) (y : vec)
    (self self1 : MetaClassifier.t) :
  proba_per_target y ->
  MetaClassifier.fit X y self = (self1, Ok tt) ->
  exists X_train_adj B_train b classes pcols y_train_adj,
    log_fit LogisticRegression_new B_train y = (b, Ok tt) /\
    B_est self1 = Some b /\
    log_classes_ b = Ok classes /\
    log_predict_proba b B_train = Ok (Arr2 (length y) pcols) /\
    est_fit (estimator self) X_train_adj y_train_adj = (estimator self1, Ok tt) /\
    length y_train_adj = length y /\
    forall r yr, y !! r = Some yr ->
      exists a, y_train_adj !! r = Some a /\ a == yr - expected classes pcols r.
Proof.
  intros Hrows Hfit.
  apply MetaClassifier_fit_Ok in Hfit
    as (s1 & X_adj & C_train & A_train & B_train & b & proba & classes & pi_train
        & y_adj & e' & Hff & _ & _ & Hbfit & Hproba & Hcl & Hpi & Hsub & Hefit & ->).
  destruct (fit_features_keeps_config X _ _ _ Hff) as (_ & _ & _ & He1 & _).
  destruct (Hrows _ _ _ _ Hbfit Hproba) as (pcols & -> & Hwf).
  destruct (add_expected_zeros _ _ _ _ Hwf Hpi) as [Hlen Hent].
  unfold Np.sub in Hsub. rewrite broadcast2_same_length in Hsub by congruence.
  injection Hsub as <-.
  exists X_adj, B_train, b, classes, pcols, (zip_with Qminus y pi_train).
  split; [exact Hbfit|]. split; [reflexivity|]. split; [exact Hcl|].
  split; [exact Hproba|]. split; [rewrite <- He1; exact Hefit|].
  split; [rewrite length_zip_with; lia|].
  intros r yr Hr.
  destruct (Hent r) as (p & Hp & Hpeq); [eapply lookup_lt_Some; eauto|].
  exists (yr - p). split.
  - rewrite lookup_zip_with, Hr, Hp. reflexivity.
  - rewrite Hpeq. reflexivity.
Qed.

(** [np.rint] of an integer is the integer. *)
Lemma rint_of_integer (v : Q) : is_integer v -> Np.rint v == v.
Proof.
  intros [z Hz]. apply Qle_antisym.
  - rewrite Hz at 2. apply rint_le_integer. rewrite Hz. apply Qle_refl.
  - rewrite Hz at 1. apply rint_ge_integer. rewrite Hz. apply Qle_refl.
Qed.

(** An entry that is a class is returned as it is. *)
Lemma clamp_entry_class (min_c max_c v c : Q) :
  v == c -> is_integer c -> min_c <= c <= max_c ->
  clamp_entry min_c max_c v == c.
Proof.
  intros Hv Hc [Hlo Hhi]. unfold clamp_entry.
  assert (H1 : Np.ltb max_c v = false) by (apply ltb_ge; rewrite Hv; exact Hhi).
  assert (H2 : Np.ltb v min_c = false) by (apply ltb_ge; rewrite Hv; exact Hlo).
  rewrite H1, H2. rewrite rint_of_integer; [exact Hv|].
  destruct Hc as [z Hz]. exists z. rewrite Hv. exact Hz.
Qed.

(** X9: When the classifier gives one row of probabilities for each target,
    its classes are integers that include every target, and the wrapped
    estimator reproduces its training targets, [predict] of
    [MetaClassifier] on the frame that [fit] has just returned from (every
    name of a list [subset] being a feature) returns the targets, entry by
    entry, and leaves the facade as it is. *)
Theorem MetaClassifier_fit_then_predict_reproduces_y (X : DataFrame) (y : vec)
    (self self1 : MetaClassifier.t) :
  proba_per_target y ->
  labels_are_classes y ->
  interpolates (E := E) ->
  flat_names_present self X ->
  MetaClassifier.fit X y self = (self1, Ok tt) ->
  exists y_pred,
    MetaClassifier.predict X self1 = (self1, Ok y_pred) /\ veq y_pred y.
Proof.
  intros Hrows Hlab Hest Hflat Hfit.
  apply MetaClassifier_fit_Ok in Hfit
    as (s1 & X_adj & C_train & A_train & B_train & b & proba & classes & pi_train
        & y_adj & e' & Hff & HA & HB & Hbfit & Hproba & Hcl & Hpi & Hsub & Hefit & ->).
  destruct (fit_features_keeps_config X _ _ _ Hff) as (HA1 & HC1 & Hs1 & He1 & Hb1).
  destruct (Hrows _ _ _ _ Hbfit Hproba) as (pcols & Hp & Hwf).
  destruct (Hlab _ _ _ _ _ Hbfit Hcl Hproba)
    as (Hint & Hcover & Htwo & n & pcols' & Hp' & Hcols).
  rewrite Hp in Hp'. injection Hp' as <- <-. subst proba.
  destruct (add_expected_zeros _ _ _ _ Hwf Hpi) as [Hlen _].
  destruct (sub_then_add y pi_train (eq_sym Hlen)) as (y_adj' & Hsub' & Hadd).
  rewrite Hsub in Hsub'. injection Hsub' as <-.
  destruct (Hest _ _ _ _ Hefit) as (y' & Hpred & Hveq).
  destruct (Hadd y' Hveq) as (y_rec & Hrec & Hveq').
  assert (Hlen' : length y' = length y).
  { apply Forall2_length in Hveq. rewrite Hveq.
    unfold Np.sub in Hsub. rewrite broadcast2_same_length in Hsub by congruence.
    injection Hsub as <-. rewrite length_zip_with. lia. }
  (* the bounds of the classes *)
  assert (Hmm : exists min_c max_c,
             Np.min_ classes = Ok min_c /\ Np.max_ classes = Ok max_c).
  { destruct classes as [|c0 cl]; [cbn in Htwo; lia | cbn; eauto]. }
  destruct Hmm as (min_c & max_c & Hmin & Hmax).
  destruct (min_max_classes _ _ _ Hmin Hmax) as (_ & _ & Hbounds).
  exists (map (clamp_entry min_c max_c) y_rec). split.
  - assert (Hrep : predict_features X (set_estimator e' (set_B_est b s1))
                   = (set_estimator e' (set_B_est b s1), Ok (X_adj, C_train))).
    { apply (fit_features_replay X self s1); [exact Hff | exact Hflat|].
      repeat split. }
    unfold MetaClassifier.predict, mbind at 1 2, M_bind at 1 2, get.
    rewrite Hrep.
    assert (HA' : covariates_A (set_estimator e' (set_B_est b s1)) X = Ok A_train).
    { rewrite <- HA. unfold covariates_A. cbn. rewrite HA1. reflexivity. }
    unfold mbind, M_bind, lift, getattr.
    rewrite HA', (B_train_then_test _ _ _ HB). cbn.
    rewrite Hproba. cbn.
    destruct pcols as [|p0 [|p1 pcols]]; cbn in Hcols; try lia. cbn.
    rewrite Hpred, Hcl, Hlen', Hpi, Hrec.
    rewrite (round_and_clamp_entries _ _ _ _ Hmin Hmax). reflexivity.
  - apply Forall2_fmap_l.
    clear - Hveq' Hcover Hint Hbounds.
    induction Hveq' as [|v yi y_rec y Hv _ IH]; constructor.
    + inversion Hcover as [|? ? (c & Hc & Hyc) _]; subst.
      change (clamp_entry min_c max_c v == yi).
      apply Qeq_trans with c; [|symmetry; exact Hyc].
      apply clamp_entry_class.
      * rewrite Hv. exact Hyc.
      * apply (proj1 (Forall_forall _ _) Hint). exact Hc.
      * apply (proj1 (Forall_forall _ _) Hbounds). exact Hc.
    + apply IH. inversion Hcover; assumption.
Qed.

End ClassifierOutcomeTheorems.

Section ClassifierOutcomeToy.
Import Toy.
Local Open Scope Q_scope.

Lemma toy_proba_per_target (y : vec) : proba_per_target y.
Proof.
  intros b0 b B_ p Hfit Hp. cbn in Hfit.
  destruct (Nat.eqb_spec (Np.nrows B_) (length y)) as [Hn|]; [|discriminate].
  destruct (negb (length y =? 0)%nat); [|discriminate].
  injection Hfit as <-. cbn in Hp. injection Hp as <-.
  rewrite Hn. eexists. split; [reflexivity|].
  apply Forall_fmap, Forall_forall. intros c _. apply length_replicate.
Qed.

Lemma toy_labels_are_classes : labels_are_classes target.
Proof.
  intros b0 b B_ classes p Hfit Hcl Hp. cbn in Hfit.
  match type of Hfit with (if ?t then _ else _) = _ => destruct t end;
    [|discriminate].
  injection Hfit as <-. vm_compute in Hcl. injection Hcl as <-.
  cbn in Hp. injection Hp as <-.
  split; [|split; [|split]].
  - repeat constructor; [exists 0%Z | exists 1%Z]; reflexivity.
  - unfold target.
    repeat constructor;
      first [ exists 0; split; [left | reflexivity]
            | exists 1; split; [right; left | reflexivity] ].
  - cbn. lia.
  - eexists _, _. split; [reflexivity|]. reflexivity.
Qed.

Lemma toy_classifier_flat_names : flat_names_present classifier_init frame.
Proof. intros names X_train Hsub. discriminate. Qed.

Lemma toy_classifier_fit :
  MetaClassifier.fit frame target classifier_init = (classifier, Ok tt).
Proof. vm_compute. reflexivity. Qed.

(** The residual target of [Toy.classifier]. *)
Lemma MetaClassifier_fit_residual_target_toy :
  proba_per_target target /\
  MetaClassifier.fit frame target classifier_init = (classifier, Ok tt) /\
  exists b classes, B_est classifier = Some b /\ log_classes_ b = Ok classes.
Proof.
  split; [apply toy_proba_per_target|]. split; [exact toy_classifier_fit|].
  destruct (MetaClassifier_fit_residual_target frame target classifier_init classifier
              (toy_proba_per_target target) toy_classifier_fit)
    as (X_adj & B_train & b & classes & pcols & y_adj & _ & Hb & Hcl & _).
  exists b, classes. auto.
Defined.

(** [fit] and then [predict] of [Toy.classifier] on [Toy.frame]. *)
Lemma MetaClassifier_fit_then_predict_reproduces_y_toy :
  proba_per_target target /\
  labels_are_classes target /\
  interpolates (E := memo) /\
  flat_names_present classifier_init frame /\
  MetaClassifier.fit frame target classifier_init = (classifier, Ok tt) /\
  exists y_pred,
    MetaClassifier.predict frame classifier = (classifier, Ok y_pred) /\
    veq y_pred target.
Proof.
  split; [apply toy_proba_per_target|]. split; [exact toy_labels_are_classes|].
  split; [exact toy_interpolates|]. split; [exact toy_classifier_flat_names|].
  split; [exact toy_classifier_fit|].
  exact (MetaClassifier_fit_then_predict_reproduces_y
           frame target classifier_init classifier
           (toy_proba_per_target target) toy_labels_are_classes toy_interpolates
           toy_classifier_flat_names toy_classifier_fit).
Defined.

End ClassifierOutcomeToy.

(** ** The covariates of the outcome model *)

Section OutcomeCovariates.
Context `{LM : LinearModels} {E : Type} `{EST : Estimator E}.

(** One step of a method that returned: the step and the rest. *)
Ltac step_inv H :=
  let a := fresh "a" in
  let s := fresh "s" in
  let Hs := fresh "Hs" in
  apply M_bind_Ok in H as (a & s & Hs & H);
  first [ apply get_run in Hs as [-> ->]
        | apply getattr_run in Hs as [-> Hs]
        | apply modify_run in Hs; subst s
        | apply lift_run in Hs as [-> Hs]
        | idtac ].

(** The covariates that the first part of [fit] returns: none without
    [C] (the features are then returned as the frame they are, and nothing
    is assigned), the columns of [C] in the order of [C] otherwise. *)
Lemma fit_features_C_train {B} (X : DataFrame) (self s1 : facade (E := E) B)
    (X_adj : arraylike) (C_train : option ndarray) :
  fit_features X self = (s1, Ok (X_adj, C_train)) ->
  exists X_train,
    drop_covariates self X = Ok X_train /\
    match C self with
    | None => C_train = None /\ X_adj = AFrame X_train /\ s1 = self
    | Some c => exists Cdf, Pd.getitem c X = Ok Cdf /\ C_train = Some (Pd.values Cdf)
    end.
Proof.
  unfold fit_features. intros H.
  step_inv H. step_inv H. rename a into X_train.
  exists X_train. split; [exact Hs|].
  destruct (C self) as [c|].
  2:{ injection H as <- <- <-. auto. }
  step_inv H. step_inv H. step_inv H.
  apply fmap_Ok in Hs0 as (Cdf & HC & ->).
  exists Cdf. split; [exact HC|].
  destruct (subset self).
  - step_inv H. destruct a1 as [[adj ce] vl].
    do 2 step_inv H. injection H as _ _ <-. reflexivity.
  - do 2 step_inv H. destruct a2 as [[adj ce] vl].
    do 4 step_inv H. injection H as _ _ <-. reflexivity.
  - do 5 step_inv H. injection H as _ _ <-. reflexivity.
Qed.

Lemma getitem_Ok_inv (labels : list string) (df df' : DataFrame) :
  Pd.getitem labels df = Ok df' ->
  forallb (Pd.contains (Pd.columns df)) labels = true /\
  df' = mkDataFrame (index_len df)
          (flat_map (fun a => List.filter (fun c => String.eqb (fst c) a) (cols df))
                    labels).
Proof.
  unfold Pd.getitem. destruct (forallb _ labels); [|discriminate].
  intros [= <-]. auto.
Qed.

(** The matrix of the outcome model, when it could be built: the columns
    of [A] in the order of [A], followed by the columns of [C] in the
    order of [C]. *)
Lemma B_train_columns {B} (X : DataFrame) (self s1 : facade (E := E) B)
    (X_adj : arraylike) (C_train A_train : option ndarray) (B_train : ndarray) :
  fit_features X self = (s1, Ok (X_adj, C_train)) ->
  covariates_A self X = Ok A_train ->
  B_train_of A_train C_train = Ok B_train ->
  exists Adf Cdf,
    match A self with Some a => Pd.getitem a X | None => Pd.getitem [] X end = Ok Adf /\
    match C self with Some c => Pd.getitem c X | None => Pd.getitem [] X end = Ok Cdf /\
    B_train = Arr2 (index_len X) (map snd (cols Adf) ++ map snd (cols Cdf)).
Proof.
  intros Hff HA HB.
  apply fit_features_C_train in Hff as (X_train & _ & HC).
  unfold covariates_A in HA.
  assert (Hnil : Pd.getitem [] X = Ok (mkDataFrame (index_len X) [])) by reflexivity.
  destruct (A self) as [a|], (C self) as [c|].
  - apply fmap_Ok in HA as (A_arr & HA & ->).
    apply fmap_Ok in HA as (Adf & HA & ->).
    destruct HC as (Cdf & HC & ->).
    exists Adf, Cdf. split; [exact HA|]. split; [exact HC|].
    apply getitem_index_len in HA, HC.
    cbn in HB. unfold Pd.values in HB. rewrite HA, HC, Nat.eqb_refl in HB.
    injection HB as <-. reflexivity.
  - apply fmap_Ok in HA as (A_arr & HA & ->).
    apply fmap_Ok in HA as (Adf & HA & ->).
    destruct HC as (-> & _).
    exists Adf, (mkDataFrame (index_len X) []). split; [exact HA|]. split; [exact Hnil|].
    apply getitem_index_len in HA.
    cbn in HB. injection HB as <-. unfold Pd.values. rewrite HA. cbn.
    rewrite app_nil_r. reflexivity.
  - injection HA as <-. destruct HC as (Cdf & HC & ->).
    exists (mkDataFrame (index_len X) []), Cdf. split; [exact Hnil|]. split; [exact HC|].
    apply getitem_index_len in HC.
    cbn in HB. injection HB as <-. unfold Pd.values. rewrite HC. reflexivity.
  - injection HA as <-. destruct HC as (-> & _). discriminate.
Qed.

(** X11: [fit] of both classes fits the outcome model on the columns of [A]
    followed by the columns of [C], each in the order of its list and with
    the rows of the frame, and on the target [y], and stores it in
    [B_est]. *)
Theorem fit_outcome_model_on_A_then_C (X : DataFrame) (y : vec) :
  (forall (self self1 : MetaRegressor.t),
     MetaRegressor.fit X y self = (self1, Ok tt) ->
     exists Adf Cdf b,
       match A self with Some a => Pd.getitem a X | None => Pd.getitem [] X end = Ok Adf /\
       match C self with Some c => Pd.getitem c X | None => Pd.getitem [] X end = Ok Cdf /\
       lin_fit LinearRegression_new
         (Arr2 (index_len X) (map snd (cols Adf) ++ map snd (cols Cdf))) y = (b, Ok tt) /\
       B_est self1 = Some b) /\
  (forall (self self1 : MetaClassifier.t),
     MetaClassifier.fit X y self = (self1, Ok tt) ->
     exists Adf Cdf b,
       match A self with Some a => Pd.getitem a X | None => Pd.getitem [] X end = Ok Adf /\
       match C self with Some c => Pd.getitem c X | None => Pd.getitem [] X end = Ok Cdf /\
       log_fit LogisticRegression_new
         (Arr2 (index_len X) (map snd (cols Adf) ++ map snd (cols Cdf))) y = (b, Ok tt) /\
       B_est self1 = Some b).
Proof.
  split; intros self self1 Hfit.
  - apply MetaRegressor_fit_Ok in Hfit
      as (s1 & X_adj & C_train & A_train & B_train & b & pi_train & y_adj & e'
          & Hff & HA & HB & Hbfit & _ & _ & _ & ->).
    destruct (B_train_columns _ _ _ _ _ _ _ Hff HA HB) as (Adf & Cdf & H1 & H2 & ->).
    exists Adf, Cdf, b. auto.
  - apply MetaClassifier_fit_Ok in Hfit
      as (s1 & X_adj & C_train & A_train & B_train & b & proba & classes & pi_train
          & y_adj & e' & Hff & HA & HB & Hbfit & _ & _ & _ & _ & _ & ->).
    destruct (B_train_columns _ _ _ _ _ _ _ Hff HA HB) as (Adf & Cdf & H1 & H2 & ->).
    exists Adf, Cdf, b. auto.
Qed.

End OutcomeCovariates.

(** ** Without [C]; and failures of the outcome model and of the wrapped
    estimator *)

Section PassThroughAndFailures.
Context `{LM : LinearModels} {E : Type} `{EST : Estimator E}.

(** The first part of [predict] without [C]. *)
Lemma predict_features_without_C {B} (X : DataFrame) (self s1 : facade (E := E) B)
    (X_adj : arraylike) (C_test : option ndarray) :
  C self = None ->
  predict_features X self = (s1, Ok (X_adj, C_test)) ->
  exists X_test, drop_covariates self X = Ok X_test /\ X_adj = AFrame X_test.
Proof.
  unfold predict_features. intros HC H.
  apply M_bind_Ok in H as (s & s0 & H0 & H). apply get_run in H0 as [-> ->].
  apply M_bind_Ok in H as (X_test & s0 & H0 & H). apply lift_run in H0 as [-> Hdrop].
  rewrite HC in H. injection H as _ <- _. eauto.
Qed.

(** X12: Without [C] no feature is adjusted: [fit] of [MetaRegressor] fits the
    wrapped estimator on the data frame that is left when the columns of
    [A] are dropped, and leaves [col_ests], [values_list] and [sel_subset]
    as they were (not assigned on a new facade); [predict] hands the frame
    without the columns of [A] to the wrapped estimator. *)
Theorem fit_without_C_adjusts_nothing (X : DataFrame) (y : vec)
    (self self1 : MetaRegressor.t) :
  C self = None ->
  MetaRegressor.fit X y self = (self1, Ok tt) ->
  exists a X_train y_train_adj,
    A self = Some a /\
    Pd.drop a X = Ok X_train /\
    est_fit (estimator self) (AFrame X_train) y_train_adj = (estimator self1, Ok tt) /\
    col_ests self1 = col_ests self /\
    values_list self1 = values_list self /\
    sel_subset self1 = sel_subset self /\
    (forall X' s' y_pred,
       MetaRegressor.predict X' self1 = (s', Ok y_pred) ->
       exists X_test y_test_adj_pred,
         Pd.drop a X' = Ok X_test /\
         est_predict (estimator self1) (AFrame X_test) = Ok y_test_adj_pred).
Proof.
  intros HC Hfit.
  apply MetaRegressor_fit_Ok in Hfit
    as (s1 & X_adj & C_train & A_train & B_train & b & pi_train & y_adj & e'
        & Hff & HA & HB & _ & _ & _ & Hefit & ->).
  apply fit_features_C_train in Hff as (X_train & Hdrop & Hcase).
  rewrite HC in Hcase. destruct Hcase as (-> & -> & ->).
  unfold covariates_A in HA. unfold drop_covariates in Hdrop. rewrite HC in Hdrop.
  destruct (A self) as [a|] eqn:HAself.
  2:{ injection HA as <-. discriminate. }
  assert (Hdrop' : Pd.drop a X = Ok X_train).
  { destruct (Pd.drop a X); [exact Hdrop | discriminate]. }
  exists a, X_train, y_adj.
  repeat (split; [first [reflexivity | assumption]|]).
  intros X' s' y_pred Hpred.
  apply MetaRegressor_predict_Ok in Hpred as (X_adj' & C_test & y_adj' & pi_test & Hpf & Hep & _).
  apply predict_features_without_C in Hpf as (X_test & Hdrop2 & ->); [|exact HC].
  unfold drop_covariates in Hdrop2. cbn [A C set_estimator set_B_est] in Hdrop2.
  rewrite HAself, HC in Hdrop2.
  exists X_test, y_adj'. split; [|exact Hep].
  destruct (Pd.drop a X'); [exact Hdrop2 | discriminate].
Qed.

(** The covariates of the outcome model can be built when the first part
    of [fit] has returned and [A] or [C] is given. *)
Lemma B_train_Ok {B} (X : DataFrame) (self s1 : facade (E := E) B)
    (X_adj : arraylike) (C_train : option ndarray) :
  (A self <> None \/ C self <> None) ->
  fit_features X self = (s1, Ok (X_adj, C_train)) ->
  exists A_train B_train,
    covariates_A self X = Ok A_train /\ B_train_of A_train C_train = Ok B_train.
Proof.
  intros Hcfg Hff.
  apply fit_features_C_train in Hff as (X_train & Hdrop & HC).
  unfold covariates_A.
  destruct (A self) as [a|] eqn:HA.
  - pose proof (drop_covariates_A _ _ _ _ HA Hdrop) as Ha.
    rewrite (getitem_Ok _ _ Ha). cbn.
    destruct (C self) as [c|].
    + destruct HC as (Cdf & HCdf & ->). apply getitem_index_len in HCdf.
      eexists _, _. split; [reflexivity|]. cbn. rewrite HCdf, Nat.eqb_refl. reflexivity.
    + destruct HC as (-> & _). eexists _, _. split; reflexivity.
  - destruct (C self) as [c|]; [|destruct Hcfg; congruence].
    destruct HC as (Cdf & _ & ->). eexists _, _. split; reflexivity.
Qed.

(** X13: An exception of the outcome model or of the wrapped estimator is not
    caught by [fit] of [MetaRegressor], and nothing is undone: when the
    features have been adjusted and [fit] of the outcome model raises,
    [fit] raises the same exception, the estimators of the columns stay
    assigned and the wrapped estimator has not been called; when [fit] of
    the wrapped estimator raises, [fit] raises the same exception and the
    outcome model stays assigned too. *)
Theorem fit_propagates_failures (X : DataFrame) (y : vec)
    (self s1 : MetaRegressor.t) (X_train_adj : arraylike) (C_train : option ndarray) :
  (A self <> None \/ C self <> None) ->
  fit_features X self = (s1, Ok (X_train_adj, C_train)) ->
  exists B_train,
    (forall b err,
       lin_fit LinearRegression_new B_train y = (b, Raise err) ->
       MetaRegressor.fit X y self = (set_B_est b s1, Raise err)) /\
    (forall b pi_train y_train_adj e' err,
       lin_fit LinearRegression_new B_train y = (b, Ok tt) ->
       lin_predict b B_train = Ok pi_train ->
       Np.sub y pi_train = Ok y_train_adj ->
       est_fit (estimator self) X_train_adj y_train_adj = (e', Raise err) ->
       MetaRegressor.fit X y self = (set_estimator e' (set_B_est b s1), Raise err)).
Proof.
  intros Hcfg Hff.
  destruct (B_train_Ok X self s1 X_train_adj C_train Hcfg Hff)
    as (A_train & B_train & HA & HB).
  destruct (fit_features_keeps_config X _ _ _ Hff) as (_ & _ & _ & He1 & _).
  assert (Hg : match A self, C self with None, None => true | _, _ => false end = false).
  { destruct (A self), (C self); auto. destruct Hcfg; congruence. }
  exists B_train. split.
  - intros b err Hb.
    unfold MetaRegressor.fit, mbind, M_bind, get, lift, modify.
    rewrite Hg, Hff, HA, HB, Hb. reflexivity.
  - intros b pi_train y_adj e' err Hb Hpi Hsub Hefit.
    unfold MetaRegressor.fit, mbind, M_bind, get, lift, modify, estimator_fit.
    rewrite Hg, Hff, HA, HB, Hb. cbn. rewrite Hpi, Hsub. cbn.
    rewrite He1, Hefit. reflexivity.
Qed.

End PassThroughAndFailures.

(** ** The stored estimators and tags *)

Section StoredGroups.
Context `{LM : LinearModels} {E : Type} `{EST : Estimator E}.

Lemma X_adj_fit_lengths X_train C_train blk ce vl :
  X_adj_fit X_train C_train = Ok (blk, ce, vl) ->
  length ce = length vl /\
  length ce = (if Pd.empty X_train then 0 else length (cols X_train))%nat.
Proof.
  intros H. destruct (Pd.empty X_train) eqn:Hem.
  - rewrite X_adj_fit_empty in H by exact Hem. injection H as _ <- <-. auto.
  - apply X_adj_fit_Ok in H as (cols' & clfs & [= _ -> ->] & Hlen & _); auto.
    rewrite length_map, length_replicate. auto.
Qed.

(** The first part of [fit] with [C] and [None] or a list as [subset]: one
    call of [X_adj_fit], whose estimators and tags are the only entry of
    [col_ests] and of [values_list]. *)
Lemma fit_features_single_group {B} (X : DataFrame) (self s1 : facade (E := E) B)
    (c : list string) (X_adj : arraylike) (C_train : option ndarray) :
  C self = Some c ->
  (forall pairs, subset self <> SubsetTuple pairs) ->
  fit_features X self = (s1, Ok (X_adj, C_train)) ->
  exists X_sub C_arr blk ce vl,
    X_adj_fit X_sub C_arr = Ok (blk, ce, vl) /\
    col_ests s1 = Some [ce] /\ values_list s1 = Some [vl].
Proof.
  unfold fit_features. intros HC Hsub H.
  apply M_bind_Ok in H as (s & s0 & H0 & H). apply get_run in H0 as [-> ->].
  apply M_bind_Ok in H as (X_train & s0 & H0 & H). apply lift_run in H0 as [-> Hdrop].
  rewrite HC in H.
  apply M_bind_Ok in H as (u & s0 & H0 & H). apply modify_run in H0. subst s0.
  apply M_bind_Ok in H as (u' & s0 & H0 & H). apply modify_run in H0. subst s0.
  apply M_bind_Ok in H as (C_tr & s0 & H0 & H). apply lift_run in H0 as [-> HCtr].
  destruct (subset self) as [|names|prs] eqn:Hs; [| |destruct (Hsub prs eq_refl)].
  - apply M_bind_Ok in H as ([[adj ce] vl] & s0 & H0 & H). apply lift_run in H0 as [-> Hfit].
    apply M_bind_Ok in H as (u1 & s0 & H0 & H).
    unfold col_ests_append in H0.
    apply M_bind_Ok in H0 as (l & s2 & H1 & H0).
    apply getattr_run in H1 as [-> H1]. injection H1 as <-.
    apply modify_run in H0. subst s0.
    apply M_bind_Ok in H as (u2 & s0 & H0 & H).
    unfold values_list_append in H0.
    apply M_bind_Ok in H0 as (l & s2 & H1 & H0).
    apply getattr_run in H1 as [-> H1]. injection H1 as <-.
    apply modify_run in H0. subst s0.
    injection H as <- _ _.
    exists X_train, C_tr, adj, ce, vl. auto.
  - apply M_bind_Ok in H as (X_sub & s0 & H0 & H). apply lift_run in H0 as [-> Hsel].
    apply M_bind_Ok in H as ([[adj ce] vl] & s0 & H0 & H). apply lift_run in H0 as [-> Hfit].
    apply M_bind_Ok in H as (unsel & s0 & H0 & H). apply lift_run in H0 as [-> Hunsel].
    apply M_bind_Ok in H as (X_tr_adj & s0 & H0 & H). apply lift_run in H0 as [-> Hstack].
    apply M_bind_Ok in H as (u1 & s0 & H0 & H).
    unfold col_ests_append in H0.
    apply M_bind_Ok in H0 as (l & s2 & H1 & H0).
    apply getattr_run in H1 as [-> H1]. injection H1 as <-.
    apply modify_run in H0. subst s0.
    apply M_bind_Ok in H as (u2 & s0 & H0 & H).
    unfold values_list_append in H0.
    apply M_bind_Ok in H0 as (l & s2 & H1 & H0).
    apply getattr_run in H1 as [-> H1]. injection H1 as <-.
    apply modify_run in H0. subst s0.
    injection H as <- _ _.
    exists X_sub, C_tr, adj, ce, vl. auto.
Qed.

(** The first part of [fit] with [C] and a tuple as [subset]: the
    estimators and the tags of the pairs, in order. *)
Lemma fit_features_pairs {B} (X : DataFrame) (self s1 : facade (E := E) B)
    (c : list string) pairs (X_adj : arraylike) (C_train : option ndarray) :
  C self = Some c ->
  subset self = SubsetTuple pairs ->
  fit_features X self = (s1, Ok (X_adj, C_train)) ->
  exists X_train blocks,
    Forall2 (fun pair blk => pair_block X X_train pair = Ok blk) pairs blocks /\
    col_ests s1 = Some (map (fun blk => snd (fst blk)) blocks) /\
    values_list s1 = Some (map snd blocks).
Proof.
  unfold fit_features. intros HC Hsub H.
  apply M_bind_Ok in H as (s & s0 & H0 & H). apply get_run in H0 as [-> ->].
  apply M_bind_Ok in H as (X_train & s0 & H0 & H). apply lift_run in H0 as [-> Hdrop].
  rewrite HC, Hsub in H.
  apply M_bind_Ok in H as (u & s0 & H0 & H). apply modify_run in H0. subst s0.
  apply M_bind_Ok in H as (u' & s0 & H0 & H). apply modify_run in H0. subst s0.
  apply M_bind_Ok in H as (C_tr & s0 & H0 & H). apply lift_run in H0 as [-> HCtr].
  apply M_bind_Ok in H as (u1 & s0 & H0 & H). apply modify_run in H0. subst s0.
  apply M_bind_Ok in H as (acc & s0 & H0 & H).
  change (set_sel_subset [] (set_values_list [] (set_col_ests [] self)))
    with (with_features [] [] [] self) in H0.
  apply fit_pairs_Ok in H0 as (blocks & Hall & Hjoin & ->).
  apply M_bind_Ok in H as (sel & s0 & H0 & H).
  apply getattr_run in H0 as [-> H0].
  apply M_bind_Ok in H as (unsel & s0 & H0' & H). apply lift_run in H0' as [-> Hunsel].
  apply M_bind_Ok in H as (stacked & s0 & H0' & H). apply lift_run in H0' as [-> Hstack].
  injection H as <- _ _.
  exists X_train, blocks. auto.
Qed.

(** X14: After [fit] of [MetaRegressor] with [C], whatever [col_ests] and
    [values_list] held before: they hold one entry for each group of
    features (one group for [None] or a list as [subset], one group for
    each pair of a tuple), and the entries at the same position have the
    same length, one estimator and one tag for each adjusted column. *)
Theorem fit_stores_aligned_groups (X : DataFrame) (y : vec)
    (self self1 : MetaRegressor.t) (c : list string) :
  C self = Some c ->
  MetaRegressor.fit X y self = (self1, Ok tt) ->
  exists ces vls,
    col_ests self1 = Some ces /\
    values_list self1 = Some vls /\
    length ces = match subset self with
                 | SubsetTuple pairs => length pairs
                 | _ => 1%nat
                 end /\
    Forall2 (fun ce vl => length ce = length vl) ces vls.
Proof.
  intros HC Hfit.
  apply MetaRegressor_fit_Ok in Hfit
    as (s1 & X_adj & C_train & A_train & B_train & b & pi_train & y_adj & e'
        & Hff & _ & _ & _ & _ & _ & _ & ->).
  cbn [col_ests values_list set_estimator set_B_est].
  destruct (subset self) as [|names|pairs] eqn:Hsub.
  - apply (fit_features_single_group X self s1 c) in Hff
      as (X_sub & C_arr & blk & ce & vl & Hblk & -> & ->); [|exact HC|congruence].
    exists [ce], [vl]. repeat split; auto.
    constructor; [|constructor]. apply (X_adj_fit_lengths _ _ _ _ _ Hblk).
  - apply (fit_features_single_group X self s1 c) in Hff
      as (X_sub & C_arr & blk & ce & vl & Hblk & -> & ->); [|exact HC|congruence].
    exists [ce], [vl]. repeat split; auto.
    constructor; [|constructor]. apply (X_adj_fit_lengths _ _ _ _ _ Hblk).
  - destruct (fit_features_pairs X self s1 c pairs _ _ HC Hsub Hff)
      as (X_train & blocks & Hall & Hce & Hvl).
    rewrite Hce, Hvl.
    eexists _, _. split; [reflexivity|]. split; [reflexivity|]. split.
    + rewrite length_map. symmetry. eapply Forall2_length; eauto.
    + apply Forall2_fmap, Forall_Forall2_diag, Forall_forall.
      intros [[blk ce] vl] Hin. cbn.
      apply list_elem_of_lookup in Hin as [i Hi].
      destruct (Forall2_lookup_r _ _ _ _ _ Hall Hi) as (pair & _ & Hblk).
      unfold pair_block in Hblk. bind_inv Hblk. bind_inv Hblk.
      apply (X_adj_fit_lengths _ _ _ _ _ Hblk).
Qed.

End StoredGroups.

Section OutcomeToy.
Import Toy.
Local Open Scope Q_scope.

Lemma toy_regressor_pairs_fit :
  MetaRegressor.fit frame target regressor_pairs_init = (regressor_pairs, Ok tt).
Proof. vm_compute. reflexivity. Qed.

(** The outcome model of [Toy.regressor_pairs]: [A] is [N1], [C] is [N2]. *)
Lemma fit_outcome_model_on_A_then_C_toy :
  MetaRegressor.fit frame target regressor_pairs_init = (regressor_pairs, Ok tt) /\
  exists b,
    lin_fit LinearRegression_new
      (Arr2 5 [[1; 0; 1; 0; 1]; [0; 0; 1; 1; 1]]) target = (b, Ok tt) /\
    B_est regressor_pairs = Some b.
Proof.
  split; [exact toy_regressor_pairs_fit|].
  destruct (proj1 (fit_outcome_model_on_A_then_C frame target)
              regressor_pairs_init regressor_pairs toy_regressor_pairs_fit)
    as (Adf & Cdf & b & HA & HC & Hb & Hbest).
  injection HA as <-. injection HC as <-.
  exists b. split; [exact Hb | exact Hbest].
Defined.

(** [Toy.regressor_A_init] has no [C]. *)
Lemma fit_without_C_adjusts_nothing_toy :
  C regressor_A_init = None /\
  MetaRegressor.fit frame target regressor_A_init = (regressor_A, Ok tt) /\
  col_ests regressor_A = None /\
  exists y_train_adj,
    est_fit (estimator regressor_A_init) (AFrame features) y_train_adj
    = (estimator regressor_A, Ok tt).
Proof.
  assert (Hfit : MetaRegressor.fit frame target regressor_A_init = (regressor_A, Ok tt))
    by (vm_compute; reflexivity).
  split; [reflexivity|]. split; [exact Hfit|].
  destruct (fit_without_C_adjusts_nothing frame target regressor_A_init regressor_A
              eq_refl Hfit)
    as (a & X_train & y_adj & HA & Hdrop & Hest & Hce & _).
  injection HA as <-. injection Hdrop as <-.
  split; [exact Hce|]. exists y_adj. exact Hest.
Defined.

(** The toy regression refuses the empty target: [fit] of
    [Toy.regressor_pairs_init] on it raises [ValueError] after the
    features have been adjusted. *)
Lemma fit_propagates_failures_toy :
  (A regressor_pairs_init <> None \/ C regressor_pairs_init <> None) /\
  fit_features frame regressor_pairs_init = (pairs_state, Ok (pairs_block, pairs_C_train)) /\
  MetaRegressor.fit frame [] regressor_pairs_init
  = (set_B_est None pairs_state, Raise ValueError) /\
  col_ests (set_B_est (B := LinearRegression) None pairs_state) = col_ests pairs_state.
Proof.
  assert (Hcfg : A regressor_pairs_init <> None \/ C regressor_pairs_init <> None)
    by (left; discriminate).
  assert (Hff : fit_features frame regressor_pairs_init
                = (pairs_state, Ok (pairs_block, pairs_C_train)))
    by (vm_compute; reflexivity).
  split; [exact Hcfg|]. split; [exact Hff|]. split; [|reflexivity].
  destruct (fit_propagates_failures frame [] regressor_pairs_init pairs_state
              pairs_block pairs_C_train Hcfg Hff) as (B_train & Hfail & _).
  apply Hfail. cbn. rewrite andb_false_r. reflexivity.
Defined.

(** [Toy.regressor_pairs] has two pairs. *)
Lemma fit_stores_aligned_groups_toy :
  C regressor_pairs_init = Some ["N2"] /\
  MetaRegressor.fit frame target regressor_pairs_init = (regressor_pairs, Ok tt) /\
  exists ces vls,
    col_ests regressor_pairs = Some ces /\ values_list regressor_pairs = Some vls /\
    length ces = 2%nat /\
    Forall2 (fun ce vl => length ce = length vl) ces vls.
Proof.
  split; [reflexivity|]. split; [exact toy_regressor_pairs_fit|].
  exact (fit_stores_aligned_groups frame target regressor_pairs_init regressor_pairs
           ["N2"] eq_refl toy_regressor_pairs_fit).
Defined.

End OutcomeToy.

(** ** A list as [subset] without any feature *)

Section ListWithoutFeatures.
Context `{LM : LinearModels} {E : Type} `{EST : Estimator E}.

Lemma drop_nothing (df : DataFrame) : Pd.drop [] df = Ok df.
Proof.
  unfold Pd.drop. cbn. destruct df as [n cs]. cbn. f_equal. f_equal.
  induction cs as [|c cs IH]; [reflexivity|]. cbn. rewrite IH. reflexivity.
Qed.

(** The first part of [fit] when no name of the list is a feature. *)
Lemma fit_features_list_without_features {B} (X X_train : DataFrame)
    (self : facade (E := E) B) (c names : list string) :
  C self = Some c ->
  subset self = SubsetList names ->
  drop_covariates self X = Ok X_train ->
  comm_features_of names X_train = [] ->
  exists Cdf,
    Pd.getitem c X = Ok Cdf /\
    fit_features X self
    = (set_values_list [[]] (set_col_ests [[]] self),
       Ok (AArr (Pd.values X_train), Some (Pd.values Cdf))).
Proof.
  intros HC Hsub Hdrop Hcomm.
  pose proof (drop_covariates_C _ _ _ _ HC Hdrop) as Hc.
  eexists. split; [apply getitem_Ok; exact Hc|].
  unfold fit_features, mbind, M_bind, get, lift, modify, getattr.
  rewrite Hdrop, HC, (getitem_Ok _ _ Hc), Hsub, Hcomm.
  cbn [fmap result_fmap].
  rewrite (getitem_Ok [] X_train eq_refl). cbn [flat_map].
  rewrite X_adj_fit_empty by (unfold Pd.empty; cbn; apply orb_true_r).
  rewrite drop_nothing. cbn [fmap result_fmap asarray Pd.values index_len cols].
  unfold Pd.values at 1 2. cbn [index_len cols map Np.hstack].
  rewrite Nat.eqb_refl. reflexivity.
Qed.

(** X15: With [C] and a list as [subset] none of whose names is a feature
    column, [fit] of [MetaRegressor] adjusts nothing: the wrapped estimator
    is fitted on the array of all the features as they are, and [col_ests]
    and [values_list] hold one empty list each. *)
Theorem fit_list_without_features_adjusts_nothing (X X_train : DataFrame) (y : vec)
    (self self1 : MetaRegressor.t) (c names : list string) :
  C self = Some c ->
  subset self = SubsetList names ->
  drop_covariates self X = Ok X_train ->
  (forall a, In a names -> ~ In a (Pd.columns X_train)) ->
  MetaRegressor.fit X y self = (self1, Ok tt) ->
  col_ests self1 = Some [[]] /\
  values_list self1 = Some [[]] /\
  exists y_train_adj,
    est_fit (estimator self) (AArr (Pd.values X_train)) y_train_adj
    = (estimator self1, Ok tt).
Proof.
  intros HC Hsub Hdrop Hnone Hfit.
  assert (Hcomm : comm_features_of names X_train = []).
  { unfold comm_features_of. clear - Hnone.
    induction names as [|a names IH]; [reflexivity|]. cbn.
    destruct (Pd.contains (Pd.columns X_train) a) eqn:Ha.
    - apply contains_In in Ha. destruct (Hnone a (or_introl eq_refl) Ha).
    - apply IH. intros x Hx. apply Hnone. right. exact Hx. }
  destruct (fit_features_list_without_features X X_train self c names HC Hsub Hdrop Hcomm)
    as (Cdf & _ & Hff).
  apply MetaRegressor_fit_Ok in Hfit
    as (s1 & X_adj & C_train & A_train & B_train & b & pi_train & y_adj & e'
        & Hff' & _ & _ & _ & _ & _ & Hefit & ->).
  rewrite Hff in Hff'. injection Hff' as <- <- _.
  split; [reflexivity|]. split; [reflexivity|].
  exists y_adj. exact Hefit.
Qed.

End ListWithoutFeatures.

Section ListWithoutFeaturesToy.
Import Toy.

(** [subset = ["X9"]] on [Toy.frame]. *)
Lemma fit_list_without_features_adjusts_nothing_toy :
  C regressor_X9_init = Some ["N1"; "N2"] /\
  subset regressor_X9_init = SubsetList ["X9"] /\
  drop_covariates regressor_X9_init frame = Ok features /\
  (forall a, In a ["X9"] -> ~ In a (Pd.columns features)) /\
  MetaRegressor.fit frame target regressor_X9_init = (regressor_X9, Ok tt) /\
  col_ests regressor_X9 = Some [[]].
Proof.
  assert (Hnone : forall a, In a ["X9"] -> ~ In a (Pd.columns features)).
  { intros a [<- | []] H. cbn in H.
    repeat (destruct H as [H | H]; [discriminate|]). exact H. }
  assert (Hfit : MetaRegressor.fit frame target regressor_X9_init = (regressor_X9, Ok tt))
    by (vm_compute; reflexivity).
  split; [reflexivity|]. split; [reflexivity|]. split; [reflexivity|].
  split; [exact Hnone|]. split; [exact Hfit|].
  exact (proj1 (fit_list_without_features_adjusts_nothing
                  frame features target regressor_X9_init regressor_X9
                  ["N1"; "N2"] ["X9"] eq_refl eq_refl eq_refl Hnone Hfit)).
Defined.

End ListWithoutFeaturesToy.
